(** * Sentiment analysis servers: a shallow embedding and its properties

    The repository holds four HTTP servers.  Two of them
    ([simple_fastapi_api.py], [simple_flask_api.py]) score a text with a
    word-list rule; the other two ([fastapi_api.py], [flask_api.py]) apply a
    pre-trained classifier loaded from disk.  Each server is embedded in a
    module of its own, named after its file, and the functions keep the
    names they have in the source.

    Conventions of the embedding.
    - A Python [str] is a [string]; a character is a code point below 256.
    - A Python [int] is a [Z].
    - A confidence, a Python [float], is read as the rational number its
      literal denotes and the confidence formula as exact arithmetic on
      [Q]; equalities between confidences are therefore stated with [==].
      The formula is also evaluated on binary64 floats, which gives the
      floats nearest to these rationals.
    - Where the code adds and divides confidences, in the average of a
      batch, the rounding shows in the answer: there each confidence is
      the binary64 float nearest to its rational ([Py.binary64]) and the
      sum and the quotient are those of binary64 arithmetic.
    - [datetime.now().isoformat()] is a reading of a clock that the caller
      supplies.
    - A raised exception is the left summand of a [sum]. *)

From Stdlib Require Import String Ascii List Bool ZArith NArith.
From Stdlib Require Import QArith Qminmax Lia Lqa Permutation.
From Stdlib Require Import Floats.PrimFloat.
From Stdlib Require Uint63.
Import ListNotations.

#[local] Set Warnings "-inexact-float".

Local Open Scope string_scope.
Local Open Scope Z_scope.

(** ** Python string primitives *)

Module Py.

Definition code (c : ascii) : N := N_of_ascii c.

Definition between (lo hi n : N) : bool := ((lo <=? n) && (n <=? hi))%N.

(** [str.isspace] on one character; also the class [\s] of [re]. *)
Definition isspace (c : ascii) : bool :=
  let n := code c in
  between 9 13 n || between 28 32 n || (n =? 133)%N || (n =? 160)%N.

(** [str.isalnum] on one character. *)
Definition isalnum (c : ascii) : bool :=
  let n := code c in
  between 48 57 n || between 65 90 n || between 97 122 n
  || (n =? 170)%N || (n =? 181)%N || (n =? 186)%N
  || between 178 179 n || (n =? 185)%N || between 188 190 n
  || between 192 214 n || between 216 246 n || between 248 255 n.

(** The class [\w] of [re]: alphanumeric or underscore. *)
Definition isword (c : ascii) : bool := isalnum c || (code c =? 95)%N.

Definition lower_char (c : ascii) : ascii :=
  let n := code c in
  if between 65 90 n || between 192 214 n || between 216 222 n
  then ascii_of_N (n + 32) else c.

(** [s.lower()] *)
Fixpoint lower (s : string) : string :=
  match s with
  | EmptyString => EmptyString
  | String c s' => String (lower_char c) (lower s')
  end.

(** The items a bracketed character class of [re] may list; only the two
    the servers use. *)
Inductive class_item : Type := ClsWord | ClsSpace.

Definition item_matches (i : class_item) (c : ascii) : bool :=
  match i with ClsWord => isword c | ClsSpace => isspace c end.

(** A one-character pattern: [[...]] or [[^...]]. *)
Record char_class : Type := { negated : bool; items : list class_item }.

Definition class_matches (p : char_class) (c : ascii) : bool :=
  let hit := existsb (fun i => item_matches i c) (items p) in
  if negated p then negb hit else hit.

(** [re.sub(p, repl, s)] for a one-character pattern [p]: every matching
    character is replaced by [repl], the others are kept. *)
Fixpoint re_sub (p : char_class) (repl s : string) : string :=
  match s with
  | EmptyString => EmptyString
  | String c s' =>
      if class_matches p c then repl ++ re_sub p repl s'
      else String c (re_sub p repl s')
  end.

(** [s.split()] with no argument: scan the string, collect the characters
    of the current word, close the word at each whitespace character. *)
Fixpoint split_loop (word s : string) : list string :=
  match s with
  | EmptyString => if String.eqb word "" then [] else [word]
  | String c s' =>
      if isspace c
      then (if String.eqb word "" then split_loop "" s'
            else word :: split_loop "" s')
      else split_loop (word ++ String c "") s'
  end.

Definition split (s : string) : list string := split_loop "" s.

Fixpoint lstrip (s : string) : string :=
  match s with
  | EmptyString => EmptyString
  | String c s' => if isspace c then lstrip s' else s
  end.

Fixpoint rstrip (s : string) : string :=
  match s with
  | EmptyString => EmptyString
  | String c s' =>
      let r := rstrip s' in
      if isspace c && String.eqb r "" then "" else String c r
  end.

(** [s.strip()] *)
Definition strip (s : string) : string := rstrip (lstrip s).

(** Truth value of a [str]: the empty string is false. *)
Definition truthy (s : string) : bool := negb (String.eqb s "").

(** [w in l] for a list of strings. *)
Definition in_list (w : string) (l : list string) : bool :=
  existsb (String.eqb w) l.

(** [len(l)] *)
Definition len {A : Type} (l : list A) : Z := Z.of_nat (length l).

(** [sum(g)] over integers, starting from [0]. *)
Definition sum (l : list Z) : Z := fold_left Z.add l 0.

(** [float(n)], the conversion an integer operand of a float operation
    undergoes, for [0 <= n < 2^63]. *)
Definition float_of_int (n : Z) : float := PrimFloat.of_uint63 (Uint63.of_Z n).

(** The binary64 float a rational of the model stands for: the quotient
    of its numerator by its denominator, which binary64 division rounds to
    the nearest float when both are below [2^53], as they are for every
    confidence of the scoring functions. *)
Definition binary64 (q : Q) : float :=
  PrimFloat.div (float_of_int (Qnum q)) (float_of_int (Zpos (Qden q))).

(** [sum(g)] over floats, starting from [0]: the terms are added one
    after the other, each addition rounded to binary64 (the summation of
    CPython up to 3.11; later versions carry a correction term along). *)
Definition fsum (l : list float) : float := fold_left PrimFloat.add l 0%float.

(** [min(a, b)]: the first argument unless the second is smaller. *)
Definition min (a b : Q) : Q := if Qle_bool a b then a else b.

(** [max] of a sequence of floats; [None] stands for the [ValueError] on
    an empty sequence. *)
Definition max_list (l : list Q) : option Q :=
  match l with
  | [] => None
  | x :: l' => Some (fold_left (fun m y => if Qle_bool y m then m else y) l' x)
  end.

(** [len(s)] for a string. *)
Definition str_len (s : string) : Z := Z.of_nat (String.length s).

End Py.

(** An error answer: the status code and the message of the body. *)
Record http_error : Type := { status_code : Z; detail : string }.

Definition HTTPException (code : Z) (msg : string) : http_error :=
  {| status_code := code; detail := msg |}.

(** ** [simple_fastapi_api.py] *)

Module SimpleFastAPI.

Definition positive_words : list string :=
  ["good"; "great"; "excellent"; "amazing"; "wonderful"; "fantastic";
   "awesome"; "brilliant"; "outstanding"; "superb"; "perfect"; "love";
   "like"; "enjoy"; "happy"; "pleased"; "satisfied"; "impressive";
   "remarkable"; "spectacular"; "marvelous"; "terrific"; "incredible";
   "best"; "favorite"; "recommend"; "enjoyable"; "entertaining"].

Definition negative_words : list string :=
  ["bad"; "terrible"; "awful"; "horrible"; "disgusting"; "hate";
   "dislike"; "boring"; "dull"; "disappointing"; "poor"; "worst";
   "pathetic"; "useless"; "annoying"; "frustrating"; "sad"; "angry";
   "upset"; "depressing"; "mediocre"; "uninspiring"; "inadequate";
   "waste"; "stupid"; "ridiculous"; "pointless"; "confusing"].

Record analysis : Type := {
  sentiment : string;
  confidence : Q;
  positive_words_found : Z;
  negative_words_found : Z;
  total_words : Z
}.

(** The word list of a text: [text_clean.split()]. *)
Definition words_of (text : string) : list string :=
  let text_lower := Py.lower text in
  let text_clean :=
    Py.re_sub {| Py.negated := true; Py.items := [Py.ClsWord; Py.ClsSpace] |}
              "" text_lower in
  Py.split text_clean.

Definition simple_sentiment_analysis (text : string) : analysis :=
  let words := words_of text in
  let positive_count :=
    Py.sum (map (fun _ => 1)
                (filter (fun word => Py.in_list word positive_words) words)) in
  let negative_count :=
    Py.sum (map (fun _ => 1)
                (filter (fun word => Py.in_list word negative_words) words)) in
  let '(sentiment, confidence) :=
    if positive_count >? negative_count then
      ("positive",
       Py.min (0.6 + inject_Z (positive_count - negative_count) * 0.1) 0.95)%Q
    else if negative_count >? positive_count then
      ("negative",
       Py.min (0.6 + inject_Z (negative_count - positive_count) * 0.1) 0.95)%Q
    else ("neutral", 0.5%Q) in
  {| sentiment := sentiment;
     confidence := confidence;
     positive_words_found := positive_count;
     negative_words_found := negative_count;
     total_words := Py.len words |}.

Record details : Type := {
  d_positive_words_found : Z;
  d_negative_words_found : Z;
  d_total_words : Z
}.

Record SentimentResponse : Type := {
  r_sentiment : string;
  r_confidence : Q;
  r_text : string;
  r_details : details;
  r_timestamp : string;
  r_status : string
}.

(** The handler of [POST /predict].  [now] is the clock reading taken when
    the answer is built.  The scoring function raises nothing, so only the
    [HTTPException] of the handler itself can leave it. *)
Definition predict (now : string) (request_text : string)
  : http_error + SentimentResponse :=
  let text := Py.strip request_text in
  if negb (Py.truthy text) then inl (HTTPException 400 "Text cannot be empty")
  else
    let result := simple_sentiment_analysis text in
    inr {| r_sentiment := sentiment result;
           r_confidence := confidence result;
           r_text := text;
           r_details :=
             {| d_positive_words_found := positive_words_found result;
                d_negative_words_found := negative_words_found result;
                d_total_words := total_words result |};
           r_timestamp := now;
           r_status := "success" |}.

Record batch_item : Type := {
  b_text : string;
  b_sentiment : string;
  b_confidence : Q;
  b_details : details
}.

Record summary : Type := {
  total_texts : Z;
  positive_count : Z;
  negative_count : Z;
  neutral_count : Z;
  average_confidence : float
}.

Record BatchSentimentResponse : Type := {
  results : list batch_item;
  batch_summary : summary;
  batch_timestamp : string;
  batch_status : string
}.

(** The variables the loop of [predict_batch] updates. *)
Record loop_state : Type := {
  ls_results : list batch_item;
  ls_positive : Z;
  ls_negative : Z;
  ls_neutral : Z
}.

Definition loop_body (st : loop_state) (text : string) : loop_state :=
  let result := simple_sentiment_analysis text in
  let item :=
    {| b_text := text;
       b_sentiment := sentiment result;
       b_confidence := confidence result;
       b_details :=
         {| d_positive_words_found := positive_words_found result;
            d_negative_words_found := negative_words_found result;
            d_total_words := total_words result |} |} in
  let results' := (ls_results st ++ [item])%list in
  if String.eqb (sentiment result) "positive" then
    {| ls_results := results'; ls_positive := ls_positive st + 1;
       ls_negative := ls_negative st; ls_neutral := ls_neutral st |}
  else if String.eqb (sentiment result) "negative" then
    {| ls_results := results'; ls_positive := ls_positive st;
       ls_negative := ls_negative st + 1; ls_neutral := ls_neutral st |}
  else
    {| ls_results := results'; ls_positive := ls_positive st;
       ls_negative := ls_negative st; ls_neutral := ls_neutral st + 1 |}.

(** The handler of [POST /predict/batch]. *)
Definition predict_batch (now : string) (request_texts : list string)
  : http_error + BatchSentimentResponse :=
  let texts :=
    map Py.strip (filter (fun text => Py.truthy (Py.strip text)) request_texts) in
  match texts with
  | [] => inl (HTTPException 400 "No valid texts provided")
  | _ :: _ =>
      let st :=
        fold_left loop_body texts
          {| ls_results := []; ls_positive := 0; ls_negative := 0;
             ls_neutral := 0 |} in
      let results := ls_results st in
      inr {| results := results;
             batch_summary :=
               {| total_texts := Py.len results;
                  positive_count := ls_positive st;
                  negative_count := ls_negative st;
                  neutral_count := ls_neutral st;
                  average_confidence :=
                    PrimFloat.div
                      (Py.fsum (map (fun r => Py.binary64 (b_confidence r))
                                    results))
                      (Py.float_of_int (Py.len results)) |};
             batch_timestamp := now;
             batch_status := "success" |}
  end.

(** The constraints the request models put on their field:
    [min_length=1, max_length=10000] on the text of a [TextRequest],
    [min_items=1, max_items=100] on the texts of a [BatchTextRequest]. *)
Definition TextRequest_valid (text : string) : bool :=
  (1 <=? Py.str_len text) && (Py.str_len text <=? 10000).

Definition BatchTextRequest_valid (texts : list string) : bool :=
  (1 <=? Py.len texts) && (Py.len texts <=? 100).

End SimpleFastAPI.

(** A JSON value as a Flask handler sees it once decoded: a string, or a
    value of another type, of which only the truth value matters (false
    for [null], [false], [0], [[]] and [{}]). *)
Inductive json_value : Type :=
| JStr (s : string)
| JOther (truth : bool).

(** ** [simple_flask_api.py] *)

Module SimpleFlask.

Definition positive_words : list string :=
  ["good"; "great"; "excellent"; "amazing"; "wonderful"; "fantastic";
   "awesome"; "brilliant"; "outstanding"; "superb"; "perfect"; "love";
   "like"; "enjoy"; "happy"; "pleased"; "satisfied"; "impressive";
   "remarkable"; "spectacular"; "marvelous"; "terrific"; "incredible"].

Definition negative_words : list string :=
  ["bad"; "terrible"; "awful"; "horrible"; "disgusting"; "hate";
   "dislike"; "boring"; "dull"; "disappointing"; "poor"; "worst";
   "pathetic"; "useless"; "annoying"; "frustrating"; "sad"; "angry";
   "upset"; "depressing"; "mediocre"; "uninspiring"; "inadequate"].

Record analysis : Type := {
  sentiment : string;
  confidence : Q;
  positive_words_found : Z;
  negative_words_found : Z
}.

(** The word list of a text: [text.split()] after the two reassignments
    of [text]. *)
Definition words_of (text : string) : list string :=
  let text := Py.lower text in
  let text :=
    Py.re_sub {| Py.negated := true; Py.items := [Py.ClsWord; Py.ClsSpace] |}
              "" text in
  Py.split text.

Definition simple_sentiment_analysis (text : string) : analysis :=
  let words := words_of text in
  let positive_count :=
    Py.sum (map (fun _ => 1)
                (filter (fun word => Py.in_list word positive_words) words)) in
  let negative_count :=
    Py.sum (map (fun _ => 1)
                (filter (fun word => Py.in_list word negative_words) words)) in
  let '(sentiment, confidence) :=
    if positive_count >? negative_count then
      ("positive",
       Py.min (0.6 + inject_Z (positive_count - negative_count) * 0.1) 0.95)%Q
    else if negative_count >? positive_count then
      ("negative",
       Py.min (0.6 + inject_Z (negative_count - positive_count) * 0.1) 0.95)%Q
    else ("neutral", 0.5%Q) in
  {| sentiment := sentiment;
     confidence := confidence;
     positive_words_found := positive_count;
     negative_words_found := negative_count |}.

Record details : Type := {
  d_positive_words_found : Z;
  d_negative_words_found : Z
}.

Record response : Type := {
  r_sentiment : string;
  r_confidence : Q;
  r_text : string;
  r_details : details;
  r_timestamp : string;
  r_status : string
}.

Definition internal_server_error : http_error :=
  HTTPException 500 "Internal server error".

(** The handler of [POST /predict], from the point where [data['text']]
    is read.  A value that is not a string and is true has no [strip]:
    the [AttributeError] is caught by the handler and answered with 500. *)
Definition predict (now : string) (text : json_value)
  : http_error + response :=
  match text with
  | JOther false => inl (HTTPException 400 "Text cannot be empty")
  | JOther true => inl internal_server_error
  | JStr text =>
      if negb (Py.truthy text) || negb (Py.truthy (Py.strip text))
      then inl (HTTPException 400 "Text cannot be empty")
      else
        let result := simple_sentiment_analysis text in
        inr {| r_sentiment := sentiment result;
               r_confidence := confidence result;
               r_text := text;
               r_details :=
                 {| d_positive_words_found := positive_words_found result;
                    d_negative_words_found := negative_words_found result |};
               r_timestamp := now;
               r_status := "success" |}
  end.

Record batch_item : Type := {
  b_text : string;
  b_sentiment : string;
  b_confidence : Q;
  b_details : details
}.

Record summary : Type := {
  total_texts : Z;
  positive_count : Z;
  negative_count : Z;
  neutral_count : Z
}.

Record batch_response : Type := {
  results : list batch_item;
  batch_summary : summary;
  batch_timestamp : string;
  batch_status : string
}.

Record loop_state : Type := {
  ls_results : list batch_item;
  ls_positive : Z;
  ls_negative : Z;
  ls_neutral : Z
}.

(** One turn of the loop; [None] is the [AttributeError] that ends the
    request. *)
Definition loop_body (st : loop_state) (text : json_value)
  : option loop_state :=
  match text with
  | JOther false => Some st
  | JOther true => None
  | JStr text =>
      if negb (Py.truthy text) || negb (Py.truthy (Py.strip text))
      then Some st
      else
        let result := simple_sentiment_analysis text in
        let item :=
          {| b_text := text;
             b_sentiment := sentiment result;
             b_confidence := confidence result;
             b_details :=
               {| d_positive_words_found := positive_words_found result;
                  d_negative_words_found := negative_words_found result |} |} in
        let results' := (ls_results st ++ [item])%list in
        Some
          (if String.eqb (sentiment result) "positive" then
             {| ls_results := results'; ls_positive := ls_positive st + 1;
                ls_negative := ls_negative st; ls_neutral := ls_neutral st |}
           else if String.eqb (sentiment result) "negative" then
             {| ls_results := results'; ls_positive := ls_positive st;
                ls_negative := ls_negative st + 1;
                ls_neutral := ls_neutral st |}
           else
             {| ls_results := results'; ls_positive := ls_positive st;
                ls_negative := ls_negative st;
                ls_neutral := ls_neutral st + 1 |})
  end.

Fixpoint loop (st : loop_state) (texts : list json_value)
  : option loop_state :=
  match texts with
  | [] => Some st
  | text :: rest =>
      match loop_body st text with
      | None => None
      | Some st' => loop st' rest
      end
  end.

(** The handler of [POST /predict/batch], from the point where
    [data['texts']] is known to be a list. *)
Definition predict_batch (now : string) (texts : list json_value)
  : http_error + batch_response :=
  if (Py.len texts =? 0) then
    inl (HTTPException 400 "texts array cannot be empty")
  else
    match loop {| ls_results := []; ls_positive := 0; ls_negative := 0;
                  ls_neutral := 0 |} texts with
    | None => inl internal_server_error
    | Some st =>
        inr {| results := ls_results st;
               batch_summary :=
                 {| total_texts := Py.len (ls_results st);
                    positive_count := ls_positive st;
                    negative_count := ls_negative st;
                    neutral_count := ls_neutral st |};
               batch_timestamp := now;
               batch_status := "success" |}
    end.

End SimpleFlask.

(** ** The classifier bundle and the effects of the model servers *)

(** A raised exception: an [HTTPException], or any other exception, kept
    as its class name and message. *)
Inductive exn : Type :=
| HTTPExc (e : http_error)
| PyExc (kind msg : string).

(** The feature matrix a vectorizer returns: one row per document. *)
Definition matrix : Type := list (list Q).

(** The four pickled objects.  The methods are those the servers call; a
    method either raises or returns. *)
Record Model : Type := {
  predict : matrix -> exn + list Z;
  predict_proba : matrix -> exn + list (list Q)
}.

Record Vectorizer : Type := {
  transform : list string -> exn + matrix
}.

Definition dict (V : Type) : Type := list (string * V).

Fixpoint dict_get {V : Type} (d : dict V) (key : string) : option V :=
  match d with
  | [] => None
  | (k, v) :: d' => if String.eqb k key then Some v else dict_get d' key
  end.

Inductive meta_value : Type :=
| MStr (s : string)
| MNum (q : Q).

(** The module-level variables [model], [vectorizer],
    [preprocessing_functions] and [metadata]; [None] is Python's [None]. *)
Record globals : Type := {
  model : option Model;
  vectorizer : option Vectorizer;
  preprocessing_functions : option (dict (string -> exn + string));
  metadata : option (dict meta_value)
}.

Definition no_globals : globals :=
  {| model := None; vectorizer := None; preprocessing_functions := None;
     metadata := None |}.

(** What [joblib.load] gives for each of the four files of [models/]. *)
Record disk : Type := {
  sentiment_model_pkl : exn + Model;
  tfidf_vectorizer_pkl : exn + Vectorizer;
  preprocessing_functions_pkl : exn + dict (string -> exn + string);
  model_metadata_pkl : exn + dict meta_value
}.

(** The calls made to the bundle, in order. *)
Inductive call : Type :=
| CallPreprocess (text : string)
| CallTransform (docs : list string)
| CallPredict (x : matrix)
| CallPredictProba (x : matrix).

(** The world a request runs in: the clock, the number of readings taken
    from it and the calls made to the bundle so far. *)
Record world : Type := {
  clock : nat -> string;
  ticks : nat;
  calls : list call
}.

(** Computations that read the clock, call the bundle and may raise. *)
Definition M (E A : Type) : Type := world -> (E + A) * world.

Definition ret {E A : Type} (a : A) : M E A := fun w => (inr a, w).

Definition raise {E A : Type} (e : E) : M E A := fun w => (inl e, w).

Definition bind {E A B : Type} (m : M E A) (k : A -> M E B) : M E B :=
  fun w =>
    match m w with
    | (inl e, w') => (inl e, w')
    | (inr a, w') => k a w'
    end.

Definition try_except {E E' A : Type} (m : M E A) (handler : E -> M E' A)
  : M E' A :=
  fun w =>
    match m w with
    | (inl e, w') => handler e w'
    | (inr a, w') => (inr a, w')
    end.

Notation "x <- m ;; k" := (bind m (fun x => k))
  (at level 61, m at next level, right associativity).

(** [datetime.now().isoformat()] *)
Definition now {E : Type} : M E string :=
  fun w =>
    (inr (clock w (ticks w)),
     {| clock := clock w; ticks := S (ticks w); calls := calls w |}).

(** A call to a method of the bundle: it is recorded, then it raises or
    returns. *)
Definition invoke {A : Type} (c : call) (r : exn + A) : M exn A :=
  fun w =>
    (r, {| clock := clock w; ticks := ticks w; calls := (calls w ++ [c])%list |}).

(** [obj.attr] and [obj[key]] on a variable that may hold [None]. *)
Definition attribute {A : Type} (obj : option A) : M exn A :=
  match obj with
  | Some a => ret a
  | None => raise (PyExc "AttributeError" "'NoneType' object has no attribute")
  end.

Definition subscript {V : Type} (obj : option (dict V)) (key : string)
  : M exn V :=
  match obj with
  | None => raise (PyExc "TypeError" "'NoneType' object is not subscriptable")
  | Some d =>
      match dict_get d key with
      | Some v => ret v
      | None => raise (PyExc "KeyError" key)
      end
  end.

(** [l[0]] *)
Definition first {A : Type} (l : list A) : M exn A :=
  match l with
  | a :: _ => ret a
  | [] => raise (PyExc "IndexError" "index 0 is out of bounds")
  end.

(** [row.max()] *)
Definition row_max (row : list Q) : M exn Q :=
  match Py.max_list row with
  | Some q => ret q
  | None => raise (PyExc "ValueError" "zero-size array")
  end.

(** [for x in l: st = body(st, x)] *)
Fixpoint for_each {E A S : Type} (body : S -> A -> M E S) (st : S)
  (l : list A) : M E S :=
  match l with
  | [] => ret st
  | x :: l' => st' <- body st x ;; for_each body st' l'
  end.

(** [enumerate(l)], counting from [i]. *)
Fixpoint enumerate_from {A : Type} (i : Z) (l : list A) : list (Z * A) :=
  match l with
  | [] => []
  | x :: l' => (i, x) :: enumerate_from (i + 1) l'
  end.

Definition enumerate {A : Type} (l : list A) : list (Z * A) :=
  enumerate_from 0 l.

(** The three messages logged after the four loads read
    [metadata['model_name']] and format [metadata['accuracy']] and
    [metadata['f1_score']] as numbers; a missing key or a value that is
    not a number raises. *)
Definition log_metadata (md : dict meta_value) : bool :=
  match dict_get md "model_name", dict_get md "accuracy", dict_get md "f1_score" with
  | Some _, Some (MNum _), Some (MNum _) => true
  | _, _, _ => false
  end.

(** [load_model_components], the same text in [fastapi_api.py] and
    [flask_api.py]: the four variables are assigned one after the other,
    and the first exception ends the function with [False], leaving the
    assignments already made. *)
Definition load_model_components (d : disk) (g : globals) : bool * globals :=
  match sentiment_model_pkl d with
  | inl _ => (false, g)
  | inr m =>
      let g := {| model := Some m; vectorizer := vectorizer g;
                  preprocessing_functions := preprocessing_functions g;
                  metadata := metadata g |} in
      match tfidf_vectorizer_pkl d with
      | inl _ => (false, g)
      | inr v =>
          let g := {| model := model g; vectorizer := Some v;
                      preprocessing_functions := preprocessing_functions g;
                      metadata := metadata g |} in
          match preprocessing_functions_pkl d with
          | inl _ => (false, g)
          | inr f =>
              let g := {| model := model g; vectorizer := vectorizer g;
                          preprocessing_functions := Some f;
                          metadata := metadata g |} in
              match model_metadata_pkl d with
              | inl _ => (false, g)
              | inr md =>
                  let g := {| model := model g; vectorizer := vectorizer g;
                              preprocessing_functions :=
                                preprocessing_functions g;
                              metadata := Some md |} in
                  (log_metadata md, g)
              end
          end
      end
  end.

(** A server process: it either serves requests with the variables it
    holds, or has refused to start. *)
Inductive server : Type :=
| Serving (g : globals)
| Refused.

(** Truth value of a variable that holds [None] or a dict: [None] and the
    empty dict are false. *)
Definition truthy_dict {V : Type} (obj : option (dict V)) : bool :=
  match obj with
  | Some (_ :: _) => true
  | _ => false
  end.

(** The answer of the health check of the two model servers. *)
Record HealthResponse : Type := {
  h_status : string;
  h_message : string;
  h_model_info : dict meta_value;
  h_timestamp : string
}.

(** [metadata[key] if metadata else 'Unknown'] *)
Definition metadata_or_unknown (g : globals) (key : string)
  : M exn meta_value :=
  if truthy_dict (metadata g) then subscript (metadata g) key
  else ret (MStr "Unknown").

(** ** [fastapi_api.py] *)

Module FastAPI.

Record prediction : Type := {
  sentiment : string;
  confidence : Q;
  processed_text : string;
  original_text : string;
  timestamp : string
}.

Definition predict_sentiment (g : globals) (text : string)
  : M exn prediction :=
  try_except
    (preprocess_text <- subscript (preprocessing_functions g) "preprocess_text" ;;
     processed_text <- invoke (CallPreprocess text) (preprocess_text text) ;;
     v <- attribute (vectorizer g) ;;
     text_tfidf <- invoke (CallTransform [processed_text])
                          (transform v [processed_text]) ;;
     m <- attribute (model g) ;;
     predictions <- invoke (CallPredict text_tfidf) (predict m text_tfidf) ;;
     prediction <- first predictions ;;
     m <- attribute (model g) ;;
     probabilities <- invoke (CallPredictProba text_tfidf)
                             (predict_proba m text_tfidf) ;;
     row <- first probabilities ;;
     confidence <- row_max row ;;
     timestamp <- now ;;
     ret {| sentiment := if prediction =? 1 then "positive" else "negative";
            confidence := confidence;
            processed_text := processed_text;
            original_text := text;
            timestamp := timestamp |})
    (fun _ => raise (HTTPExc (HTTPException 500 "Error making prediction"))).

(** [startup_event]: the exception it raises when loading fails keeps the
    application from starting. *)
Definition startup_event (d : disk) : server :=
  let '(loaded, g) := load_model_components d no_globals in
  if loaded then Serving g else Refused.

(** What the two handlers do with an exception that leaves their [try]
    block. *)
Definition reraise {A : Type} (e : exn) : M http_error A :=
  match e with
  | HTTPExc h => raise h
  | PyExc _ _ => raise (HTTPException 500 "Internal server error")
  end.

(** The handler of [POST /predict]. *)
Definition predict (g : globals) (request_text : string)
  : M http_error prediction :=
  try_except
    (match model g with
     | None => raise (HTTPExc (HTTPException 500 "Model not loaded"))
     | Some _ => predict_sentiment g request_text
     end)
    reraise.

Inductive batch_entry : Type :=
| Scored (index : Z) (result : prediction)
| Failed (index : Z) (error : exn) (original_text : string)
         (timestamp : string).

Definition entry_index (e : batch_entry) : Z :=
  match e with Scored i _ => i | Failed i _ _ _ => i end.

Definition entry_text (e : batch_entry) : string :=
  match e with Scored _ r => original_text r | Failed _ _ t _ => t end.

Definition is_failure (e : batch_entry) : bool :=
  match e with Scored _ _ => false | Failed _ _ _ _ => true end.

Record BatchSentimentResponse : Type := {
  results : list batch_entry;
  total_predictions : Z;
  batch_timestamp : string
}.

(** One turn of the loop of [batch_predict]. *)
Definition batch_body (g : globals) (results : list batch_entry)
  (item : Z * string) : M exn (list batch_entry) :=
  let '(i, text) := item in
  try_except
    (result <- predict_sentiment g text ;;
     ret (results ++ [Scored i result])%list)
    (fun e =>
       timestamp <- now ;;
       ret (results ++ [Failed i e text timestamp])%list).

(** The handler of [POST /batch_predict]. *)
Definition batch_predict (g : globals) (request_texts : list string)
  : M http_error BatchSentimentResponse :=
  try_except
    (match model g with
     | None => raise (HTTPExc (HTTPException 500 "Model not loaded"))
     | Some _ =>
         results <- for_each (batch_body g) [] (enumerate request_texts) ;;
         timestamp <- now ;;
         ret {| results := results;
                total_predictions := Py.len results;
                batch_timestamp := timestamp |}
     end)
    reraise.

(** The handler of [GET /]. *)
Definition health_check (g : globals) : M exn HealthResponse :=
  model_name <- metadata_or_unknown g "model_name" ;;
  accuracy <- metadata_or_unknown g "accuracy" ;;
  f1_score <- metadata_or_unknown g "f1_score" ;;
  timestamp <- now ;;
  ret {| h_status := "healthy";
         h_message := "Sentiment Analysis API is running";
         h_model_info := [("model_name", model_name); ("accuracy", accuracy);
                          ("f1_score", f1_score)];
         h_timestamp := timestamp |}.

End FastAPI.

(** ** [flask_api.py] *)

Module Flask.

Record prediction : Type := {
  sentiment : string;
  confidence : Q;
  processed_text : string
}.

Definition predict_sentiment (g : globals) (text : string)
  : M exn prediction :=
  try_except
    (preprocess_text <- subscript (preprocessing_functions g) "preprocess_text" ;;
     processed_text <- invoke (CallPreprocess text) (preprocess_text text) ;;
     v <- attribute (vectorizer g) ;;
     text_tfidf <- invoke (CallTransform [processed_text])
                          (transform v [processed_text]) ;;
     m <- attribute (model g) ;;
     predictions <- invoke (CallPredict text_tfidf) (predict m text_tfidf) ;;
     prediction <- first predictions ;;
     m <- attribute (model g) ;;
     probabilities <- invoke (CallPredictProba text_tfidf)
                             (predict_proba m text_tfidf) ;;
     row <- first probabilities ;;
     confidence <- row_max row ;;
     ret {| sentiment := if prediction =? 1 then "positive" else "negative";
            confidence := confidence;
            processed_text := processed_text |})
    (fun e => raise e).

(** The [__main__] block: the process exits when loading fails. *)
Definition main (d : disk) : server :=
  let '(loaded, g) := load_model_components d no_globals in
  if loaded then Serving g else Refused.

Record response : Type := {
  r_sentiment : string;
  r_confidence : Q;
  r_processed_text : string;
  r_timestamp : string;
  r_original_text : string
}.

Definition internal_server_error {A : Type} (e : exn) : M http_error A :=
  raise (HTTPException 500 "Internal server error").

(** The handler of [POST /predict], from the point where [data['text']]
    is read. *)
Definition predict (g : globals) (text : json_value)
  : M http_error response :=
  match model g with
  | None => raise (HTTPException 500 "Model not loaded")
  | Some _ =>
      match text with
      | JOther _ => raise (HTTPException 400 "Invalid text")
      | JStr text =>
          if negb (Py.truthy text) then raise (HTTPException 400 "Invalid text")
          else
            try_except
              (result <- predict_sentiment g text ;;
               timestamp <- now ;;
               ret {| r_sentiment := sentiment result;
                      r_confidence := confidence result;
                      r_processed_text := processed_text result;
                      r_timestamp := timestamp;
                      r_original_text := text |})
              internal_server_error
      end
  end.

Inductive failure : Type :=
| InvalidText
| Raised (e : exn).

Inductive batch_entry : Type :=
| Scored (index : Z) (result : prediction) (original_text : string)
| Failed (index : Z) (error : failure) (original_text : json_value).

Definition entry_index (e : batch_entry) : Z :=
  match e with Scored i _ _ => i | Failed i _ _ => i end.

Definition entry_text (e : batch_entry) : json_value :=
  match e with Scored _ _ t => JStr t | Failed _ _ t => t end.

Definition is_failure (e : batch_entry) : bool :=
  match e with Scored _ _ _ => false | Failed _ _ _ => true end.

Record batch_response : Type := {
  results : list batch_entry;
  total_predictions : Z;
  batch_timestamp : string
}.

(** One turn of the loop of [batch_predict]. *)
Definition batch_body (g : globals) (results : list batch_entry)
  (item : Z * json_value) : M exn (list batch_entry) :=
  let '(i, text) := item in
  match text with
  | JOther _ => ret (results ++ [Failed i InvalidText text])%list
  | JStr s =>
      if negb (Py.truthy s)
      then ret (results ++ [Failed i InvalidText text])%list
      else
        try_except
          (result <- predict_sentiment g s ;;
           ret (results ++ [Scored i result s])%list)
          (fun e => ret (results ++ [Failed i (Raised e) text])%list)
  end.

(** The handler of [POST /batch_predict], from the point where
    [data['texts']] is read as a list. *)
Definition batch_predict (g : globals) (texts : list json_value)
  : M http_error batch_response :=
  match model g with
  | None => raise (HTTPException 500 "Model not loaded")
  | Some _ =>
      match texts with
      | [] => raise (HTTPException 400 "Invalid texts format")
      | _ :: _ =>
          try_except
            (results <- for_each (batch_body g) [] (enumerate texts) ;;
             timestamp <- now ;;
             ret {| results := results;
                    total_predictions := Py.len results;
                    batch_timestamp := timestamp |})
            internal_server_error
      end
  end.

(** The handler of [GET /]. *)
Definition home (g : globals) : M exn HealthResponse :=
  model_name <- metadata_or_unknown g "model_name" ;;
  accuracy <- metadata_or_unknown g "accuracy" ;;
  f1_score <- metadata_or_unknown g "f1_score" ;;
  timestamp <- now ;;
  ret {| h_status := "healthy";
         h_message := "Sentiment Analysis API is running";
         h_model_info := [("model_name", model_name); ("accuracy", accuracy);
                          ("f1_score", f1_score)];
         h_timestamp := timestamp |}.

(** The handler of [GET /model_info]: the metadata and a timestamp. *)
Definition model_info (g : globals)
  : M http_error (dict meta_value * string) :=
  match metadata g with
  | None => raise (HTTPException 500 "Model not loaded")
  | Some md => timestamp <- now ;; ret (md, timestamp)
  end.

End Flask.

(** * Vocabulary of the properties *)

(** ** The lexicon scorer *)

(** Specification: the number of tokens that occur in a word list, each occurrence of a
    token counting once. *)
Fixpoint occurrences_in (lexicon tokens : list string) : Z :=
  match tokens with
  | [] => 0
  | t :: ts =>
      (if in_dec string_dec t lexicon then 1 else 0) + occurrences_in lexicon ts
  end.

(** Specification: the decision rule of the lexicon scorer, on the
    positive count [p] and the negative count [n]. *)
Definition decision_rule (p n : Z) (label : string) (conf : Q) : Prop :=
  (p > n -> label = "positive"
            /\ (conf == Qmin (0.6 + 0.1 * inject_Z (p - n)) 0.95)%Q) /\
  (n > p -> label = "negative"
            /\ (conf == Qmin (0.6 + 0.1 * inject_Z (n - p)) 0.95)%Q) /\
  (p = n -> label = "neutral" /\ (conf == 0.5)%Q).

(** The confidence of a decided text, as the two scoring functions write
    it, for a difference [d] of the two counts. *)
Definition decided_confidence (d : Z) : Q :=
  (Py.min (0.6 + inject_Z d * 0.1) 0.95)%Q.

(** The label and the confidence the two scoring functions compute from
    their two counts. *)
Definition label_of (p n : Z) : string :=
  if p >? n then "positive" else if n >? p then "negative" else "neutral".

Definition confidence_of (p n : Z) : Q :=
  if p >? n then decided_confidence (p - n)
  else if n >? p then decided_confidence (n - p)
  else 0.5%Q.

(** ** Normalization *)

(** Specification: the normalization, step by step: keep the characters
    that are word characters or whitespace, then cut the result at the
    runs of whitespace. *)
Definition word_or_space (c : ascii) : bool := Py.isword c || Py.isspace c.

Fixpoint keep_chars (keep : ascii -> bool) (s : string) : string :=
  match s with
  | EmptyString => EmptyString
  | String c s' =>
      if keep c then String c (keep_chars keep s') else keep_chars keep s'
  end.

Definition push_word (w : string) (ws : list string) : list string :=
  if String.eqb w "" then ws else w :: ws.

(** The maximal runs of characters that are not whitespace: the run that
    starts the string, which may be empty, and the runs after it. *)
Fixpoint runs (s : string) : string * list string :=
  match s with
  | EmptyString => (EmptyString, [])
  | String c s' =>
      let '(w, ws) := runs s' in
      if Py.isspace c then (EmptyString, push_word w ws) else (String c w, ws)
  end.

Definition split_on_whitespace (s : string) : list string :=
  let '(w, ws) := runs s in push_word w ws.

Definition normalize (text : string) : list string :=
  split_on_whitespace (keep_chars word_or_space (Py.lower text)).

(** A text of whitespace only. *)
Fixpoint blank (s : string) : bool :=
  match s with
  | EmptyString => true
  | String c s' => Py.isspace c && blank s'
  end.

(** ** The two word lists *)

(** The words the FastAPI lists have and the Flask lists lack. *)
Definition extra_positive_words : list string :=
  ["best"; "favorite"; "recommend"; "enjoyable"; "entertaining"].

Definition extra_negative_words : list string :=
  ["waste"; "stupid"; "ridiculous"; "pointless"; "confusing"].

Definition free_of_extra_words (tokens : list string) : bool :=
  forallb
    (fun w =>
       negb (Py.in_list w (extra_positive_words ++ extra_negative_words)%list))
    tokens.

(** ** The rule-based batch handler *)

(** The texts the handler scores: those that are not blank, stripped. *)
Definition valid_texts (request_texts : list string) : list string :=
  map Py.strip (filter (fun text => Py.truthy (Py.strip text)) request_texts).

(** Specification: the arithmetic mean of a list of floats as binary64
    arithmetic gives it, the terms added in the order of the list and the
    sum divided by their number. *)
Definition mean (l : list float) : float :=
  PrimFloat.div (fold_left PrimFloat.add l 0%float)
                (PrimFloat.of_uint63 (Uint63.of_Z (Z.of_nat (length l)))).


(** The entry the loop appends for a text. *)
Definition item_of (text : string) : SimpleFastAPI.batch_item :=
  let result := SimpleFastAPI.simple_sentiment_analysis text in
  {| SimpleFastAPI.b_text := text;
     SimpleFastAPI.b_sentiment := SimpleFastAPI.sentiment result;
     SimpleFastAPI.b_confidence := SimpleFastAPI.confidence result;
     SimpleFastAPI.b_details :=
       {| SimpleFastAPI.d_positive_words_found :=
            SimpleFastAPI.positive_words_found result;
          SimpleFastAPI.d_negative_words_found :=
            SimpleFastAPI.negative_words_found result;
          SimpleFastAPI.d_total_words := SimpleFastAPI.total_words result |} |}.

(** ** The model servers *)

(** What the body of [predict_sentiment] computes from the bundle, the
    clock and the record of calls left aside: the processed text, the
    predicted class and the largest class probability, or the first
    exception raised. *)
Definition pipeline (g : globals) (text : string) : exn + (string * Z * Q) :=
  match preprocessing_functions g with
  | None => inl (PyExc "TypeError" "'NoneType' object is not subscriptable")
  | Some d =>
  match dict_get d "preprocess_text" with
  | None => inl (PyExc "KeyError" "preprocess_text")
  | Some preprocess_text =>
  match preprocess_text text with
  | inl e => inl e
  | inr processed_text =>
  match vectorizer g with
  | None => inl (PyExc "AttributeError" "'NoneType' object has no attribute")
  | Some v =>
  match transform v [processed_text] with
  | inl e => inl e
  | inr text_tfidf =>
  match model g with
  | None => inl (PyExc "AttributeError" "'NoneType' object has no attribute")
  | Some m =>
  match predict m text_tfidf with
  | inl e => inl e
  | inr [] => inl (PyExc "IndexError" "index 0 is out of bounds")
  | inr (prediction :: _) =>
  match predict_proba m text_tfidf with
  | inl e => inl e
  | inr [] => inl (PyExc "IndexError" "index 0 is out of bounds")
  | inr (row :: _) =>
  match Py.max_list row with
  | None => inl (PyExc "ValueError" "zero-size array")
  | Some confidence => inr (processed_text, prediction, confidence)
  end end end end end end end end end.

Definition label_of_class (prediction : Z) : string :=
  if prediction =? 1 then "positive" else "negative".

(** One step of the pipeline: a case analysis on a variable or on the
    result of one call to the bundle. *)
Ltac pipeline_step :=
  match goal with
  | |- context [match ?x with _ => _ end] => is_var x; destruct x
  | |- context [match dict_get ?d ?k with _ => _ end] => destruct (dict_get d k)
  | |- context [match transform ?v ?a with _ => _ end] => destruct (transform v a)
  | |- context [match predict ?m ?a with _ => _ end] => destruct (predict m a)
  | |- context [match predict_proba ?m ?a with _ => _ end] =>
      destruct (predict_proba m a)
  | |- context [match Py.max_list ?r with _ => _ end] => destruct (Py.max_list r)
  | |- context [match ?f ?a with _ => _ end] => is_var f; destruct (f a)
  end; cbn.

Ltac run_pipeline := repeat pipeline_step.

(** The class the classifier predicts for a text and the row of class
    probabilities it gives, when every step of the pipeline returns. *)
Definition classifier_output (g : globals) (text : string) (prediction : Z)
  (row : list Q) : Prop :=
  exists d preprocess_text processed_text v text_tfidf m predictions rows,
    preprocessing_functions g = Some d
    /\ dict_get d "preprocess_text" = Some preprocess_text
    /\ preprocess_text text = inr processed_text
    /\ vectorizer g = Some v
    /\ transform v [processed_text] = inr text_tfidf
    /\ model g = Some m
    /\ predict m text_tfidf = inr (prediction :: predictions)
    /\ predict_proba m text_tfidf = inr (row :: rows).

(** Specification: the largest entry of a row. *)
Definition is_maximum (c : Q) (row : list Q) : Prop :=
  In c row /\ forall q, In q row -> (q <= c)%Q.

(** The step of [Py.max_list]. *)
Definition larger (m y : Q) : Q := if Qle_bool y m then m else y.

(** A small bundle to run the model servers on: the preprocessing
    lower-cases, the vectorizer gives each document its length as its one
    feature and raises on the document 'crash', the classifier predicts
    class 1 for documents of fewer than ten characters. *)
Definition sample_model : Model :=
  {| predict := fun x =>
       inr (map (fun row =>
                   match row with
                   | f :: _ => if Qle_bool 10 f then 0 else 1
                   | [] => 0
                   end) x);
     predict_proba := fun x =>
       inr (map (fun row =>
                   match row with
                   | f :: _ =>
                       if Qle_bool 10 f then [0.9; 0.1] else [0.25; 0.75]
                   | [] => [0.5; 0.5]
                   end)%Q x) |}.

Definition sample_vectorizer : Vectorizer :=
  {| transform := fun docs =>
       if existsb (fun doc => String.eqb doc "crash") docs
       then inl (PyExc "ValueError" "cannot vectorize")
       else
         inr (map (fun doc => [inject_Z (Z.of_nat (String.length doc))])
                  docs) |}.

Definition sample_preprocessing : dict (string -> exn + string) :=
  [("preprocess_text", fun text => inr (Py.lower text))].

Definition sample_metadata : dict meta_value :=
  [("model_name", MStr "Logistic Regression"); ("accuracy", MNum 0.89);
   ("f1_score", MNum 0.88)].

Definition sample_globals : globals :=
  {| model := Some sample_model;
     vectorizer := Some sample_vectorizer;
     preprocessing_functions := Some sample_preprocessing;
     metadata := Some sample_metadata |}.

Definition sample_world : world :=
  {| clock := fun n =>
       if Nat.eqb n 0 then "2025-07-06T10:30:00" else "2025-07-06T10:30:01";
     ticks := 0;
     calls := [] |}.

(** ** Loading *)

Definition failed {A : Type} (r : exn + A) : Prop := exists e, r = inl e.

(** One of the four files could not be loaded. *)
Definition load_fails (d : disk) : Prop :=
  failed (sentiment_model_pkl d) \/ failed (tfidf_vectorizer_pkl d)
  \/ failed (preprocessing_functions_pkl d) \/ failed (model_metadata_pkl d).

(** The four variables hold what the four files gave. *)
Definition complete (d : disk) (g : globals) : Prop :=
  (exists m, sentiment_model_pkl d = inr m /\ model g = Some m)
  /\ (exists v, tfidf_vectorizer_pkl d = inr v /\ vectorizer g = Some v)
  /\ (exists f, preprocessing_functions_pkl d = inr f
                /\ preprocessing_functions g = Some f)
  /\ (exists md, model_metadata_pkl d = inr md /\ metadata g = Some md).

Definition model_not_loaded : http_error :=
  HTTPException 500 "Model not loaded".

(** The variables a process can hold when a request arrives: those the
    module sets when it is imported, all [None], or those of a server
    that has started. *)
Definition request_state (d : disk) (g : globals) : Prop :=
  g = no_globals
  \/ FastAPI.startup_event d = Serving g
  \/ Flask.main d = Serving g.

(** A disk whose metadata file is missing, and one whose vectorizer file
    is missing. *)
Definition disk_without_metadata : disk :=
  {| sentiment_model_pkl := inr sample_model;
     tfidf_vectorizer_pkl := inr sample_vectorizer;
     preprocessing_functions_pkl := inr sample_preprocessing;
     model_metadata_pkl :=
       inl (PyExc "FileNotFoundError" "models/model_metadata.pkl") |}.

Definition disk_without_vectorizer : disk :=
  {| sentiment_model_pkl := inr sample_model;
     tfidf_vectorizer_pkl :=
       inl (PyExc "FileNotFoundError" "models/tfidf_vectorizer.pkl");
     preprocessing_functions_pkl := inr sample_preprocessing;
     model_metadata_pkl := inr sample_metadata |}.

Definition sample_disk : disk :=
  {| sentiment_model_pkl := inr sample_model;
     tfidf_vectorizer_pkl := inr sample_vectorizer;
     preprocessing_functions_pkl := inr sample_preprocessing;
     model_metadata_pkl := inr sample_metadata |}.

(** ** The batch handlers of the model servers *)

(** A computation that raises in every world. *)
Definition raises {A : Type} (m : M exn A) : Prop :=
  forall w, exists e w', m w = (inl e, w').

(** Entries in the order of the inputs: the entry at each position is
    related to the input at that position and to its index, counted from
    [i]. *)
Fixpoint aligned {A B : Type} (P : Z -> A -> B -> Prop) (i : Z)
  (inputs : list A) (entries : list B) : Prop :=
  match inputs, entries with
  | [], [] => True
  | x :: inputs', e :: entries' => P i x e /\ aligned P (i + 1) inputs' entries'
  | _, _ => False
  end.

(** What the FastAPI loop appends for the text at index [i]. *)
Definition fastapi_entry (g : globals) (i : Z) (text : string)
  (e : FastAPI.batch_entry) : Prop :=
  FastAPI.entry_index e = i
  /\ FastAPI.entry_text e = text
  /\ (FastAPI.is_failure e = true
      <-> raises (FastAPI.predict_sentiment g text)).

(** An item the Flask loop rejects without calling the scorer. *)
Definition invalid_item (item : json_value) : Prop :=
  match item with
  | JStr s => s = ""
  | JOther _ => True
  end.

(** The same test as a function. *)
Definition invalid_itemb (item : json_value) : bool :=
  match item with
  | JStr s => String.eqb s ""
  | JOther _ => true
  end.

(** What the Flask loop appends for the item at index [i]. *)
Definition flask_entry (g : globals) (i : Z) (item : json_value)
  (e : Flask.batch_entry) : Prop :=
  Flask.entry_index e = i
  /\ Flask.entry_text e = item
  /\ (Flask.is_failure e = true
      <-> invalid_item item
          \/ exists s, item = JStr s /\ raises (Flask.predict_sentiment g s)).

(** ** Binary64 arithmetic *)

(** The confidence of a decided text as Python computes it, on binary64
    floats: the difference of the counts is converted to a float, and
    [min] gives its second argument only when it is smaller than the
    first. *)
Definition binary64_confidence (d : Z) : float :=
  let x :=
    PrimFloat.add 0.6%float
      (PrimFloat.mul (PrimFloat.of_uint63 (Uint63.of_Z d)) 0.1%float) in
  if PrimFloat.ltb 0.95%float x then 0.95%float else x.

Definition binary64_capped (from count : nat) : bool :=
  forallb
    (fun k => PrimFloat.eqb (binary64_confidence (Z.of_nat k)) 0.95%float)
          (seq from count).

(** ** Further vocabulary: texts and tokens *)

(** The cleaned text of the scoring functions: lower-cased, then freed of
    the characters that are neither word characters nor whitespace. *)
Definition clean (text : string) : string :=
  keep_chars word_or_space (Py.lower text).

(** Every character of a string passes a test. *)
Fixpoint all_chars (test : ascii -> bool) (s : string) : bool :=
  match s with
  | EmptyString => true
  | String c s' => test c && all_chars test s'
  end.

(** A fact on characters, by cases on the eight bits. *)
Ltac by_cases_on_char c :=
  destruct c as [[] [] [] [] [] [] [] []]; vm_compute;
  try reflexivity; intros; try discriminate; try reflexivity.

(** A character of a cleaned text: a word character or whitespace, and
    its own lower case. *)
Definition clean_char (c : ascii) : bool :=
  word_or_space c && Ascii.eqb (Py.lower_char c) c.

(** A token as the scoring functions see it: not empty, made of word
    characters only, and unchanged by lower-casing. *)
Definition well_formed_token (t : string) : Prop :=
  t <> "" /\ all_chars Py.isword t = true /\ Py.lower t = t.

(** No word of the first list is in the second. *)
Definition disjoint_lists (l1 l2 : list string) : bool :=
  forallb (fun w => negb (Py.in_list w l2)) l1.

(** ** Further vocabulary: the rule-based batch handlers *)

(** The number of entries of a batch that carry a label. *)
Definition count_label (label : string)
  (items : list SimpleFastAPI.batch_item) : Z :=
  Py.len (filter (fun item => String.eqb (SimpleFastAPI.b_sentiment item) label)
                 items).

(** An entry of a batch and the answer of the single-text handler carry
    the same text, label, confidence and counts. *)
Definition same_analysis (r : SimpleFastAPI.SentimentResponse)
  (item : SimpleFastAPI.batch_item) : Prop :=
  SimpleFastAPI.r_text r = SimpleFastAPI.b_text item
  /\ SimpleFastAPI.r_sentiment r = SimpleFastAPI.b_sentiment item
  /\ SimpleFastAPI.r_confidence r = SimpleFastAPI.b_confidence item
  /\ SimpleFastAPI.r_details r = SimpleFastAPI.b_details item.

(** The texts of a request that are not blank. *)
Definition not_blank_texts (request_texts : list string) : list string :=
  filter (fun text => Py.truthy (Py.strip text)) request_texts.

(** The entry the loop of the rule-based Flask server appends for a
    text. *)
Definition flask_item_of (text : string) : SimpleFlask.batch_item :=
  let result := SimpleFlask.simple_sentiment_analysis text in
  {| SimpleFlask.b_text := text;
     SimpleFlask.b_sentiment := SimpleFlask.sentiment result;
     SimpleFlask.b_confidence := SimpleFlask.confidence result;
     SimpleFlask.b_details :=
       {| SimpleFlask.d_positive_words_found :=
            SimpleFlask.positive_words_found result;
          SimpleFlask.d_negative_words_found :=
            SimpleFlask.negative_words_found result |} |}.

(** The items of a request that the Flask loop scores: the strings that
    are not blank, as they were sent. *)
Definition scored_texts (items : list json_value) : list string :=
  flat_map
    (fun item =>
       match item with
       | JStr s => if Py.truthy s && Py.truthy (Py.strip s) then [s] else []
       | JOther _ => []
       end)
    items.

(** Some item is neither a string nor false. *)
Definition has_true_non_string (items : list json_value) : bool :=
  existsb (fun item => match item with JOther true => true | _ => false end)
          items.

(** The three counters of the Flask loop add up to the number of
    entries. *)
Definition balanced (st : SimpleFlask.loop_state) : Prop :=
  SimpleFlask.ls_positive st + SimpleFlask.ls_negative st
  + SimpleFlask.ls_neutral st
  = Py.len (SimpleFlask.ls_results st).

(** ** Further vocabulary: the model servers *)

(** The calls the body of [predict_sentiment] makes to the bundle on a
    text, up to the first that raises. *)
Definition pipeline_calls (g : globals) (text : string) : list call :=
  match preprocessing_functions g with
  | None => []
  | Some d =>
  match dict_get d "preprocess_text" with
  | None => []
  | Some preprocess_text =>
  cons (CallPreprocess text)
  match preprocess_text text with
  | inl _ => []
  | inr processed_text =>
  match vectorizer g with
  | None => []
  | Some v =>
  cons (CallTransform [processed_text])
  match transform v [processed_text] with
  | inl _ => []
  | inr text_tfidf =>
  match model g with
  | None => []
  | Some m =>
  cons (CallPredict text_tfidf)
  match predict m text_tfidf with
  | inl _ => []
  | inr [] => []
  | inr (_ :: _) => [CallPredictProba text_tfidf]
  end end end end end end end.

(** The world after some readings of the clock and some calls. *)
Definition advance (w : world) (readings : nat) (made : list call) : world :=
  {| clock := clock w;
     ticks := ticks w + readings;
     calls := (calls w ++ made)%list |}.

(** The error [predict_sentiment] of the FastAPI server raises. *)
Definition prediction_error : exn :=
  HTTPExc (HTTPException 500 "Error making prediction").

(** The prediction of the FastAPI scorer for a text, stamped. *)
Definition fastapi_prediction (text : string) (out : string * Z * Q)
  (timestamp : string) : FastAPI.prediction :=
  let '(processed_text, prediction, confidence) := out in
  {| FastAPI.sentiment := label_of_class prediction;
     FastAPI.confidence := confidence;
     FastAPI.processed_text := processed_text;
     FastAPI.original_text := text;
     FastAPI.timestamp := timestamp |}.

(** The prediction of the Flask scorer for a text. *)
Definition flask_prediction (out : string * Z * Q) : Flask.prediction :=
  let '(processed_text, prediction, confidence) := out in
  {| Flask.sentiment := label_of_class prediction;
     Flask.confidence := confidence;
     Flask.processed_text := processed_text |}.

(** The entry of the FastAPI batch for the text at index [i], stamped. *)
Definition fastapi_entry_of (g : globals) (i : Z) (text : string)
  (timestamp : string) : FastAPI.batch_entry :=
  match pipeline g text with
  | inr out => FastAPI.Scored i (fastapi_prediction text out timestamp)
  | inl _ => FastAPI.Failed i prediction_error text timestamp
  end.

(** The entries of the FastAPI batch for a list of texts, the first of
    index [i] and stamped with the reading number [tick] of the clock. *)
Fixpoint fastapi_entries (g : globals) (clk : nat -> string) (i : Z)
  (tick : nat) (texts : list string) : list FastAPI.batch_entry :=
  match texts with
  | [] => []
  | text :: rest =>
      fastapi_entry_of g i text (clk tick)
      :: fastapi_entries g clk (i + 1) (S tick) rest
  end.

(** The calls of the FastAPI batch for a list of texts. *)
Definition batch_calls (g : globals) (texts : list string) : list call :=
  flat_map (pipeline_calls g) texts.

(** The answer of the Flask single-text handler for a text, stamped. *)
Definition flask_response (text : string) (out : string * Z * Q)
  (timestamp : string) : Flask.response :=
  let '(processed_text, prediction, confidence) := out in
  {| Flask.r_sentiment := label_of_class prediction;
     Flask.r_confidence := confidence;
     Flask.r_processed_text := processed_text;
     Flask.r_timestamp := timestamp;
     Flask.r_original_text := text |}.

(** The four files load and the metadata holds what the three log
    messages read. *)
Definition loads_well (d : disk) : Prop :=
  exists m v f md,
    sentiment_model_pkl d = inr m
    /\ tfidf_vectorizer_pkl d = inr v
    /\ preprocessing_functions_pkl d = inr f
    /\ model_metadata_pkl d = inr md
    /\ log_metadata md = true.

(** A result that is a value. *)
Definition returned {A : Type} (r : exn + A) : bool :=
  match r with inr _ => true | inl _ => false end.

(** The value of a loaded file, or the previous value of the variable
    when the file or one before it did not load. *)
Definition assigned {A : Type} (before : bool) (file : exn + A)
  (old : option A) : option A :=
  match file with
  | inr a => if before then Some a else old
  | inl _ => old
  end.

(** The health answer for three given entries. *)
Definition health_answer (model_name accuracy f1_score : meta_value)
  (timestamp : string) : HealthResponse :=
  {| h_status := "healthy";
     h_message := "Sentiment Analysis API is running";
     h_model_info := [("model_name", model_name); ("accuracy", accuracy);
                      ("f1_score", f1_score)];
     h_timestamp := timestamp |}.

(** The world after one reading of the clock. *)
Definition tick (w : world) : world :=
  {| clock := clock w; ticks := S (ticks w); calls := calls w |}.

(** A word that the scoring functions read back as itself when it stands
    alone. *)
Definition reads_back (w : string) : bool :=
  match SimpleFastAPI.words_of w with
  | [t] => String.eqb t w
  | _ => false
  end.

(** The entry of the Flask batch for the item at index [i]. *)
Definition flask_entry_of (g : globals) (i : Z) (item : json_value)
  : Flask.batch_entry :=
  match item with
  | JOther _ => Flask.Failed i Flask.InvalidText item
  | JStr s =>
      if String.eqb s "" then Flask.Failed i Flask.InvalidText item
      else match pipeline g s with
           | inr out => Flask.Scored i (flask_prediction out) s
           | inl e => Flask.Failed i (Flask.Raised e) item
           end
  end.

Fixpoint flask_entries (g : globals) (i : Z) (items : list json_value)
  : list Flask.batch_entry :=
  match items with
  | [] => []
  | item :: rest => flask_entry_of g i item :: flask_entries g (i + 1) rest
  end.

(** The calls of the Flask batch: those of the strings that are not
    empty. *)
Definition flask_batch_calls (g : globals) (items : list json_value)
  : list call :=
  flat_map
    (fun item =>
       match item with
       | JStr s => if String.eqb s "" then [] else pipeline_calls g s
       | JOther _ => []
       end)
    items.

(** * Properties *)

(** ** Lemmas on the Python primitives *)

Lemma sum_ones_from {A : Type} (l : list A) (acc : Z) :
  fold_left Z.add (map (fun _ => 1) l) acc = acc + Z.of_nat (length l).
Proof.
  revert acc; induction l as [|x l IH]; intros acc; simpl fold_left.
  - simpl; lia.
  - rewrite IH. simpl length. lia.
Qed.

Lemma sum_ones {A : Type} (l : list A) :
  Py.sum (map (fun _ => 1) l) = Z.of_nat (length l).
Proof. unfold Py.sum. rewrite sum_ones_from. lia. Qed.

Lemma in_list_spec (w : string) (l : list string) :
  Py.in_list w l = true <-> In w l.
Proof.
  unfold Py.in_list. rewrite existsb_exists. split.
  - intros [x [Hin Heq]]. apply String.eqb_eq in Heq. now subst.
  - intros Hin. exists w. split; [assumption | apply String.eqb_refl].
Qed.

Lemma count_is_occurrences (lexicon words : list string) :
  Py.sum (map (fun _ => 1)
              (filter (fun word => Py.in_list word lexicon) words))
  = occurrences_in lexicon words.
Proof.
  rewrite sum_ones.
  induction words as [|t ts IH]; [reflexivity|].
  simpl filter. simpl occurrences_in.
  destruct (in_dec string_dec t lexicon) as [Hin|Hnin].
  - apply in_list_spec in Hin. rewrite Hin. simpl length. lia.
  - destruct (Py.in_list t lexicon) eqn:E.
    + apply in_list_spec in E. contradiction.
    + lia.
Qed.

Lemma occurrences_nonneg (lexicon tokens : list string) :
  0 <= occurrences_in lexicon tokens.
Proof.
  induction tokens as [|t ts IH]; simpl; [lia|].
  destruct (in_dec string_dec t lexicon); lia.
Qed.

Lemma py_min_is_Qmin (a b : Q) : (Py.min a b == Qmin a b)%Q.
Proof.
  unfold Py.min. destruct (Qle_bool a b) eqn:E.
  - apply Qle_bool_iff in E. symmetry. now apply Q.min_l.
  - assert (H : ~ (a <= b)%Q) by (rewrite <- Qle_bool_iff, E; discriminate).
    apply Qnot_le_lt in H. symmetry. apply Q.min_r. now apply Qlt_le_weak.
Qed.

Lemma decided_confidence_spec (d : Z) :
  (decided_confidence d == Qmin (0.6 + 0.1 * inject_Z d) 0.95)%Q.
Proof.
  unfold decided_confidence. rewrite py_min_is_Qmin.
  apply Q.min_compat; [|reflexivity].
  apply Qplus_comp; [reflexivity | apply Qmult_comm].
Qed.

Lemma inject_Z_ge_1 (d : Z) : d >= 1 -> (1 <= inject_Z d)%Q.
Proof. intros Hd. change 1%Q with (inject_Z 1). rewrite <- Zle_Qle. lia. Qed.

Lemma decided_confidence_range (d : Z) :
  d >= 1 -> (0.6 <= decided_confidence d /\ decided_confidence d <= 0.95)%Q.
Proof.
  intros Hd. apply inject_Z_ge_1 in Hd.
  unfold decided_confidence, Py.min.
  destruct (Qle_bool (0.6 + inject_Z d * 0.1) 0.95) eqn:E.
  - apply Qle_bool_iff in E. split; [lra | exact E].
  - split; lra.
Qed.

Lemma decided_confidence_not_half (d : Z) :
  d >= 1 -> ~ (decided_confidence d == 0.5)%Q.
Proof.
  intros Hd Heq. destruct (decided_confidence_range d Hd) as [Hlo _].
  rewrite Heq in Hlo. lra.
Qed.

(** ** The two scoring functions, in terms of the counts *)

Lemma fastapi_analysis_eq (text : string) :
  let words := SimpleFastAPI.words_of text in
  let p := occurrences_in SimpleFastAPI.positive_words words in
  let n := occurrences_in SimpleFastAPI.negative_words words in
  SimpleFastAPI.simple_sentiment_analysis text =
  {| SimpleFastAPI.sentiment := label_of p n;
     SimpleFastAPI.confidence := confidence_of p n;
     SimpleFastAPI.positive_words_found := p;
     SimpleFastAPI.negative_words_found := n;
     SimpleFastAPI.total_words := Py.len words |}.
Proof.
  intros words p n. unfold SimpleFastAPI.simple_sentiment_analysis.
  rewrite !count_is_occurrences. fold words. fold p. fold n.
  unfold label_of, confidence_of, decided_confidence.
  destruct (p >? n); [reflexivity|]. destruct (n >? p); reflexivity.
Qed.

Lemma flask_analysis_eq (text : string) :
  let words := SimpleFlask.words_of text in
  let p := occurrences_in SimpleFlask.positive_words words in
  let n := occurrences_in SimpleFlask.negative_words words in
  SimpleFlask.simple_sentiment_analysis text =
  {| SimpleFlask.sentiment := label_of p n;
     SimpleFlask.confidence := confidence_of p n;
     SimpleFlask.positive_words_found := p;
     SimpleFlask.negative_words_found := n |}.
Proof.
  intros words p n. unfold SimpleFlask.simple_sentiment_analysis.
  rewrite !count_is_occurrences. fold words. fold p. fold n.
  unfold label_of, confidence_of, decided_confidence.
  destruct (p >? n); [reflexivity|]. destruct (n >? p); reflexivity.
Qed.

Lemma decision_rule_holds (p n : Z) :
  decision_rule p n (label_of p n) (confidence_of p n).
Proof.
  unfold decision_rule, label_of, confidence_of.
  destruct (Z.gtb_spec p n) as [Hpn|Hpn]; [|destruct (Z.gtb_spec n p) as [Hnp|Hnp]].
  - split; [|split]; intros H; try lia.
    split; [reflexivity | apply decided_confidence_spec].
  - split; [|split]; intros H; try lia.
    split; [reflexivity | apply decided_confidence_spec].
  - split; [|split]; intros H; try lia.
    split; reflexivity.
Qed.

Lemma label_neutral_iff (p n : Z) : label_of p n = "neutral" <-> p = n.
Proof.
  unfold label_of.
  destruct (Z.gtb_spec p n); [|destruct (Z.gtb_spec n p)];
    split; intros Heq; try discriminate; try lia; reflexivity.
Qed.

Lemma confidence_half_iff (p n : Z) : (confidence_of p n == 0.5)%Q <-> p = n.
Proof.
  unfold confidence_of.
  destruct (Z.gtb_spec p n); [|destruct (Z.gtb_spec n p)]; split; intros Heq;
    try lia; try reflexivity;
    exfalso; revert Heq; apply decided_confidence_not_half; lia.
Qed.

Lemma confidence_range (p n : Z) :
  ((confidence_of p n == 0.5
    \/ (0.6 <= confidence_of p n /\ confidence_of p n <= 0.95))
   /\ 0 <= confidence_of p n /\ confidence_of p n <= 1)%Q.
Proof.
  unfold confidence_of.
  destruct (Z.gtb_spec p n); [|destruct (Z.gtb_spec n p)].
  - destruct (decided_confidence_range (p - n)) as [Hlo Hhi]; [lia|].
    repeat split; [right; split; assumption | lra | lra].
  - destruct (decided_confidence_range (n - p)) as [Hlo Hhi]; [lia|].
    repeat split; [right; split; assumption | lra | lra].
  - repeat split; [left; reflexivity | lra | lra].
Qed.

(** ** The lexicon scorer *)

(** The three single-text examples of the specification. *)
Example two_positive_hits :
  let r := SimpleFastAPI.simple_sentiment_analysis
             "This movie was great and amazing" in
  SimpleFastAPI.sentiment r = "positive"
  /\ SimpleFastAPI.positive_words_found r = 2
  /\ SimpleFastAPI.negative_words_found r = 0
  /\ (SimpleFastAPI.confidence r == 0.8)%Q.
Proof. cbv zeta. repeat split; reflexivity. Qed.

Example three_negative_hits :
  let r := SimpleFastAPI.simple_sentiment_analysis "bad boring awful" in
  SimpleFastAPI.sentiment r = "negative"
  /\ SimpleFastAPI.positive_words_found r = 0
  /\ SimpleFastAPI.negative_words_found r = 3
  /\ (SimpleFastAPI.confidence r == 0.9)%Q.
Proof. cbv zeta. repeat split; reflexivity. Qed.

Example one_hit_each :
  let r := SimpleFastAPI.simple_sentiment_analysis "good bad" in
  SimpleFastAPI.sentiment r = "neutral"
  /\ SimpleFastAPI.positive_words_found r = 1
  /\ SimpleFastAPI.negative_words_found r = 1
  /\ (SimpleFastAPI.confidence r == 0.5)%Q.
Proof. cbv zeta. repeat split; reflexivity. Qed.

(** C1. For every text, each of the two rule-based scoring functions
    reports as its positive and negative counts the number of tokens of
    the normalized text that occur, repetitions included, in its positive
    and in its negative word list, and its label and confidence follow the
    decision rule on these counts: more positive hits give 'positive'
    with confidence min(0.6 + 0.1 * difference, 0.95), more negative hits
    give 'negative' with the same formula, equal counts give 'neutral'
    with confidence 0.5. *)
Theorem lexicon_scorer_decision (text : string) :
  (let r := SimpleFastAPI.simple_sentiment_analysis text in
   let tokens := SimpleFastAPI.words_of text in
   let p := occurrences_in SimpleFastAPI.positive_words tokens in
   let n := occurrences_in SimpleFastAPI.negative_words tokens in
   SimpleFastAPI.positive_words_found r = p
   /\ SimpleFastAPI.negative_words_found r = n
   /\ decision_rule p n (SimpleFastAPI.sentiment r) (SimpleFastAPI.confidence r))
  /\
  (let r := SimpleFlask.simple_sentiment_analysis text in
   let tokens := SimpleFlask.words_of text in
   let p := occurrences_in SimpleFlask.positive_words tokens in
   let n := occurrences_in SimpleFlask.negative_words tokens in
   SimpleFlask.positive_words_found r = p
   /\ SimpleFlask.negative_words_found r = n
   /\ decision_rule p n (SimpleFlask.sentiment r) (SimpleFlask.confidence r)).
Proof.
  split; cbv zeta.
  - rewrite fastapi_analysis_eq. cbv zeta. cbn [SimpleFastAPI.sentiment
      SimpleFastAPI.confidence SimpleFastAPI.positive_words_found
      SimpleFastAPI.negative_words_found].
    split; [reflexivity | split; [reflexivity | apply decision_rule_holds]].
  - rewrite flask_analysis_eq. cbv zeta. cbn [SimpleFlask.sentiment
      SimpleFlask.confidence SimpleFlask.positive_words_found
      SimpleFlask.negative_words_found].
    split; [reflexivity | split; [reflexivity | apply decision_rule_holds]].
Qed.

(** C2. For every text, the confidence returned by each rule-based
    scoring function is 0.5 or lies between 0.6 and 0.95, hence between 0
    and 1; it is 0.5 exactly when the two counts are equal, and the label
    is 'neutral' exactly in that case. *)
Theorem lexicon_confidence_range (text : string) :
  (let r := SimpleFastAPI.simple_sentiment_analysis text in
   let c := SimpleFastAPI.confidence r in
   let p := SimpleFastAPI.positive_words_found r in
   let n := SimpleFastAPI.negative_words_found r in
   ((c == 0.5 \/ (0.6 <= c /\ c <= 0.95)) /\ 0 <= c /\ c <= 1)%Q
   /\ ((c == 0.5)%Q <-> p = n)
   /\ (SimpleFastAPI.sentiment r = "neutral" <-> p = n))
  /\
  (let r := SimpleFlask.simple_sentiment_analysis text in
   let c := SimpleFlask.confidence r in
   let p := SimpleFlask.positive_words_found r in
   let n := SimpleFlask.negative_words_found r in
   ((c == 0.5 \/ (0.6 <= c /\ c <= 0.95)) /\ 0 <= c /\ c <= 1)%Q
   /\ ((c == 0.5)%Q <-> p = n)
   /\ (SimpleFlask.sentiment r = "neutral" <-> p = n)).
Proof.
  split; cbv zeta.
  - rewrite fastapi_analysis_eq. cbv zeta. cbn [SimpleFastAPI.sentiment
      SimpleFastAPI.confidence SimpleFastAPI.positive_words_found
      SimpleFastAPI.negative_words_found].
    split; [apply confidence_range|].
    split; [apply confidence_half_iff | apply label_neutral_iff].
  - rewrite flask_analysis_eq. cbv zeta. cbn [SimpleFlask.sentiment
      SimpleFlask.confidence SimpleFlask.positive_words_found
      SimpleFlask.negative_words_found].
    split; [apply confidence_range|].
    split; [apply confidence_half_iff | apply label_neutral_iff].
Qed.

(** C10. Each rule-based scoring function returns a result on every
    string; when the cleaned text has no token it returns 'neutral' with
    confidence 0.5 and both counts 0, and the FastAPI function, which also
    reports the number of tokens, reports 0. *)
Theorem scoring_without_tokens (text : string) :
  SimpleFastAPI.words_of text = [] ->
  SimpleFastAPI.simple_sentiment_analysis text =
    {| SimpleFastAPI.sentiment := "neutral";
       SimpleFastAPI.confidence := 0.5;
       SimpleFastAPI.positive_words_found := 0;
       SimpleFastAPI.negative_words_found := 0;
       SimpleFastAPI.total_words := 0 |}
  /\ SimpleFlask.words_of text = []
  /\ SimpleFlask.simple_sentiment_analysis text =
    {| SimpleFlask.sentiment := "neutral";
       SimpleFlask.confidence := 0.5;
       SimpleFlask.positive_words_found := 0;
       SimpleFlask.negative_words_found := 0 |}.
Proof.
  intros H.
  assert (H' : SimpleFlask.words_of text = []) by exact H.
  split; [|split; [exact H'|]].
  - rewrite fastapi_analysis_eq. cbv zeta. rewrite H. reflexivity.
  - rewrite flask_analysis_eq. cbv zeta. rewrite H'. reflexivity.
Qed.

Lemma scoring_without_tokens_witness :
  SimpleFastAPI.words_of "?!  ... ;-)" = []
  /\ SimpleFastAPI.sentiment
       (SimpleFastAPI.simple_sentiment_analysis "?!  ... ;-)") = "neutral".
Proof.
  split; [reflexivity|].
  pose proof (scoring_without_tokens "?!  ... ;-)" eq_refl) as [H _].
  rewrite H. reflexivity.
Defined.

(** ** Validation and normalization *)

Lemma append_empty_r (s : string) : (s ++ "")%string = s.
Proof. induction s as [|c s IH]; simpl; [reflexivity | now rewrite IH]. Qed.

Lemma append_assoc (a b c : string) :
  ((a ++ b) ++ c)%string = (a ++ (b ++ c))%string.
Proof. induction a as [|x a IH]; simpl; [reflexivity | now rewrite IH]. Qed.

Lemma re_sub_keeps (s : string) :
  Py.re_sub {| Py.negated := true; Py.items := [Py.ClsWord; Py.ClsSpace] |}
            "" s
  = keep_chars word_or_space s.
Proof.
  induction s as [|c s IH]; [reflexivity|].
  simpl Py.re_sub. simpl keep_chars. unfold Py.class_matches, word_or_space.
  cbn [Py.negated Py.items existsb Py.item_matches].
  rewrite orb_false_r.
  destruct (Py.isword c || Py.isspace c); cbn [negb]; rewrite IH; reflexivity.
Qed.

Lemma split_loop_runs (s word : string) :
  Py.split_loop word s =
  let '(w, ws) := runs s in push_word (word ++ w) ws.
Proof.
  revert word; induction s as [|c s IH]; intros word.
  - simpl. rewrite append_empty_r. reflexivity.
  - simpl Py.split_loop. simpl runs.
    destruct (runs s) as [w ws] eqn:E.
    destruct (Py.isspace c).
    + rewrite append_empty_r. unfold push_word at 1.
      destruct (String.eqb word ""); rewrite IH; reflexivity.
    + rewrite IH. rewrite append_assoc. reflexivity.
Qed.

Lemma split_is_split_on_whitespace (s : string) :
  Py.split s = split_on_whitespace s.
Proof.
  unfold Py.split, split_on_whitespace. rewrite split_loop_runs.
  destruct (runs s); reflexivity.
Qed.

Lemma fastapi_words_normalize (text : string) :
  SimpleFastAPI.words_of text = normalize text.
Proof.
  unfold SimpleFastAPI.words_of, normalize.
  now rewrite re_sub_keeps, split_is_split_on_whitespace.
Qed.

Lemma flask_words_normalize (text : string) :
  SimpleFlask.words_of text = normalize text.
Proof.
  unfold SimpleFlask.words_of, normalize.
  now rewrite re_sub_keeps, split_is_split_on_whitespace.
Qed.

Lemma lstrip_blank (s : string) : blank s = true -> Py.lstrip s = "".
Proof.
  induction s as [|c s IH]; simpl; [reflexivity|].
  destruct (Py.isspace c); simpl; [exact IH | discriminate].
Qed.

Lemma lstrip_not_blank (s : string) :
  blank s = false ->
  exists c s', Py.lstrip s = String c s' /\ Py.isspace c = false.
Proof.
  induction s as [|c s IH]; simpl; [discriminate|].
  destruct (Py.isspace c) eqn:E; simpl.
  - exact IH.
  - intros _. exists c, s. split; [reflexivity | exact E].
Qed.

Lemma strip_empty_iff (s : string) : Py.strip s = "" <-> blank s = true.
Proof.
  unfold Py.strip. split.
  - intros H. destruct (blank s) eqn:E; [reflexivity|].
    destruct (lstrip_not_blank s E) as (c & s' & Hl & Hc).
    rewrite Hl in H. simpl in H. rewrite Hc in H. discriminate.
  - intros H. rewrite (lstrip_blank s H). reflexivity.
Qed.

Lemma eqb_empty_false (s : string) : s <> "" -> String.eqb s "" = false.
Proof. intros H. apply String.eqb_neq. exact H. Qed.

(** C5. In both rule-based servers the single-text handler answers a
    string with the error 'Text cannot be empty' exactly when the text is
    empty once its leading and trailing whitespace is removed, that is
    when it holds whitespace only; any other text is scored and answered
    with success.  The scoring functions normalize a text by lower-casing
    it, dropping every character that is neither a word character nor
    whitespace and cutting the result at the runs of whitespace; every
    token obtained is counted, none being removed or rewritten. *)
Theorem validation_and_normalization (now text : string) :
  (SimpleFastAPI.predict now text
     = inl (HTTPException 400 "Text cannot be empty")
   <-> Py.strip text = "")
  /\ (SimpleFlask.predict now (JStr text)
        = inl (HTTPException 400 "Text cannot be empty")
      <-> Py.strip text = "")
  /\ (Py.strip text = "" <-> blank text = true)
  /\ (Py.strip text <> "" ->
      (exists r, SimpleFastAPI.predict now text = inr r
                 /\ SimpleFastAPI.r_status r = "success"
                 /\ SimpleFastAPI.d_total_words (SimpleFastAPI.r_details r)
                    = Py.len (normalize (Py.strip text)))
      /\ (exists r, SimpleFlask.predict now (JStr text) = inr r
                    /\ SimpleFlask.r_status r = "success"))
  /\ SimpleFastAPI.words_of text = normalize text
  /\ SimpleFlask.words_of text = normalize text
  /\ SimpleFastAPI.total_words (SimpleFastAPI.simple_sentiment_analysis text)
     = Py.len (normalize text).
Proof.
  assert (Hflask : Py.strip text <> "" -> text <> "").
  { intros H E. apply H. rewrite E. reflexivity. }
  split; [|split; [|split; [|split; [|split; [|split]]]]].
  - unfold SimpleFastAPI.predict, Py.truthy. rewrite negb_involutive.
    destruct (String.eqb_spec (Py.strip text) "") as [E|E].
    + split; [intros _; exact E | reflexivity].
    + split; [discriminate | contradiction].
  - unfold SimpleFlask.predict, Py.truthy. rewrite !negb_involutive.
    destruct (String.eqb_spec (Py.strip text) "") as [E|E].
    + rewrite orb_true_r. split; [intros _; exact E | reflexivity].
    + rewrite (eqb_empty_false text (Hflask E)). cbn [orb].
      split; [discriminate | contradiction].
  - apply strip_empty_iff.
  - intros E. split.
    + unfold SimpleFastAPI.predict, Py.truthy. rewrite negb_involutive.
      rewrite (eqb_empty_false _ E). eexists. split; [reflexivity|].
      cbn [SimpleFastAPI.r_status SimpleFastAPI.r_details
           SimpleFastAPI.d_total_words].
      split; [reflexivity|].
      rewrite fastapi_analysis_eq. cbv zeta. cbn [SimpleFastAPI.total_words].
      now rewrite fastapi_words_normalize.
    + unfold SimpleFlask.predict, Py.truthy. rewrite !negb_involutive.
      rewrite (eqb_empty_false _ E), (eqb_empty_false text (Hflask E)).
      cbn [orb]. eexists. split; reflexivity.
  - apply fastapi_words_normalize.
  - apply flask_words_normalize.
  - rewrite fastapi_analysis_eq. cbv zeta. cbn [SimpleFastAPI.total_words].
    now rewrite fastapi_words_normalize.
Qed.

Lemma validation_and_normalization_witness :
  SimpleFastAPI.predict "2025-07-06T10:30:00" "  	 "
    = inl (HTTPException 400 "Text cannot be empty")
  /\ normalize "The Movies, the BEST!" = ["the"; "movies"; "the"; "best"].
Proof.
  split; [|reflexivity].
  apply (proj1 (validation_and_normalization "2025-07-06T10:30:00" "  	 ")).
  reflexivity.
Defined.

(** ** The two rule-based scoring functions compared *)

Lemma occurrences_in_app (base extra tokens : list string) :
  forallb (fun w => negb (Py.in_list w extra)) tokens = true ->
  occurrences_in (base ++ extra)%list tokens = occurrences_in base tokens.
Proof.
  induction tokens as [|t ts IH]; [reflexivity|].
  cbn [forallb]. intros H. apply andb_true_iff in H as [Ht Hts].
  apply negb_true_iff in Ht.
  assert (Hnot : ~ In t extra).
  { intros Hin. apply in_list_spec in Hin. congruence. }
  cbn [occurrences_in]. rewrite (IH Hts).
  destruct (in_dec string_dec t (base ++ extra)%list) as [Hin|Hnin];
    destruct (in_dec string_dec t base) as [Hb|Hb]; try reflexivity.
  - apply in_app_or in Hin as [Hin|Hin]; contradiction.
  - exfalso. apply Hnin. apply in_or_app. now left.
Qed.

Lemma forallb_weaken {A : Type} (f g : A -> bool) (l : list A) :
  (forall x, f x = true -> g x = true) ->
  forallb f l = true -> forallb g l = true.
Proof.
  intros Hfg. induction l as [|x l IH]; [reflexivity|].
  cbn [forallb]. intros H. apply andb_true_iff in H as [Hx Hl].
  now rewrite (Hfg x Hx), (IH Hl).
Qed.

Lemma not_in_app_l (w : string) (a b : list string) :
  negb (Py.in_list w (a ++ b)%list) = true -> negb (Py.in_list w a) = true.
Proof.
  unfold Py.in_list. rewrite existsb_app, negb_orb.
  intros H. now apply andb_true_iff in H as [H _].
Qed.

Lemma not_in_app_r (w : string) (a b : list string) :
  negb (Py.in_list w (a ++ b)%list) = true -> negb (Py.in_list w b) = true.
Proof.
  unfold Py.in_list. rewrite existsb_app, negb_orb.
  intros H. now apply andb_true_iff in H as [_ H].
Qed.

(** C8, counterexample. On the text 'the best film' the FastAPI function
    answers 'positive' with confidence 0.7 and the Flask function answers
    'neutral' with confidence 0.5. *)
Lemma scoring_functions_differ :
  SimpleFastAPI.sentiment
    (SimpleFastAPI.simple_sentiment_analysis "the best film") = "positive"
  /\ SimpleFlask.sentiment
       (SimpleFlask.simple_sentiment_analysis "the best film") = "neutral"
  /\ (SimpleFastAPI.confidence
        (SimpleFastAPI.simple_sentiment_analysis "the best film") == 0.7)%Q
  /\ (SimpleFlask.confidence
        (SimpleFlask.simple_sentiment_analysis "the best film") == 0.5)%Q
  /\ ~ (SimpleFastAPI.sentiment
          (SimpleFastAPI.simple_sentiment_analysis "the best film")
        = SimpleFlask.sentiment
            (SimpleFlask.simple_sentiment_analysis "the best film")
        /\ (SimpleFastAPI.confidence
              (SimpleFastAPI.simple_sentiment_analysis "the best film")
            == SimpleFlask.confidence
                 (SimpleFlask.simple_sentiment_analysis "the best film"))%Q).
Proof.
  repeat split; try reflexivity.
  intros [H _]. vm_compute in H. discriminate H.
Qed.

(** C8, amended. The two rule-based scoring functions apply the same
    normalization and the same decision rule, each to its own word lists;
    the FastAPI lists are the Flask lists followed by five more words
    each.  On every text none of whose tokens is one of these ten words
    the two functions return the same label, the same confidence and the
    same counts. *)
Theorem scoring_functions_agree (text : string) :
  free_of_extra_words (SimpleFlask.words_of text) = true ->
  SimpleFastAPI.positive_words
    = (SimpleFlask.positive_words ++ extra_positive_words)%list
  /\ SimpleFastAPI.negative_words
       = (SimpleFlask.negative_words ++ extra_negative_words)%list
  /\ SimpleFastAPI.words_of text = SimpleFlask.words_of text
  /\ SimpleFastAPI.sentiment (SimpleFastAPI.simple_sentiment_analysis text)
     = SimpleFlask.sentiment (SimpleFlask.simple_sentiment_analysis text)
  /\ SimpleFastAPI.confidence (SimpleFastAPI.simple_sentiment_analysis text)
     = SimpleFlask.confidence (SimpleFlask.simple_sentiment_analysis text)
  /\ SimpleFastAPI.positive_words_found
       (SimpleFastAPI.simple_sentiment_analysis text)
     = SimpleFlask.positive_words_found
         (SimpleFlask.simple_sentiment_analysis text)
  /\ SimpleFastAPI.negative_words_found
       (SimpleFastAPI.simple_sentiment_analysis text)
     = SimpleFlask.negative_words_found
         (SimpleFlask.simple_sentiment_analysis text).
Proof.
  intros Hfree.
  assert (Hp : occurrences_in SimpleFastAPI.positive_words
                 (SimpleFastAPI.words_of text)
               = occurrences_in SimpleFlask.positive_words
                   (SimpleFlask.words_of text)).
  { change SimpleFastAPI.positive_words
      with (SimpleFlask.positive_words ++ extra_positive_words)%list.
    apply occurrences_in_app.
    revert Hfree. apply forallb_weaken. intros w. apply not_in_app_l. }
  assert (Hn : occurrences_in SimpleFastAPI.negative_words
                 (SimpleFastAPI.words_of text)
               = occurrences_in SimpleFlask.negative_words
                   (SimpleFlask.words_of text)).
  { change SimpleFastAPI.negative_words
      with (SimpleFlask.negative_words ++ extra_negative_words)%list.
    apply occurrences_in_app.
    revert Hfree. apply forallb_weaken. intros w. apply not_in_app_r. }
  rewrite fastapi_analysis_eq, flask_analysis_eq. cbv zeta.
  cbn [SimpleFastAPI.sentiment SimpleFastAPI.confidence
       SimpleFastAPI.positive_words_found SimpleFastAPI.negative_words_found
       SimpleFlask.sentiment SimpleFlask.confidence
       SimpleFlask.positive_words_found SimpleFlask.negative_words_found].
  rewrite Hp, Hn. repeat split; reflexivity.
Qed.

Lemma scoring_functions_agree_witness :
  free_of_extra_words (SimpleFlask.words_of "A great, great film!") = true
  /\ SimpleFastAPI.sentiment
       (SimpleFastAPI.simple_sentiment_analysis "A great, great film!")
     = SimpleFlask.sentiment
         (SimpleFlask.simple_sentiment_analysis "A great, great film!").
Proof.
  split; [reflexivity|].
  apply (scoring_functions_agree "A great, great film!"). reflexivity.
Defined.

(** ** The batch handler of the rule-based FastAPI server *)

Lemma loop_body_results (st : SimpleFastAPI.loop_state) (text : string) :
  SimpleFastAPI.ls_results (SimpleFastAPI.loop_body st text)
  = (SimpleFastAPI.ls_results st ++ [item_of text])%list.
Proof.
  unfold SimpleFastAPI.loop_body.
  destruct (String.eqb _ "positive"); [reflexivity|].
  destruct (String.eqb _ "negative"); reflexivity.
Qed.

Lemma loop_results (texts : list string) (st : SimpleFastAPI.loop_state) :
  SimpleFastAPI.ls_results (fold_left SimpleFastAPI.loop_body texts st)
  = (SimpleFastAPI.ls_results st ++ map item_of texts)%list.
Proof.
  revert st; induction texts as [|t ts IH]; intros st; simpl.
  - now rewrite app_nil_r.
  - rewrite IH, loop_body_results, <- app_assoc. reflexivity.
Qed.






(** The rounding of the sum shows in the answer: on three texts of
    confidences 0.7, 0.8 and 0.9 the average is the float next below
    0.8. *)
Example average_is_rounded :
  exists resp,
    SimpleFastAPI.predict_batch "2025-07-06T10:30:00"
      ["A good film"; "A good, great film"; "I love this great, good film"]
    = inr resp
    /\ map (fun r => Py.binary64 (SimpleFastAPI.b_confidence r))
           (SimpleFastAPI.results resp)
       = [0.7; 0.8; 0.9]%float
    /\ SimpleFastAPI.average_confidence (SimpleFastAPI.batch_summary resp)
       = 0.7999999999999999%float
    /\ PrimFloat.ltb
         (SimpleFastAPI.average_confidence (SimpleFastAPI.batch_summary resp))
         0.8%float = true.
Proof.
  eexists. split; [reflexivity|].
  split; [reflexivity|]. split; reflexivity.
Qed.

(** ** The prediction pipeline of the model servers *)

Lemma fastapi_predict_sentiment_result (g : globals) (text : string) (w : world) :
  fst (FastAPI.predict_sentiment g text w) =
  match pipeline g text with
  | inl _ => inl (HTTPExc (HTTPException 500 "Error making prediction"))
  | inr (processed_text, prediction, confidence) =>
      inr {| FastAPI.sentiment := label_of_class prediction;
             FastAPI.confidence := confidence;
             FastAPI.processed_text := processed_text;
             FastAPI.original_text := text;
             FastAPI.timestamp := clock w (ticks w) |}
  end.
Proof.
  unfold FastAPI.predict_sentiment, pipeline, try_except, bind, subscript,
    attribute, invoke, first, row_max, now, ret, raise, label_of_class.
  destruct g as [gm gv gf gd]; cbn.
  run_pipeline; reflexivity.
Qed.

Lemma flask_predict_sentiment_result (g : globals) (text : string) (w : world) :
  fst (Flask.predict_sentiment g text w) =
  match pipeline g text with
  | inl e => inl e
  | inr (processed_text, prediction, confidence) =>
      inr {| Flask.sentiment := label_of_class prediction;
             Flask.confidence := confidence;
             Flask.processed_text := processed_text |}
  end.
Proof.
  unfold Flask.predict_sentiment, pipeline, try_except, bind, subscript,
    attribute, invoke, first, row_max, now, ret, raise, label_of_class.
  destruct g as [gm gv gf gd]; cbn.
  run_pipeline; reflexivity.
Qed.

(** ** Repeated analysis of one text *)

(** C9, counterexample. Two calls of the single-text handler on the text
    'great', one second apart, return answers that differ: each carries
    the reading of the clock at its call. *)
Lemma repeated_calls_differ :
  SimpleFastAPI.predict "2025-07-06T10:30:00" "great"
  <> SimpleFastAPI.predict "2025-07-06T10:30:01" "great".
Proof. intros H. vm_compute in H. discriminate H. Qed.

(** C9, amended. For every text and every two readings of the clock, two
    calls of the rule-based single-text handler either fail with the same
    error or both succeed with the same label, the same confidence, the
    same text, the same word counts and the same status; the timestamp of
    each answer is the clock reading of its call, so the two answers are
    identical exactly when the two readings are.  Likewise, with the same
    bundle, two calls of the model scorer either both raise or return the
    same label, confidence and processed text, the FastAPI one stamping
    its result with the clock reading of the call. *)
Theorem analysis_deterministic (now1 now2 text : string) (g : globals)
  (w1 w2 : world) :
  match SimpleFastAPI.predict now1 text, SimpleFastAPI.predict now2 text with
  | inr r1, inr r2 =>
      SimpleFastAPI.r_sentiment r1 = SimpleFastAPI.r_sentiment r2
      /\ SimpleFastAPI.r_confidence r1 = SimpleFastAPI.r_confidence r2
      /\ SimpleFastAPI.r_text r1 = SimpleFastAPI.r_text r2
      /\ SimpleFastAPI.r_details r1 = SimpleFastAPI.r_details r2
      /\ SimpleFastAPI.r_status r1 = SimpleFastAPI.r_status r2
      /\ SimpleFastAPI.r_timestamp r1 = now1
      /\ SimpleFastAPI.r_timestamp r2 = now2
      /\ (r1 = r2 <-> now1 = now2)
  | inl e1, inl e2 => e1 = e2
  | _, _ => False
  end
  /\ match fst (FastAPI.predict_sentiment g text w1),
           fst (FastAPI.predict_sentiment g text w2) with
     | inr r1, inr r2 =>
         FastAPI.sentiment r1 = FastAPI.sentiment r2
         /\ FastAPI.confidence r1 = FastAPI.confidence r2
         /\ FastAPI.processed_text r1 = FastAPI.processed_text r2
         /\ FastAPI.original_text r1 = FastAPI.original_text r2
         /\ FastAPI.timestamp r1 = clock w1 (ticks w1)
         /\ FastAPI.timestamp r2 = clock w2 (ticks w2)
     | inl e1, inl e2 => e1 = e2
     | _, _ => False
     end
  /\ fst (Flask.predict_sentiment g text w1)
     = fst (Flask.predict_sentiment g text w2).
Proof.
  split; [|split].
  - unfold SimpleFastAPI.predict.
    destruct (negb (Py.truthy (Py.strip text))); [reflexivity|].
    cbn [SimpleFastAPI.r_sentiment SimpleFastAPI.r_confidence
         SimpleFastAPI.r_text SimpleFastAPI.r_details SimpleFastAPI.r_status
         SimpleFastAPI.r_timestamp].
    repeat split; try reflexivity.
    + intros H. now injection H.
    + intros H. now rewrite H.
  - rewrite !fastapi_predict_sentiment_result.
    destruct (pipeline g text) as [e|[[pt cls] c]]; [reflexivity|].
    cbn. repeat split; reflexivity.
  - now rewrite !flask_predict_sentiment_result.
Qed.

Lemma fold_larger (l : list Q) (a : Q) :
  let m := fold_left larger l a in
  (m = a \/ In m l) /\ (a <= m)%Q /\ forall q, In q l -> (q <= m)%Q.
Proof.
  revert a; induction l as [|y l IH]; intros a; cbn [fold_left].
  - split; [now left|]. split; [apply Qle_refl | intros q []].
  - destruct (IH (larger a y)) as (Hin & Hle & Hall).
    assert (Hstep : (a <= larger a y)%Q /\ (y <= larger a y)%Q
                    /\ (larger a y = a \/ larger a y = y)).
    { unfold larger. destruct (Qle_bool y a) eqn:E.
      - apply Qle_bool_iff in E. repeat split;
          [apply Qle_refl | exact E | now left].
      - assert (H : ~ (y <= a)%Q) by (rewrite <- Qle_bool_iff, E; discriminate).
        apply Qnot_le_lt, Qlt_le_weak in H.
        repeat split; [exact H | apply Qle_refl | now right]. }
    destruct Hstep as (Ha & Hy & Hor).
    split; [|split].
    + destruct Hin as [Hin|Hin].
      * rewrite Hin. destruct Hor as [->| ->]; [now left | right; now left].
      * right; now right.
    + eapply Qle_trans; eassumption.
    + intros q [<-|Hq]; [eapply Qle_trans; eassumption | now apply Hall].
Qed.

Lemma max_list_is_maximum (row : list Q) (c : Q) :
  Py.max_list row = Some c -> is_maximum c row.
Proof.
  destruct row as [|x l]; [discriminate|].
  cbn [Py.max_list]. intros H. injection H as <-.
  destruct (fold_larger l x) as (Hin & Hle & Hall).
  fold larger. split.
  - destruct Hin as [->|Hin]; [now left | now right].
  - intros q [<-|Hq]; [exact Hle | now apply Hall].
Qed.

Lemma pipeline_returns (g : globals) (text processed_text : string)
  (prediction : Z) (confidence : Q) :
  pipeline g text = inr (processed_text, prediction, confidence) ->
  exists row,
    classifier_output g text prediction row /\ is_maximum confidence row.
Proof.
  unfold pipeline, classifier_output. intros H.
  destruct (preprocessing_functions g) as [d|] eqn:Ed; [|discriminate].
  destruct (dict_get d "preprocess_text") as [f|] eqn:Ef; [|discriminate].
  destruct (f text) as [e|pt] eqn:Ep; [discriminate|].
  destruct (vectorizer g) as [v|] eqn:Ev; [|discriminate].
  destruct (transform v [pt]) as [e|x] eqn:Et; [discriminate|].
  destruct (model g) as [m|] eqn:Em; [|discriminate].
  destruct (predict m x) as [e|[|cls classes]] eqn:Ec; try discriminate.
  destruct (predict_proba m x) as [e|[|row rows]] eqn:Er; try discriminate.
  destruct (Py.max_list row) as [c|] eqn:Emax; [|discriminate].
  injection H as _ <- <-.
  exists row. split; [|now apply max_list_is_maximum].
  exists d, f, pt, v, x, m, classes, rows. repeat split; assumption.
Qed.

Lemma label_of_class_cases (prediction : Z) :
  (prediction = 1 -> label_of_class prediction = "positive")
  /\ (prediction <> 1 -> label_of_class prediction = "negative")
  /\ label_of_class prediction <> "neutral".
Proof.
  unfold label_of_class. destruct (Z.eqb_spec prediction 1);
    repeat split; intros; try contradiction; try reflexivity; discriminate.
Qed.

Lemma classifier_output_pipeline (g : globals) (text : string)
  (prediction : Z) (row : list Q) :
  classifier_output g text prediction row -> row <> [] ->
  exists processed_text confidence,
    pipeline g text = inr (processed_text, prediction, confidence)
    /\ is_maximum confidence row.
Proof.
  intros (d & f & pt & v & x & m & classes & rows
          & Hd & Hf & Hp & Hv & Ht & Hm & Hc & Hr) Hrow.
  unfold pipeline. rewrite Hd, Hf, Hp, Hv, Ht, Hm, Hc, Hr.
  destruct (Py.max_list row) as [c|] eqn:Emax.
  - exists pt, c. split; [reflexivity | now apply max_list_is_maximum].
  - destruct row; [contradiction | discriminate].
Qed.

(** ** The model scorer *)

(** C6. In either model server [predict_sentiment] returns a result
    whenever the classifier gives a predicted class and a row of class
    probabilities for the text, and only then.  The confidence of the
    result is the largest entry of that row, its label is 'positive' when
    the predicted class is 1 and 'negative' otherwise, and it is never
    'neutral'. *)
Theorem model_scorer_result (g : globals) (text : string) (w : world) :
  (forall r w',
     FastAPI.predict_sentiment g text w = (inr r, w') ->
     exists prediction row,
       classifier_output g text prediction row
       /\ is_maximum (FastAPI.confidence r) row
       /\ (prediction = 1 -> FastAPI.sentiment r = "positive")
       /\ (prediction <> 1 -> FastAPI.sentiment r = "negative")
       /\ FastAPI.sentiment r <> "neutral")
  /\ (forall r w',
        Flask.predict_sentiment g text w = (inr r, w') ->
        exists prediction row,
          classifier_output g text prediction row
          /\ is_maximum (Flask.confidence r) row
          /\ (prediction = 1 -> Flask.sentiment r = "positive")
          /\ (prediction <> 1 -> Flask.sentiment r = "negative")
          /\ Flask.sentiment r <> "neutral")
  /\ (forall prediction row,
        classifier_output g text prediction row -> row <> [] ->
        (exists r w',
           FastAPI.predict_sentiment g text w = (inr r, w')
           /\ is_maximum (FastAPI.confidence r) row
           /\ FastAPI.sentiment r
              = (if prediction =? 1 then "positive" else "negative"))
        /\ (exists r w',
              Flask.predict_sentiment g text w = (inr r, w')
              /\ is_maximum (Flask.confidence r) row
              /\ Flask.sentiment r
                 = (if prediction =? 1 then "positive" else "negative"))).
Proof.
  split; [|split]; [intros r w' H | intros r w' H | intros cls row Hout Hrow].
  3: { destruct (classifier_output_pipeline _ _ _ _ Hout Hrow)
         as (pt & c & Hp & Hmax).
       split.
       - pose proof (fastapi_predict_sentiment_result g text w) as E.
         rewrite Hp in E.
         destruct (FastAPI.predict_sentiment g text w) as [res w'].
         cbn [fst] in E. subst res. eexists. eexists.
         split; [reflexivity|]. split; [exact Hmax | reflexivity].
       - pose proof (flask_predict_sentiment_result g text w) as E.
         rewrite Hp in E.
         destruct (Flask.predict_sentiment g text w) as [res w'].
         cbn [fst] in E. subst res. eexists. eexists.
         split; [reflexivity|]. split; [exact Hmax | reflexivity]. }
  - pose proof (fastapi_predict_sentiment_result g text w) as E.
    rewrite H in E. cbn [fst] in E.
    destruct (pipeline g text) as [e|[[pt cls] c]] eqn:Ep; [discriminate|].
    injection E as ->.
    destruct (pipeline_returns _ _ _ _ _ Ep) as (row & Hout & Hmax).
    exists cls, row. cbn [FastAPI.confidence FastAPI.sentiment].
    split; [exact Hout|]. split; [exact Hmax|]. apply label_of_class_cases.
  - pose proof (flask_predict_sentiment_result g text w) as E.
    rewrite H in E. cbn [fst] in E.
    destruct (pipeline g text) as [e|[[pt cls] c]] eqn:Ep.
    + discriminate.
    + injection E as ->.
      destruct (pipeline_returns _ _ _ _ _ Ep) as (row & Hout & Hmax).
      exists cls, row. cbn [Flask.confidence Flask.sentiment].
      split; [exact Hout|]. split; [exact Hmax|]. apply label_of_class_cases.
Qed.

Lemma model_scorer_result_witness :
  classifier_output sample_globals "Great!" 1 [0.25; 0.75]%Q
  /\ (exists r w',
        FastAPI.predict_sentiment sample_globals "Great!" sample_world
        = (inr r, w')
        /\ is_maximum (FastAPI.confidence r) [0.25; 0.75]%Q
        /\ FastAPI.sentiment r = "positive")
  /\ (exists r w',
        Flask.predict_sentiment sample_globals "Great!" sample_world
        = (inr r, w')
        /\ is_maximum (Flask.confidence r) [0.25; 0.75]%Q
        /\ Flask.sentiment r = "positive")
  /\ (exists r w' prediction row,
        Flask.predict_sentiment sample_globals "A long and dull film"
          sample_world = (inr r, w')
        /\ classifier_output sample_globals "A long and dull film"
             prediction row
        /\ is_maximum (Flask.confidence r) row
        /\ Flask.sentiment r = "negative").
Proof.
  assert (Hout : classifier_output sample_globals "Great!" 1 [0.25; 0.75]%Q).
  { unfold classifier_output. do 8 eexists.
    split; [reflexivity|]. split; [reflexivity|]. split; [reflexivity|].
    split; [reflexivity|]. split; [reflexivity|]. split; [reflexivity|].
    split; reflexivity. }
  assert (Hrow : [0.25; 0.75]%Q <> []) by discriminate.
  split; [exact Hout|].
  destruct (proj2 (proj2 (model_scorer_result sample_globals "Great!"
                            sample_world)) 1 [0.25; 0.75]%Q Hout Hrow)
    as [Hfast Hflask].
  split; [exact Hfast|]. split; [exact Hflask|].
  eexists. eexists.
  destruct (proj1 (proj2 (model_scorer_result sample_globals
                            "A long and dull film" sample_world))
              _ _ eq_refl) as (prediction & row & Hout' & Hmax & _).
  exists prediction, row.
  split; [reflexivity|]. split; [exact Hout'|]. split; [exact Hmax|].
  reflexivity.
Defined.

(** ** Loading the bundle and checking it *)

Lemma load_model_components_false (d : disk) (g : globals) :
  load_fails d -> fst (load_model_components d g) = false.
Proof.
  unfold load_fails, failed, load_model_components.
  intros [[e H]|[[e H]|[[e H]|[e H]]]]; rewrite H;
    repeat match goal with
           | |- context [match ?x with inl _ => _ | inr _ => _ end] =>
               destruct x
           end; reflexivity.
Qed.

Lemma load_model_components_true (d : disk) (g0 g : globals) :
  load_model_components d g0 = (true, g) -> complete d g.
Proof.
  unfold load_model_components, complete.
  destruct (sentiment_model_pkl d) as [e|m]; [discriminate|].
  destruct (tfidf_vectorizer_pkl d) as [e|v]; [discriminate|].
  destruct (preprocessing_functions_pkl d) as [e|f]; [discriminate|].
  destruct (model_metadata_pkl d) as [e|md]; [discriminate|].
  cbn. intros H. injection H as _ <-. cbn.
  repeat split; eexists; split; reflexivity.
Qed.

(** C7. In both model servers the handlers test the [model] variable
    before anything else: when it is [None] the request fails with 'Model
    not loaded' and neither the bundle nor the clock is touched.  When
    any of the four files fails to load, [load_model_components] answers
    [False] and the server refuses to start, so that no request is
    served; a server that has started holds all four components.  Hence
    the variables a process holds when a request arrives are either all
    [None] or the four loaded components: the pipeline never runs on a
    part of the bundle. *)
Theorem bundle_check_and_loading (d : disk) (g : globals) (w : world) :
  (model g = None ->
   (forall text, FastAPI.predict g text w = (inl model_not_loaded, w))
   /\ (forall texts, FastAPI.batch_predict g texts w = (inl model_not_loaded, w))
   /\ (forall text, Flask.predict g text w = (inl model_not_loaded, w))
   /\ (forall texts, Flask.batch_predict g texts w = (inl model_not_loaded, w)))
  /\ (load_fails d ->
      fst (load_model_components d no_globals) = false
      /\ FastAPI.startup_event d = Refused
      /\ Flask.main d = Refused)
  /\ (forall g', FastAPI.startup_event d = Serving g' -> complete d g')
  /\ (forall g', Flask.main d = Serving g' -> complete d g')
  /\ (forall g', request_state d g' -> g' = no_globals \/ complete d g').
Proof.
  assert (Hstart : forall g', FastAPI.startup_event d = Serving g' ->
                              complete d g').
  { intros g'. unfold FastAPI.startup_event.
    destruct (load_model_components d no_globals) as [[|] g0] eqn:E;
      [|discriminate].
    intros H. injection H as <-. eapply load_model_components_true, E. }
  split; [|split; [|split; [|split]]];
    [| | exact Hstart | |
     intros g' [H|[H|H]];
       [now left | right; now apply Hstart
        | right; apply Hstart; exact H]].
  - intros H.
    unfold FastAPI.predict, FastAPI.batch_predict, Flask.predict,
      Flask.batch_predict, try_except, raise, FastAPI.reraise.
    rewrite H. repeat split; reflexivity.
  - intros H. pose proof (load_model_components_false d no_globals H) as E.
    unfold FastAPI.startup_event, Flask.main.
    destruct (load_model_components d no_globals) as [loaded g0].
    cbn [fst] in E. subst loaded. repeat split; reflexivity.
  - intros g'. unfold Flask.main.
    destruct (load_model_components d no_globals) as [[|] g0] eqn:E;
      [|discriminate].
    intros H. injection H as <-. eapply load_model_components_true, E.
Qed.

Lemma bundle_check_and_loading_witness :
  model no_globals = None
  /\ FastAPI.predict no_globals "Great!" sample_world
     = (inl model_not_loaded, sample_world)
  /\ load_fails disk_without_metadata
  /\ FastAPI.startup_event disk_without_metadata = Refused
  /\ load_fails disk_without_vectorizer
  /\ Flask.main disk_without_vectorizer = Refused
  /\ FastAPI.startup_event sample_disk = Serving sample_globals
  /\ complete sample_disk sample_globals
  /\ request_state sample_disk sample_globals.
Proof.
  pose proof (bundle_check_and_loading disk_without_metadata no_globals
                sample_world) as (Hnone & Hfail & _).
  pose proof (bundle_check_and_loading disk_without_vectorizer no_globals
                sample_world) as (_ & Hfail' & _).
  pose proof (bundle_check_and_loading sample_disk no_globals sample_world)
    as (_ & _ & Hserving & _).
  assert (Hf : load_fails disk_without_metadata).
  { right; right; right. eexists. reflexivity. }
  assert (Hf' : load_fails disk_without_vectorizer).
  { right; left. eexists. reflexivity. }
  split; [reflexivity|].
  split; [apply (proj1 (Hnone eq_refl))|].
  split; [exact Hf|].
  split; [apply (Hfail Hf)|].
  split; [exact Hf'|].
  split; [apply (Hfail' Hf')|].
  split; [reflexivity|].
  split; [apply Hserving; reflexivity|].
  right; left. reflexivity.
Defined.

(** ** The batch handlers *)

Lemma aligned_length {A B : Type} (P : Z -> A -> B -> Prop) (inputs : list A) :
  forall i entries, aligned P i inputs entries -> length entries = length inputs.
Proof.
  induction inputs as [|x xs IH]; intros i [|e es] H; cbn in *;
    try contradiction; [reflexivity|].
  destruct H as [_ H]. now rewrite (IH _ _ H).
Qed.

Lemma aligned_nth {A B : Type} (P : Z -> A -> B -> Prop) (inputs : list A) :
  forall i entries k x,
    aligned P i inputs entries ->
    nth_error inputs k = Some x ->
    exists e, nth_error entries k = Some e /\ P (i + Z.of_nat k) x e.
Proof.
  induction inputs as [|y ys IH]; intros i [|e es] k x H Hk; cbn in H;
    try contradiction.
  - destruct k; discriminate.
  - destruct H as [Hhead Htail]. destruct k as [|k]; cbn in Hk.
    + injection Hk as ->. exists e. split; [reflexivity|].
      now replace (i + Z.of_nat 0) with i by lia.
    + destruct (IH _ _ _ _ Htail Hk) as (e' & He' & HP).
      exists e'. split; [exact He'|].
      now replace (i + Z.of_nat (S k)) with (i + 1 + Z.of_nat k) by lia.
Qed.

Lemma for_each_aligned {A B : Type} (P : Z -> A -> B -> Prop)
  (body : list B -> Z * A -> M exn (list B)) :
  (forall acc i x w,
      exists e w', body acc (i, x) w = (inr (acc ++ [e])%list, w') /\ P i x e) ->
  forall inputs acc i w,
    exists entries w',
      for_each body acc (enumerate_from i inputs) w
        = (inr (acc ++ entries)%list, w')
      /\ aligned P i inputs entries.
Proof.
  intros Hbody. induction inputs as [|x xs IH]; intros acc i w.
  - exists [], w. cbn. rewrite app_nil_r. split; [reflexivity | exact I].
  - destruct (Hbody acc i x w) as (e & w1 & Hb & HP).
    destruct (IH (acc ++ [e])%list (i + 1) w1) as (es & w2 & Hrest & Hal).
    exists (e :: es), w2. cbn [enumerate_from for_each]. unfold bind at 1.
    rewrite Hb, Hrest, <- app_assoc. split; [reflexivity|].
    cbn. split; assumption.
Qed.

Lemma pipeline_fails_fastapi (g : globals) (text : string) :
  (exists e, pipeline g text = inl e)
  <-> raises (FastAPI.predict_sentiment g text).
Proof.
  split.
  - intros [e He] w. pose proof (fastapi_predict_sentiment_result g text w) as E.
    rewrite He in E.
    destruct (FastAPI.predict_sentiment g text w) as [r w'].
    cbn [fst] in E. subst r. eexists. eexists. reflexivity.
  - intros H. destruct (H sample_world) as (e & w' & He).
    pose proof (fastapi_predict_sentiment_result g text sample_world) as E.
    rewrite He in E. cbn [fst] in E.
    destruct (pipeline g text) as [e'|[[pt cls] c]]; [now exists e'|].
    discriminate.
Qed.

Lemma pipeline_fails_flask (g : globals) (text : string) :
  (exists e, pipeline g text = inl e)
  <-> raises (Flask.predict_sentiment g text).
Proof.
  split.
  - intros [e He] w. pose proof (flask_predict_sentiment_result g text w) as E.
    rewrite He in E.
    destruct (Flask.predict_sentiment g text w) as [r w'].
    cbn [fst] in E. subst r. eexists. eexists. reflexivity.
  - intros H. destruct (H sample_world) as (e & w' & He).
    pose proof (flask_predict_sentiment_result g text sample_world) as E.
    rewrite He in E. cbn [fst] in E.
    destruct (pipeline g text) as [e'|[[pt cls] c]]; [now exists e'|].
    discriminate.
Qed.

Lemma fastapi_batch_body (g : globals) (acc : list FastAPI.batch_entry)
  (i : Z) (text : string) (w : world) :
  exists e w',
    FastAPI.batch_body g acc (i, text) w = (inr (acc ++ [e])%list, w')
    /\ fastapi_entry g i text e.
Proof.
  unfold FastAPI.batch_body, try_except, bind, fastapi_entry.
  pose proof (fastapi_predict_sentiment_result g text w) as E.
  pose proof (pipeline_fails_fastapi g text) as Hiff.
  destruct (FastAPI.predict_sentiment g text w) as [[err|r] w1];
    cbn [fst] in E.
  - eexists. eexists. split; [reflexivity|]. cbn.
    split; [reflexivity|]. split; [reflexivity|].
    rewrite <- Hiff. split; [intros _ | reflexivity].
    destruct (pipeline g text) as [e'|[[pt cls] c]]; [now exists e'|].
    discriminate.
  - eexists. eexists. split; [reflexivity|]. cbn.
    rewrite <- Hiff.
    destruct (pipeline g text) as [e'|[[pt cls] c]]; [discriminate|].
    injection E as ->. cbn.
    split; [reflexivity|]. split; [reflexivity|].
    split; [discriminate | intros [e' He']; discriminate].
Qed.

Lemma flask_batch_body (g : globals) (acc : list Flask.batch_entry)
  (i : Z) (item : json_value) (w : world) :
  exists e w',
    Flask.batch_body g acc (i, item) w = (inr (acc ++ [e])%list, w')
    /\ flask_entry g i item e.
Proof.
  unfold Flask.batch_body, flask_entry.
  destruct item as [s|b].
  - unfold Py.truthy. rewrite negb_involutive.
    destruct (String.eqb_spec s "") as [Hs|Hs].
    + eexists. eexists. split; [reflexivity|]. cbn.
      split; [reflexivity|]. split; [reflexivity|].
      split; [intros _; now left | reflexivity].
    + unfold try_except, bind.
      pose proof (flask_predict_sentiment_result g s w) as E.
      destruct (Flask.predict_sentiment g s w) as [[err|r] w1];
        cbn [fst] in E.
      * eexists. eexists. split; [reflexivity|]. cbn.
        split; [reflexivity|]. split; [reflexivity|].
        split; [intros _ | reflexivity].
        right. exists s. split; [reflexivity|].
        apply pipeline_fails_flask.
        destruct (pipeline g s) as [e'|[[pt cls] c]]; [now exists e'|].
        discriminate.
      * eexists. eexists. split; [reflexivity|]. cbn.
        split; [reflexivity|]. split; [reflexivity|].
        split; [discriminate|].
        intros [Hinv|(s' & Hs' & Hr)]; [contradiction|].
        injection Hs' as <-. apply pipeline_fails_flask in Hr as [e' He'].
        rewrite He' in E. discriminate.
  - eexists. eexists. split; [reflexivity|]. cbn.
    split; [reflexivity|]. split; [reflexivity|].
    split; [intros _; now left | reflexivity].
Qed.

Lemma flask_loop_body_string (st : SimpleFlask.loop_state) (s : string) :
  exists st',
    SimpleFlask.loop_body st (JStr s) = Some st'
    /\ SimpleFlask.ls_results st'
       = (SimpleFlask.ls_results st
          ++ map flask_item_of (scored_texts [JStr s]))%list
    /\ (balanced st -> balanced st').
Proof.
  unfold SimpleFlask.loop_body, scored_texts. cbn [flat_map].
  rewrite app_nil_r.
  destruct (Py.truthy s); cbn [negb orb andb].
  - destruct (Py.truthy (Py.strip s)); cbn [negb map].
    + eexists. split; [reflexivity|]. unfold balanced, Py.len.
      fold (flask_item_of s).
      destruct (String.eqb _ "positive");
        [|destruct (String.eqb _ "negative")];
        cbn [SimpleFlask.ls_results SimpleFlask.ls_positive
             SimpleFlask.ls_negative SimpleFlask.ls_neutral];
        (split; [reflexivity|]); rewrite length_app; cbn [length]; lia.
    + exists st. rewrite app_nil_r. repeat split; auto.
  - exists st. cbn [map]. rewrite app_nil_r. repeat split; auto.
Qed.

Lemma scored_texts_cons (item : json_value) (items : list json_value) :
  scored_texts (item :: items)
  = (scored_texts [item] ++ scored_texts items)%list.
Proof.
  unfold scored_texts. cbn [flat_map]. rewrite app_nil_r. reflexivity.
Qed.

Lemma flask_loop (items : list json_value) (st : SimpleFlask.loop_state) :
  (has_true_non_string items = true -> SimpleFlask.loop st items = None)
  /\ (has_true_non_string items = false ->
      exists st',
        SimpleFlask.loop st items = Some st'
        /\ SimpleFlask.ls_results st'
           = (SimpleFlask.ls_results st
              ++ map flask_item_of (scored_texts items))%list
        /\ (balanced st -> balanced st')).
Proof.
  revert st; induction items as [|item items IH]; intros st.
  - split; [discriminate|]. intros _. exists st. cbn.
    rewrite app_nil_r. repeat split; auto.
  - cbn [has_true_non_string existsb SimpleFlask.loop].
    fold (has_true_non_string items).
    destruct item as [s|[|]].
    + destruct (flask_loop_body_string st s) as (st1 & Hb & Hr & Hbal).
      rewrite Hb. cbn [orb]. destruct (IH st1) as [Hnone Hsome].
      split; [exact Hnone|]. intros Hf.
      destruct (Hsome Hf) as (st' & Hl & Hr' & Hbal').
      exists st'. split; [exact Hl|]. split; [|auto].
      rewrite Hr', Hr, <- app_assoc, <- map_app.
      rewrite (scored_texts_cons (JStr s) items). reflexivity.
    + cbn. split; [reflexivity | discriminate].
    + cbn [SimpleFlask.loop_body orb]. apply IH.
Qed.

(** C3, counterexample. The rule-based FastAPI server answers a batch of
    three texts, the second of them empty, with two entries: the empty
    text leaves no entry.  The model FastAPI server hands an empty text
    to the scorer like any other, and the entry is a prediction when the
    scorer returns. *)
Lemma blank_items_leave_no_failure_entry :
  (exists resp,
     SimpleFastAPI.predict_batch "2025-07-06T10:30:00"
       ["Great film"; ""; "Terrible film"] = inr resp
     /\ map SimpleFastAPI.b_text (SimpleFastAPI.results resp)
        = ["Great film"; "Terrible film"]
     /\ length (SimpleFastAPI.results resp)
        <> length ["Great film"; ""; "Terrible film"])
  /\ (exists resp w',
        FastAPI.batch_predict sample_globals [""] sample_world = (inr resp, w')
        /\ map FastAPI.is_failure (FastAPI.results resp) = [false]).
Proof.
  split.
  - eexists. split; [reflexivity|]. split; [reflexivity|].
    cbn. discriminate.
  - eexists. eexists. split; reflexivity.
Qed.

(** C3, amended. In both model servers, once the model is loaded, the
    batch handler answers every batch with one entry per input, in the
    order of the inputs: the entry at each position carries that position
    as its index and the input at that position as its original text, and
    it is a failure entry exactly when the scorer raises on that text or,
    in the Flask server, when the item is empty or not a string; the
    other items are scored all the same.  The two rule-based servers
    drop the blank texts instead: the entries of a successful answer are
    those of the texts that are not blank, in order, without index. *)
Theorem batch_entries_follow_inputs (g : globals) (w : world) :
  model g <> None ->
  (forall texts,
     exists resp w',
       FastAPI.batch_predict g texts w = (inr resp, w')
       /\ length (FastAPI.results resp) = length texts
       /\ FastAPI.total_predictions resp = Py.len texts
       /\ forall k text,
            nth_error texts k = Some text ->
            exists e,
              nth_error (FastAPI.results resp) k = Some e
              /\ fastapi_entry g (Z.of_nat k) text e)
  /\ (forall items,
        items <> [] ->
        exists resp w',
          Flask.batch_predict g items w = (inr resp, w')
          /\ length (Flask.results resp) = length items
          /\ Flask.total_predictions resp = Py.len items
          /\ forall k item,
               nth_error items k = Some item ->
               exists e,
                 nth_error (Flask.results resp) k = Some e
                 /\ flask_entry g (Z.of_nat k) item e)
  /\ (forall now texts resp,
        SimpleFastAPI.predict_batch now texts = inr resp ->
        map SimpleFastAPI.b_text (SimpleFastAPI.results resp)
        = valid_texts texts)
  /\ (forall now items resp,
        SimpleFlask.predict_batch now items = inr resp ->
        map SimpleFlask.b_text (SimpleFlask.results resp)
        = scored_texts items).
Proof.
  intros Hmodel. destruct (model g) as [m|] eqn:Em; [clear Hmodel|congruence].
  split; [|split; [|split]].
  - intros texts.
    destruct (for_each_aligned (fastapi_entry g) (FastAPI.batch_body g)
                (fastapi_batch_body g) texts [] 0 w)
      as (es & w1 & Hloop & Hal).
    unfold FastAPI.batch_predict, try_except, bind, enumerate.
    rewrite Em, Hloop. cbn.
    eexists. eexists. split; [reflexivity|]. cbn.
    pose proof (aligned_length _ _ _ _ Hal) as Hlen.
    split; [exact Hlen|]. split; [unfold Py.len; now rewrite Hlen|].
    intros k text Hk.
    destruct (aligned_nth _ _ _ _ _ _ Hal Hk) as (e & He & HP).
    exists e. split; assumption.
  - intros items Hne.
    destruct (for_each_aligned (flask_entry g) (Flask.batch_body g)
                (flask_batch_body g) items [] 0 w)
      as (es & w1 & Hloop & Hal).
    unfold Flask.batch_predict, try_except, bind, enumerate.
    rewrite Em. destruct items as [|item items']; [congruence|].
    unfold enumerate in Hloop. rewrite Hloop. cbn.
    eexists. eexists. split; [reflexivity|]. cbn.
    pose proof (aligned_length _ _ _ _ Hal) as Hlen.
    split; [exact Hlen|]. split; [unfold Py.len; now rewrite Hlen|].
    intros k it Hk.
    destruct (aligned_nth _ _ _ _ _ _ Hal Hk) as (e & He & HP).
    exists e. split; assumption.
  - intros now texts resp. unfold SimpleFastAPI.predict_batch.
    fold (valid_texts texts).
    destruct (valid_texts texts) as [|t ts]; [discriminate|].
    intros H. injection H as <-. cbn [SimpleFastAPI.results].
    rewrite loop_results, loop_body_results.
    change (map SimpleFastAPI.b_text (map item_of (t :: ts)) = t :: ts).
    rewrite map_map. apply map_id.
  - intros now items resp. unfold SimpleFlask.predict_batch.
    destruct (Py.len items =? 0); [discriminate|].
    match goal with
    | |- context [SimpleFlask.loop ?st0 items] =>
        destruct (flask_loop items st0) as [Hnone Hsome]
    end.
    destruct (has_true_non_string items).
    + rewrite (Hnone eq_refl). discriminate.
    + destruct (Hsome eq_refl) as (st' & Hl & Hr & _). rewrite Hl.
      intros H. injection H as <-. cbn [SimpleFlask.results].
      rewrite Hr. cbn [SimpleFlask.ls_results app].
      rewrite map_map. apply map_id.
Qed.

Lemma batch_entries_follow_inputs_witness :
  model sample_globals <> None
  /\ (exists resp w',
        FastAPI.batch_predict sample_globals
          ["Great film"; "crash"; "A long and dull film"] sample_world
        = (inr resp, w')
        /\ map FastAPI.entry_index (FastAPI.results resp) = [0; 1; 2]
        /\ map FastAPI.is_failure (FastAPI.results resp)
           = [false; true; false])
  /\ (exists resp w',
        Flask.batch_predict sample_globals
          [JStr "Great film"; JStr ""; JOther true; JStr "crash";
           JStr "A long and dull film"] sample_world
        = (inr resp, w')
        /\ map Flask.entry_index (Flask.results resp) = [0; 1; 2; 3; 4]
        /\ map Flask.is_failure (Flask.results resp)
           = [false; true; true; true; false])
  /\ (exists resp,
        SimpleFastAPI.predict_batch "2025-07-06T10:30:00"
          ["Great film"; "  "; "Terrible film"] = inr resp
        /\ map SimpleFastAPI.b_text (SimpleFastAPI.results resp)
           = ["Great film"; "Terrible film"])
  /\ (exists resp,
        SimpleFlask.predict_batch "2025-07-06T10:30:00"
          [JStr "Great film"; JStr "  "; JOther false; JStr "Terrible film"]
        = inr resp
        /\ map SimpleFlask.b_text (SimpleFlask.results resp)
           = ["Great film"; "Terrible film"]).
Proof.
  assert (H : model sample_globals <> None) by discriminate.
  destruct (batch_entries_follow_inputs sample_globals sample_world H)
    as (Hfast & Hflask & Hsimple & Hsimple').
  split; [exact H|]. split; [|split; [|split]].
  - destruct (Hfast ["Great film"; "crash"; "A long and dull film"])
      as (resp & w' & Hr & _).
    exists resp, w'. split; [exact Hr|].
    cbn in Hr. injection Hr as <- _. split; reflexivity.
  - destruct (Hflask [JStr "Great film"; JStr ""; JOther true; JStr "crash";
                      JStr "A long and dull film"])
      as (resp & w' & Hr & _); [discriminate|].
    exists resp, w'. split; [exact Hr|].
    cbn in Hr. injection Hr as <- _. split; reflexivity.
  - eexists. split; [reflexivity|].
    match goal with
    | |- context [SimpleFastAPI.results ?r] =>
        rewrite (Hsimple "2025-07-06T10:30:00"
                   ["Great film"; "  "; "Terrible film"] r eq_refl)
    end.
    reflexivity.
  - eexists. split; [reflexivity|].
    match goal with
    | |- context [SimpleFlask.results ?r] =>
        rewrite (Hsimple' "2025-07-06T10:30:00"
                   [JStr "Great film"; JStr "  "; JOther false;
                    JStr "Terrible film"] r eq_refl)
    end.
    reflexivity.
Defined.

(** ** The confidence formula in binary64 arithmetic *)

(** X20. On binary64 floats the formula gives the floats nearest to 0.7,
    0.8 and 0.9 for the differences 1, 2 and 3, and 0.95 for every
    difference from 4 to 103: the values the exact reading gives. *)
Lemma binary64_confidence_values :
  binary64_confidence 1 = 0.7%float
  /\ binary64_confidence 2 = 0.8%float
  /\ binary64_confidence 3 = 0.9%float
  /\ binary64_capped 4 100 = true.
Proof.
  split; [vm_compute; reflexivity|].
  split; [vm_compute; reflexivity|].
  split; vm_compute; reflexivity.
Qed.

(** * Further properties *)

(** ** Characters *)

Lemma lower_char_idempotent (c : ascii) :
  Py.lower_char (Py.lower_char c) = Py.lower_char c.
Proof. by_cases_on_char c. Qed.

Lemma isspace_lower_char (c : ascii) :
  Py.isspace (Py.lower_char c) = Py.isspace c.
Proof. by_cases_on_char c. Qed.

Lemma lower_char_space (c : ascii) :
  Py.isspace c = true -> Py.lower_char c = c.
Proof. by_cases_on_char c. Qed.

Lemma space_is_not_word (c : ascii) :
  Py.isspace c = true -> Py.isword c = false.
Proof. by_cases_on_char c. Qed.

(** ** Strings *)

Lemma lower_idempotent (s : string) : Py.lower (Py.lower s) = Py.lower s.
Proof.
  induction s as [|c s IH]; cbn; [reflexivity|].
  now rewrite lower_char_idempotent, IH.
Qed.

Lemma lower_app (a b : string) :
  Py.lower (a ++ b) = (Py.lower a ++ Py.lower b)%string.
Proof. induction a as [|c a IH]; cbn; [reflexivity | now rewrite IH]. Qed.

Lemma lower_length (s : string) : String.length (Py.lower s) = String.length s.
Proof. induction s as [|c s IH]; cbn; [reflexivity | now rewrite IH]. Qed.

Lemma keep_chars_app (keep : ascii -> bool) (a b : string) :
  keep_chars keep (a ++ b) = (keep_chars keep a ++ keep_chars keep b)%string.
Proof.
  induction a as [|c a IH]; cbn; [reflexivity|].
  destruct (keep c); cbn; now rewrite IH.
Qed.

Lemma keep_chars_length (keep : ascii -> bool) (s : string) :
  (String.length (keep_chars keep s) <= String.length s)%nat.
Proof.
  induction s as [|c s IH]; cbn; [lia|]. destruct (keep c); cbn; lia.
Qed.

Lemma clean_app (a b : string) : clean (a ++ b) = (clean a ++ clean b)%string.
Proof. unfold clean. now rewrite lower_app, keep_chars_app. Qed.

Lemma clean_cons_space (c : ascii) (s : string) :
  Py.isspace c = true -> clean (String c s) = String c (clean s).
Proof.
  intros H. unfold clean. cbn. rewrite (lower_char_space c H).
  unfold word_or_space. rewrite H, orb_true_r. reflexivity.
Qed.

Lemma clean_length (s : string) :
  (String.length (clean s) <= String.length s)%nat.
Proof.
  unfold clean. rewrite <- (lower_length s). apply keep_chars_length.
Qed.

Lemma normalize_clean (text : string) :
  normalize text = split_on_whitespace (clean text).
Proof. reflexivity. Qed.

Lemma push_word_empty (ws : list string) : push_word "" ws = ws.
Proof. reflexivity. Qed.

Lemma push_word_app (w : string) (l1 l2 : list string) :
  push_word w (l1 ++ l2) = (push_word w l1 ++ l2)%list.
Proof. unfold push_word. destruct (String.eqb w ""); reflexivity. Qed.

Lemma runs_app_space (a b : string) (sp : ascii) :
  Py.isspace sp = true ->
  runs (a ++ String sp b) =
  let '(wa, wsa) := runs a in (wa, (wsa ++ split_on_whitespace b)%list).
Proof.
  intros Hsp. induction a as [|c a IH].
  - cbn. rewrite Hsp. unfold split_on_whitespace. destruct (runs b). reflexivity.
  - cbn [append runs]. rewrite IH. destruct (runs a) as [wa wsa].
    destruct (Py.isspace c); [|reflexivity].
    now rewrite push_word_app.
Qed.

Lemma split_app_space (a b : string) (sp : ascii) :
  Py.isspace sp = true ->
  split_on_whitespace (a ++ String sp b)
  = (split_on_whitespace a ++ split_on_whitespace b)%list.
Proof.
  intros Hsp. unfold split_on_whitespace at 1 2.
  rewrite (runs_app_space a b sp Hsp). destruct (runs a) as [wa wsa].
  apply push_word_app.
Qed.

Lemma normalize_app_space (a b : string) (sp : ascii) :
  Py.isspace sp = true ->
  normalize (a ++ String sp b) = (normalize a ++ normalize b)%list.
Proof.
  intros Hsp. rewrite !normalize_clean.
  change (String sp b) with (String sp "" ++ b)%string.
  rewrite clean_app, clean_app, (clean_cons_space sp "" Hsp).
  change (clean "") with "". cbn [append].
  now apply split_app_space.
Qed.

Lemma split_lstrip (s : string) :
  split_on_whitespace (clean (Py.lstrip s)) = split_on_whitespace (clean s).
Proof.
  induction s as [|c s IH]; [reflexivity|].
  cbn [Py.lstrip]. destruct (Py.isspace c) eqn:Hc; [|reflexivity].
  rewrite IH, (clean_cons_space c s Hc).
  unfold split_on_whitespace. cbn [runs]. rewrite Hc.
  destruct (runs (clean s)). reflexivity.
Qed.

Lemma runs_clean_cons (c : ascii) (r s : string) :
  runs (clean r) = runs (clean s) ->
  runs (clean (String c r)) = runs (clean (String c s)).
Proof.
  intros H. unfold clean in *. cbn [Py.lower keep_chars].
  destruct (word_or_space (Py.lower_char c)); [|exact H].
  cbn [runs]. now rewrite H.
Qed.

Lemma runs_clean_rstrip (s : string) :
  runs (clean (Py.rstrip s)) = runs (clean s).
Proof.
  induction s as [|c s IH]; [reflexivity|].
  cbn [Py.rstrip]. cbv zeta.
  destruct (Py.isspace c) eqn:Hc; cbn [andb].
  - destruct (String.eqb_spec (Py.rstrip s) "") as [E|E].
    + rewrite E in IH. rewrite (clean_cons_space c s Hc).
      cbn [runs]. rewrite <- IH, Hc. reflexivity.
    + now apply runs_clean_cons.
  - now apply runs_clean_cons.
Qed.

Lemma normalize_strip (text : string) :
  normalize (Py.strip text) = normalize text.
Proof.
  rewrite !normalize_clean. unfold Py.strip.
  unfold split_on_whitespace at 1. rewrite runs_clean_rstrip.
  apply split_lstrip.
Qed.

Lemma normalize_lower (text : string) :
  normalize (Py.lower text) = normalize text.
Proof. unfold normalize. now rewrite lower_idempotent. Qed.

(** ** The scoring functions and the shape of the text *)

Lemma fastapi_analysis_words (t1 t2 : string) :
  SimpleFastAPI.words_of t1 = SimpleFastAPI.words_of t2 ->
  SimpleFastAPI.simple_sentiment_analysis t1
  = SimpleFastAPI.simple_sentiment_analysis t2.
Proof.
  intros H. rewrite !fastapi_analysis_eq. cbv zeta. now rewrite H.
Qed.

Lemma flask_analysis_words (t1 t2 : string) :
  SimpleFlask.words_of t1 = SimpleFlask.words_of t2 ->
  SimpleFlask.simple_sentiment_analysis t1
  = SimpleFlask.simple_sentiment_analysis t2.
Proof.
  intros H. rewrite !flask_analysis_eq. cbv zeta. now rewrite H.
Qed.

(** X1. Both rule-based scoring functions ignore the letter case of a
    text and its leading and trailing whitespace: the lower-cased text
    and the stripped text get the result of the text itself. *)
Theorem scoring_ignores_case_and_margins (text : string) :
  SimpleFastAPI.simple_sentiment_analysis (Py.strip text)
    = SimpleFastAPI.simple_sentiment_analysis text
  /\ SimpleFastAPI.simple_sentiment_analysis (Py.lower text)
     = SimpleFastAPI.simple_sentiment_analysis text
  /\ SimpleFlask.simple_sentiment_analysis (Py.strip text)
     = SimpleFlask.simple_sentiment_analysis text
  /\ SimpleFlask.simple_sentiment_analysis (Py.lower text)
     = SimpleFlask.simple_sentiment_analysis text.
Proof.
  repeat split.
  - apply fastapi_analysis_words.
    now rewrite !fastapi_words_normalize, normalize_strip.
  - apply fastapi_analysis_words.
    now rewrite !fastapi_words_normalize, normalize_lower.
  - apply flask_analysis_words.
    now rewrite !flask_words_normalize, normalize_strip.
  - apply flask_analysis_words.
    now rewrite !flask_words_normalize, normalize_lower.
Qed.

Lemma occurrences_in_tokens_app (lexicon l1 l2 : list string) :
  occurrences_in lexicon (l1 ++ l2)
  = occurrences_in lexicon l1 + occurrences_in lexicon l2.
Proof.
  induction l1 as [|t ts IH]; cbn [app occurrences_in]; [lia|].
  rewrite IH. lia.
Qed.

(** X2. When two texts are joined by a whitespace character, the tokens
    of the result are the tokens of the first text followed by those of
    the second, and the positive count, the negative count and the
    number of words of the result are the sums of those of the two
    texts. *)
Theorem counts_are_additive (a b : string) (sp : ascii) :
  Py.isspace sp = true ->
  let ra := SimpleFastAPI.simple_sentiment_analysis a in
  let rb := SimpleFastAPI.simple_sentiment_analysis b in
  let r := SimpleFastAPI.simple_sentiment_analysis (a ++ String sp b) in
  SimpleFastAPI.words_of (a ++ String sp b)
    = (SimpleFastAPI.words_of a ++ SimpleFastAPI.words_of b)%list
  /\ SimpleFastAPI.positive_words_found r
     = SimpleFastAPI.positive_words_found ra
       + SimpleFastAPI.positive_words_found rb
  /\ SimpleFastAPI.negative_words_found r
     = SimpleFastAPI.negative_words_found ra
       + SimpleFastAPI.negative_words_found rb
  /\ SimpleFastAPI.total_words r
     = SimpleFastAPI.total_words ra + SimpleFastAPI.total_words rb.
Proof.
  intros Hsp. cbv zeta.
  assert (Hw : SimpleFastAPI.words_of (a ++ String sp b)
               = (SimpleFastAPI.words_of a ++ SimpleFastAPI.words_of b)%list).
  { rewrite !fastapi_words_normalize. now apply normalize_app_space. }
  split; [exact Hw|].
  rewrite !fastapi_analysis_eq. cbv zeta.
  cbn [SimpleFastAPI.positive_words_found SimpleFastAPI.negative_words_found
       SimpleFastAPI.total_words].
  rewrite Hw, !occurrences_in_tokens_app. unfold Py.len.
  rewrite length_app. repeat split; lia.
Qed.

Lemma counts_are_additive_witness :
  SimpleFastAPI.positive_words_found
    (SimpleFastAPI.simple_sentiment_analysis
       ("A great film," ++ String " " "great and good!"))
  = 1 + 2.
Proof.
  destruct (counts_are_additive "A great film," "great and good!" " " eq_refl)
    as (_ & Hp & _).
  rewrite Hp. reflexivity.
Defined.

(** ** Tokens *)

Lemma runs_chars (test : ascii -> bool) (s : string) :
  all_chars test s = true ->
  let '(w, ws) := runs s in
  all_chars (fun c => negb (Py.isspace c) && test c) w = true
  /\ Forall (fun t => t <> ""
                      /\ all_chars (fun c => negb (Py.isspace c) && test c) t
                         = true) ws.
Proof.
  induction s as [|c s IH]; cbn [all_chars runs].
  - intros _. split; [reflexivity | constructor].
  - intros H. apply andb_true_iff in H as [Hc Hs].
    specialize (IH Hs). destruct (runs s) as [w ws]. destruct IH as [Hw Hws].
    destruct (Py.isspace c) eqn:Esp.
    + split; [reflexivity|]. unfold push_word.
      destruct (String.eqb_spec w "") as [E|E]; [exact Hws|].
      constructor; [split; assumption | exact Hws].
    + split; [|exact Hws]. cbn [all_chars]. now rewrite Esp, Hc, Hw.
Qed.

Lemma split_tokens_chars (test : ascii -> bool) (s : string) :
  all_chars test s = true ->
  Forall (fun t => t <> ""
                   /\ all_chars (fun c => negb (Py.isspace c) && test c) t
                      = true)
         (split_on_whitespace s).
Proof.
  intros H. pose proof (runs_chars test s H) as R.
  unfold split_on_whitespace. destruct (runs s) as [w ws].
  destruct R as [Hw Hws]. unfold push_word.
  destruct (String.eqb_spec w "") as [E|E]; [exact Hws|].
  constructor; [split; assumption | exact Hws].
Qed.

Lemma clean_chars (s : string) : all_chars clean_char (clean s) = true.
Proof.
  unfold clean. induction s as [|c s IH]; [reflexivity|].
  cbn [Py.lower keep_chars].
  destruct (word_or_space (Py.lower_char c)) eqn:E; [|exact IH].
  cbn [all_chars]. rewrite IH, andb_true_r. unfold clean_char.
  now rewrite E, lower_char_idempotent, Ascii.eqb_refl.
Qed.

Lemma token_chars (t : string) :
  all_chars (fun c => negb (Py.isspace c) && clean_char c) t = true ->
  all_chars Py.isword t = true /\ Py.lower t = t.
Proof.
  induction t as [|c t IH]; cbn [all_chars Py.lower]; [now split|].
  intros H. apply andb_true_iff in H as [Hc Ht].
  apply andb_true_iff in Hc as [Hsp Hc].
  unfold clean_char in Hc. apply andb_true_iff in Hc as [Hws Hlow].
  apply Ascii.eqb_eq in Hlow. apply negb_true_iff in Hsp.
  unfold word_or_space in Hws. rewrite Hsp, orb_false_r in Hws.
  destruct (IH Ht) as [Hw Hl]. now rewrite Hws, Hw, Hlow, Hl.
Qed.

(** X3. Every token the scoring functions count is well formed: it is not
    empty, it is made of word characters only (no whitespace, no
    punctuation) and it is in lower case. *)
Theorem tokens_are_well_formed (text t : string) :
  In t (SimpleFastAPI.words_of text) -> well_formed_token t.
Proof.
  rewrite fastapi_words_normalize, normalize_clean. intros Hin.
  pose proof (split_tokens_chars clean_char (clean text) (clean_chars text))
    as HF.
  rewrite Forall_forall in HF. destruct (HF t Hin) as [Hne Hch].
  destruct (token_chars t Hch) as [Hw Hl].
  repeat split; assumption.
Qed.

Lemma tokens_are_well_formed_witness :
  In "dont" (SimpleFastAPI.words_of "  DON'T, watch!!")
  /\ well_formed_token "dont".
Proof.
  assert (H : In "dont" (SimpleFastAPI.words_of "  DON'T, watch!!"))
    by (vm_compute; now left).
  split; [exact H|].
  exact (tokens_are_well_formed "  DON'T, watch!!" "dont" H).
Defined.

(** ** Bounds on the counts *)

Lemma disjoint_word_lists :
  disjoint_lists SimpleFastAPI.positive_words SimpleFastAPI.negative_words
    = true
  /\ disjoint_lists SimpleFlask.positive_words SimpleFlask.negative_words
     = true.
Proof. split; vm_compute; reflexivity. Qed.

Lemma occurrences_disjoint (l1 l2 tokens : list string) :
  disjoint_lists l1 l2 = true ->
  occurrences_in l1 tokens + occurrences_in l2 tokens
  <= Z.of_nat (length tokens).
Proof.
  intros Hd. unfold disjoint_lists in Hd. rewrite forallb_forall in Hd.
  induction tokens as [|t ts IH]; cbn [occurrences_in length]; [lia|].
  destruct (in_dec string_dec t l1) as [H1|H1];
    destruct (in_dec string_dec t l2) as [H2|H2]; try lia.
  exfalso. specialize (Hd t H1). apply negb_true_iff in Hd.
  apply in_list_spec in H2. congruence.
Qed.

Lemma runs_length (s : string) :
  let '(w, ws) := runs s in
  (String.length w + 2 * length ws <= String.length s)%nat.
Proof.
  induction s as [|c s IH]; cbn [runs String.length]; [cbn; lia|].
  destruct (runs s) as [w ws]. destruct (Py.isspace c).
  - unfold push_word. destruct (String.eqb_spec w "") as [E|E].
    + cbn [String.length]. lia.
    + destruct w as [|x w]; [contradiction|].
      cbn [String.length length] in *. lia.
  - cbn [String.length]. lia.
Qed.

Lemma split_length (s : string) :
  (2 * length (split_on_whitespace s) <= String.length s + 1)%nat.
Proof.
  pose proof (runs_length s) as H. unfold split_on_whitespace.
  destruct (runs s) as [w ws]. unfold push_word.
  destruct (String.eqb_spec w "") as [E|E].
  - lia.
  - destruct w as [|x w]; [contradiction|].
    cbn [String.length length] in *. lia.
Qed.

Lemma normalize_length (text : string) :
  2 * Py.len (normalize text) <= Py.str_len text + 1.
Proof.
  rewrite normalize_clean. unfold Py.len, Py.str_len.
  pose proof (split_length (clean text)). pose proof (clean_length text). lia.
Qed.

(** X4. In the result of the FastAPI scoring function the two counts are
    not negative and their sum is at most the number of words, no word
    being in both lists; twice the number of words is at most the length
    of the text plus one.  For a text the request model accepts (at most
    10000 characters) the counts and their difference are therefore at
    most 5000.  The counts of the Flask function obey the same bounds. *)
Theorem counts_are_bounded (text : string) :
  let r := SimpleFastAPI.simple_sentiment_analysis text in
  let p := SimpleFastAPI.positive_words_found r in
  let n := SimpleFastAPI.negative_words_found r in
  let q := SimpleFlask.simple_sentiment_analysis text in
  0 <= p /\ 0 <= n
  /\ p + n <= SimpleFastAPI.total_words r
  /\ 2 * SimpleFastAPI.total_words r <= Py.str_len text + 1
  /\ (SimpleFastAPI.TextRequest_valid text = true ->
      SimpleFastAPI.total_words r <= 5000 /\ Z.abs (p - n) <= 5000)
  /\ 0 <= SimpleFlask.positive_words_found q
  /\ 0 <= SimpleFlask.negative_words_found q
  /\ 2 * (SimpleFlask.positive_words_found q
          + SimpleFlask.negative_words_found q) <= Py.str_len text + 1.
Proof.
  cbv zeta. rewrite fastapi_analysis_eq, flask_analysis_eq. cbv zeta.
  cbn [SimpleFastAPI.positive_words_found SimpleFastAPI.negative_words_found
       SimpleFastAPI.total_words SimpleFlask.positive_words_found
       SimpleFlask.negative_words_found].
  destruct disjoint_word_lists as [Hd1 Hd2].
  pose proof (occurrences_nonneg SimpleFastAPI.positive_words
                (SimpleFastAPI.words_of text)) as Hp.
  pose proof (occurrences_nonneg SimpleFastAPI.negative_words
                (SimpleFastAPI.words_of text)) as Hn.
  pose proof (occurrences_disjoint _ _ (SimpleFastAPI.words_of text) Hd1)
    as Hsum.
  pose proof (occurrences_nonneg SimpleFlask.positive_words
                (SimpleFlask.words_of text)) as Hp'.
  pose proof (occurrences_nonneg SimpleFlask.negative_words
                (SimpleFlask.words_of text)) as Hn'.
  pose proof (occurrences_disjoint _ _ (SimpleFlask.words_of text) Hd2)
    as Hsum'.
  pose proof (normalize_length text) as Hlen.
  rewrite <- fastapi_words_normalize in Hlen.
  assert (Hlen' : 2 * Py.len (SimpleFlask.words_of text)
                  <= Py.str_len text + 1) by exact Hlen.
  unfold Py.len in *.
  repeat split; try lia.
  - unfold SimpleFastAPI.TextRequest_valid in H.
    apply andb_true_iff in H as [_ H]. apply Z.leb_le in H. lia.
  - unfold SimpleFastAPI.TextRequest_valid in H.
    apply andb_true_iff in H as [_ H]. apply Z.leb_le in H. lia.
Qed.

Lemma counts_are_bounded_witness :
  SimpleFastAPI.TextRequest_valid "good good good bad" = true
  /\ SimpleFastAPI.total_words
       (SimpleFastAPI.simple_sentiment_analysis "good good good bad") <= 5000.
Proof.
  split; [reflexivity|].
  destruct (counts_are_bounded "good good good bad")
    as (_ & _ & _ & _ & H & _).
  apply (H eq_refl).
Defined.

(** ** Word order *)

Lemma occurrences_permutation (lexicon l1 l2 : list string) :
  Permutation l1 l2 -> occurrences_in lexicon l1 = occurrences_in lexicon l2.
Proof.
  induction 1 as [| x l l' _ IH | x y l | l l' l'' _ IH1 _ IH2];
    cbn [occurrences_in]; try lia.
Qed.

(** X5. The result of a rule-based scoring function depends on the words
    of the text and not on their order: two texts whose word lists are
    permutations of each other get the same result. *)
Theorem word_order_is_irrelevant (t1 t2 : string) :
  Permutation (SimpleFastAPI.words_of t1) (SimpleFastAPI.words_of t2) ->
  SimpleFastAPI.simple_sentiment_analysis t1
    = SimpleFastAPI.simple_sentiment_analysis t2
  /\ SimpleFlask.simple_sentiment_analysis t1
     = SimpleFlask.simple_sentiment_analysis t2.
Proof.
  intros H. rewrite !fastapi_analysis_eq, !flask_analysis_eq. cbv zeta.
  rewrite (occurrences_permutation SimpleFastAPI.positive_words _ _ H),
    (occurrences_permutation SimpleFastAPI.negative_words _ _ H).
  unfold Py.len. rewrite (Permutation_length H).
  change (SimpleFlask.words_of t1) with (SimpleFastAPI.words_of t1).
  change (SimpleFlask.words_of t2) with (SimpleFastAPI.words_of t2).
  rewrite (occurrences_permutation SimpleFlask.positive_words _ _ H),
    (occurrences_permutation SimpleFlask.negative_words _ _ H).
  split; reflexivity.
Qed.

Lemma word_order_is_irrelevant_witness :
  Permutation (SimpleFastAPI.words_of "Bad plot, great cast")
              (SimpleFastAPI.words_of "plot bad; great cast!")
  /\ SimpleFastAPI.simple_sentiment_analysis "Bad plot, great cast"
     = SimpleFastAPI.simple_sentiment_analysis "plot bad; great cast!".
Proof.
  assert (H : Permutation (SimpleFastAPI.words_of "Bad plot, great cast")
                (SimpleFastAPI.words_of "plot bad; great cast!"))
    by (vm_compute; apply perm_swap).
  split; [exact H|].
  exact (proj1 (word_order_is_irrelevant _ _ H)).
Defined.

(** ** The values of the confidence *)

Lemma decided_confidence_small (d : Z) :
  (d = 1 -> (decided_confidence d == 0.7)%Q)
  /\ (d = 2 -> (decided_confidence d == 0.8)%Q)
  /\ (d = 3 -> (decided_confidence d == 0.9)%Q).
Proof. repeat split; intros ->; reflexivity. Qed.

Lemma decided_confidence_capped (d : Z) :
  d >= 4 -> (decided_confidence d == 0.95)%Q.
Proof.
  intros Hd. unfold decided_confidence, Py.min.
  destruct (Qle_bool (0.6 + inject_Z d * 0.1) 0.95) eqn:E; [|reflexivity].
  apply Qle_bool_iff in E.
  assert (H : (4 <= inject_Z d)%Q)
    by (change 4%Q with (inject_Z 4); rewrite <- Zle_Qle; lia).
  lra.
Qed.

Lemma confidence_of_values (p n : Z) :
  let d := Z.abs (p - n) in
  let c := confidence_of p n in
  (d = 0 /\ (c == 0.5)%Q) \/ (d = 1 /\ (c == 0.7)%Q) \/ (d = 2 /\ (c == 0.8)%Q)
  \/ (d = 3 /\ (c == 0.9)%Q) \/ (d >= 4 /\ (c == 0.95)%Q).
Proof.
  cbv zeta. unfold confidence_of.
  assert (Hcases : forall d, d >= 1 ->
            Z.abs (p - n) = d ->
            (Z.abs (p - n) = 0 /\ (decided_confidence d == 0.5)%Q)
            \/ (Z.abs (p - n) = 1 /\ (decided_confidence d == 0.7)%Q)
            \/ (Z.abs (p - n) = 2 /\ (decided_confidence d == 0.8)%Q)
            \/ (Z.abs (p - n) = 3 /\ (decided_confidence d == 0.9)%Q)
            \/ (Z.abs (p - n) >= 4 /\ (decided_confidence d == 0.95)%Q)).
  { intros d Hd Habs. rewrite Habs.
    destruct (decided_confidence_small d) as (H1 & H2 & H3).
    destruct (Z.eq_dec d 1) as [E1|N1]; [right; left; auto|].
    destruct (Z.eq_dec d 2) as [E2|N2]; [right; right; left; auto|].
    destruct (Z.eq_dec d 3) as [E3|N3]; [right; right; right; left; auto|].
    right; right; right; right. split; [lia|].
    apply decided_confidence_capped. lia. }
  destruct (Z.gtb_spec p n); [|destruct (Z.gtb_spec n p)].
  - apply Hcases; lia.
  - apply Hcases; lia.
  - left. split; [lia | reflexivity].
Qed.

(** X6. The confidence of a rule-based result takes five values only,
    fixed by the absolute difference of the two counts: 0.5 for 0, 0.7
    for 1, 0.8 for 2, 0.9 for 3 and the cap 0.95 from 4 on. *)
Theorem confidence_takes_five_values (text : string) :
  (let r := SimpleFastAPI.simple_sentiment_analysis text in
   let c := SimpleFastAPI.confidence r in
   let d := Z.abs (SimpleFastAPI.positive_words_found r
                   - SimpleFastAPI.negative_words_found r) in
   (d = 0 /\ (c == 0.5)%Q) \/ (d = 1 /\ (c == 0.7)%Q)
   \/ (d = 2 /\ (c == 0.8)%Q) \/ (d = 3 /\ (c == 0.9)%Q)
   \/ (d >= 4 /\ (c == 0.95)%Q))
  /\
  (let r := SimpleFlask.simple_sentiment_analysis text in
   let c := SimpleFlask.confidence r in
   let d := Z.abs (SimpleFlask.positive_words_found r
                   - SimpleFlask.negative_words_found r) in
   (d = 0 /\ (c == 0.5)%Q) \/ (d = 1 /\ (c == 0.7)%Q)
   \/ (d = 2 /\ (c == 0.8)%Q) \/ (d = 3 /\ (c == 0.9)%Q)
   \/ (d >= 4 /\ (c == 0.95)%Q)).
Proof.
  split; cbv zeta.
  - rewrite fastapi_analysis_eq. cbv zeta.
    cbn [SimpleFastAPI.confidence SimpleFastAPI.positive_words_found
         SimpleFastAPI.negative_words_found].
    apply confidence_of_values.
  - rewrite flask_analysis_eq. cbv zeta.
    cbn [SimpleFlask.confidence SimpleFlask.positive_words_found
         SimpleFlask.negative_words_found].
    apply confidence_of_values.
Qed.

(** ** The batch handler of the rule-based FastAPI server, continued *)

Lemma item_of_label (text : string) :
  let label := SimpleFastAPI.b_sentiment (item_of text) in
  label = "positive" \/ label = "negative" \/ label = "neutral".
Proof.
  cbv zeta. unfold item_of. cbn [SimpleFastAPI.b_sentiment].
  rewrite fastapi_analysis_eq. cbv zeta. cbn [SimpleFastAPI.sentiment].
  unfold label_of. destruct (_ >? _); [now left|].
  destruct (_ >? _); [right; now left | right; now right].
Qed.

Lemma loop_body_counts (st : SimpleFastAPI.loop_state) (text : string) :
  let st' := SimpleFastAPI.loop_body st text in
  SimpleFastAPI.ls_positive st'
    = SimpleFastAPI.ls_positive st + count_label "positive" [item_of text]
  /\ SimpleFastAPI.ls_negative st'
     = SimpleFastAPI.ls_negative st + count_label "negative" [item_of text]
  /\ SimpleFastAPI.ls_neutral st'
     = SimpleFastAPI.ls_neutral st + count_label "neutral" [item_of text].
Proof.
  cbv zeta. unfold SimpleFastAPI.loop_body, count_label. cbn [filter].
  change (SimpleFastAPI.sentiment
            (SimpleFastAPI.simple_sentiment_analysis text))
    with (SimpleFastAPI.b_sentiment (item_of text)).
  destruct (item_of_label text) as [E|[E|E]]; cbv zeta in E; rewrite E;
    cbn; repeat split; lia.
Qed.

Lemma count_label_app (label : string)
  (l1 l2 : list SimpleFastAPI.batch_item) :
  count_label label (l1 ++ l2) = count_label label l1 + count_label label l2.
Proof.
  unfold count_label, Py.len. rewrite filter_app, length_app. lia.
Qed.

Lemma loop_counts (texts : list string) (st : SimpleFastAPI.loop_state) :
  let st' := fold_left SimpleFastAPI.loop_body texts st in
  SimpleFastAPI.ls_positive st'
    = SimpleFastAPI.ls_positive st
      + count_label "positive" (map item_of texts)
  /\ SimpleFastAPI.ls_negative st'
     = SimpleFastAPI.ls_negative st
       + count_label "negative" (map item_of texts)
  /\ SimpleFastAPI.ls_neutral st'
     = SimpleFastAPI.ls_neutral st
       + count_label "neutral" (map item_of texts).
Proof.
  revert st; induction texts as [|t ts IH]; intros st; cbv zeta.
  - cbn. unfold count_label, Py.len. cbn. repeat split; lia.
  - cbn [fold_left map].
    destruct (IH (SimpleFastAPI.loop_body st t)) as (Hp & Hn & Hu).
    destruct (loop_body_counts st t) as (Hp' & Hn' & Hu').
    cbv zeta in *. rewrite Hp, Hn, Hu, Hp', Hn', Hu'.
    change (item_of t :: map item_of ts)
      with ([item_of t] ++ map item_of ts)%list.
    rewrite !count_label_app. repeat split; lia.
Qed.

Lemma count_labels_total (items : list SimpleFastAPI.batch_item) :
  Forall (fun item =>
            let label := SimpleFastAPI.b_sentiment item in
            label = "positive" \/ label = "negative" \/ label = "neutral")
         items ->
  count_label "positive" items + count_label "negative" items
  + count_label "neutral" items = Py.len items.
Proof.
  unfold count_label, Py.len.
  induction 1 as [|item items Hitem _ IH]; [reflexivity|].
  cbn [filter length]. cbv zeta in Hitem.
  destruct Hitem as [E|[E|E]]; rewrite E;
    repeat match goal with
           | |- context [String.eqb ?a ?b] =>
               let v := eval vm_compute in (String.eqb a b) in
               change (String.eqb a b) with v
           end;
    cbn [length]; lia.
Qed.

Lemma predict_batch_returns (now : string) (request_texts : list string)
  (resp : SimpleFastAPI.BatchSentimentResponse) :
  SimpleFastAPI.predict_batch now request_texts = inr resp ->
  valid_texts request_texts <> []
  /\ SimpleFastAPI.results resp = map item_of (valid_texts request_texts)
  /\ SimpleFastAPI.total_texts (SimpleFastAPI.batch_summary resp)
     = Py.len (valid_texts request_texts)
  /\ SimpleFastAPI.positive_count (SimpleFastAPI.batch_summary resp)
     = count_label "positive" (SimpleFastAPI.results resp)
  /\ SimpleFastAPI.negative_count (SimpleFastAPI.batch_summary resp)
     = count_label "negative" (SimpleFastAPI.results resp)
  /\ SimpleFastAPI.neutral_count (SimpleFastAPI.batch_summary resp)
     = count_label "neutral" (SimpleFastAPI.results resp)
  /\ SimpleFastAPI.average_confidence (SimpleFastAPI.batch_summary resp)
     = mean (map (fun r => Py.binary64 (SimpleFastAPI.b_confidence r))
                 (SimpleFastAPI.results resp))
  /\ SimpleFastAPI.batch_timestamp resp = now
  /\ SimpleFastAPI.batch_status resp = "success".
Proof.
  unfold SimpleFastAPI.predict_batch. fold (valid_texts request_texts).
  destruct (valid_texts request_texts) as [|t ts] eqn:E; [discriminate|].
  intros H. injection H as <-.
  cbn [SimpleFastAPI.results SimpleFastAPI.batch_summary
       SimpleFastAPI.total_texts SimpleFastAPI.positive_count
       SimpleFastAPI.negative_count SimpleFastAPI.neutral_count
       SimpleFastAPI.average_confidence SimpleFastAPI.batch_timestamp
       SimpleFastAPI.batch_status].
  set (st0 := {| SimpleFastAPI.ls_results := [];
                 SimpleFastAPI.ls_positive := 0;
                 SimpleFastAPI.ls_negative := 0;
                 SimpleFastAPI.ls_neutral := 0 |}).
  change (fold_left SimpleFastAPI.loop_body ts (SimpleFastAPI.loop_body st0 t))
    with (fold_left SimpleFastAPI.loop_body (t :: ts) st0).
  destruct (loop_counts (t :: ts) st0) as (Hp & Hn & Hu). cbv zeta in *.
  pose proof (loop_results (t :: ts) st0) as Hr.
  subst st0.
  cbn [SimpleFastAPI.ls_results SimpleFastAPI.ls_positive
       SimpleFastAPI.ls_negative SimpleFastAPI.ls_neutral app] in Hp, Hn, Hu, Hr.
  rewrite Hr, Hp, Hn, Hu.
  split; [discriminate|]. split; [reflexivity|].
  split; [unfold Py.len; rewrite length_map; reflexivity|].
  split; [lia|]. split; [lia|]. split; [lia|]. split; [|split; reflexivity].
  unfold mean, Py.fsum, Py.float_of_int, Py.len.
  rewrite !length_map. reflexivity.
Qed.

Lemma results_labels (texts : list string) :
  Forall (fun item =>
            let label := SimpleFastAPI.b_sentiment item in
            label = "positive" \/ label = "negative" \/ label = "neutral")
         (map item_of texts).
Proof.
  induction texts as [|t ts IH]; cbn [map]; constructor;
    [apply item_of_label | exact IH].
Qed.

Lemma not_blank_length (request_texts : list string) :
  Py.len (valid_texts request_texts) = Py.len (not_blank_texts request_texts)
  /\ Py.len (not_blank_texts request_texts) <= Py.len request_texts.
Proof.
  unfold valid_texts, not_blank_texts, Py.len. rewrite length_map.
  split; [reflexivity|].
  apply inj_le. apply filter_length_le.
Qed.

(** X7. In a successful answer of the rule-based FastAPI batch handler
    the three counts of the summary are the numbers of entries labelled
    'positive', 'negative' and 'neutral'; they add up to the total, which
    is the number of texts of the request that are not blank: at least
    one, at most the number of texts sent, hence at most 100 for a
    request the request model accepts. *)
Theorem batch_summary_counts (now : string) (request_texts : list string)
  (resp : SimpleFastAPI.BatchSentimentResponse) :
  SimpleFastAPI.predict_batch now request_texts = inr resp ->
  let summary := SimpleFastAPI.batch_summary resp in
  let entries := SimpleFastAPI.results resp in
  SimpleFastAPI.positive_count summary = count_label "positive" entries
  /\ SimpleFastAPI.negative_count summary = count_label "negative" entries
  /\ SimpleFastAPI.neutral_count summary = count_label "neutral" entries
  /\ SimpleFastAPI.positive_count summary
     + SimpleFastAPI.negative_count summary
     + SimpleFastAPI.neutral_count summary
     = SimpleFastAPI.total_texts summary
  /\ SimpleFastAPI.total_texts summary = Py.len entries
  /\ SimpleFastAPI.total_texts summary
     = Py.len (not_blank_texts request_texts)
  /\ 1 <= SimpleFastAPI.total_texts summary <= Py.len request_texts
  /\ (SimpleFastAPI.BatchTextRequest_valid request_texts = true ->
      SimpleFastAPI.total_texts summary <= 100).
Proof.
  intros H. cbv zeta.
  destruct (predict_batch_returns _ _ _ H)
    as (Hne & Hres & Htot & Hp & Hn & Hu & _).
  destruct (not_blank_length request_texts) as [Hlen Hle].
  pose proof (count_labels_total _ (results_labels (valid_texts request_texts)))
    as Hsum.
  rewrite <- Hres in Hsum.
  assert (Hentries : Py.len (SimpleFastAPI.results resp)
                     = Py.len (valid_texts request_texts)).
  { rewrite Hres. unfold Py.len. rewrite length_map. reflexivity. }
  assert (Hpos : 1 <= Py.len (valid_texts request_texts)).
  { destruct (valid_texts request_texts); [contradiction|].
    unfold Py.len. cbn [length]. lia. }
  rewrite Hp, Hn, Hu, Htot.
  repeat split; try lia.
  intros Hv. unfold SimpleFastAPI.BatchTextRequest_valid in Hv.
  apply andb_true_iff in Hv as [_ Hv]. apply Z.leb_le in Hv. lia.
Qed.

Lemma batch_summary_counts_witness :
  exists resp,
    SimpleFastAPI.predict_batch "2025-07-06T10:30:00"
      ["Great film"; "  "; "Terrible film"; "A film"] = inr resp
    /\ SimpleFastAPI.positive_count (SimpleFastAPI.batch_summary resp)
       + SimpleFastAPI.negative_count (SimpleFastAPI.batch_summary resp)
       + SimpleFastAPI.neutral_count (SimpleFastAPI.batch_summary resp)
       = 3.
Proof.
  eexists. split; [reflexivity|].
  match goal with
  | |- context [SimpleFastAPI.batch_summary ?r] =>
      destruct (batch_summary_counts "2025-07-06T10:30:00"
                  ["Great film"; "  "; "Terrible film"; "A film"] r eq_refl)
        as (_ & _ & _ & Hsum & _ & Htot & _)
  end.
  rewrite Hsum, Htot. reflexivity.
Defined.

Lemma predict_not_blank (now raw : string) :
  Py.truthy (Py.strip raw) = true ->
  exists r,
    SimpleFastAPI.predict now raw = inr r
    /\ same_analysis r (item_of (Py.strip raw)).
Proof.
  intros H. unfold SimpleFastAPI.predict. rewrite H. cbn [negb].
  eexists. split; [reflexivity|]. unfold same_analysis, item_of.
  repeat split; reflexivity.
Qed.

(** X8. The rule-based FastAPI batch handler scores each text as the
    single-text handler does: the entries of a successful batch answer
    are, in order, those of the texts of the request that are not blank,
    and each carries the text, the label, the confidence and the counts
    that the single-text handler answers for that text. *)
Theorem batch_agrees_with_single (now now' : string)
  (request_texts : list string) (resp : SimpleFastAPI.BatchSentimentResponse) :
  SimpleFastAPI.predict_batch now request_texts = inr resp ->
  Forall2
    (fun raw item =>
       exists r,
         SimpleFastAPI.predict now' raw = inr r /\ same_analysis r item)
    (not_blank_texts request_texts) (SimpleFastAPI.results resp).
Proof.
  intros H. destruct (predict_batch_returns _ _ _ H) as (_ & Hres & _).
  rewrite Hres. unfold valid_texts. fold (not_blank_texts request_texts).
  assert (Hall : Forall (fun raw => Py.truthy (Py.strip raw) = true)
                   (not_blank_texts request_texts)).
  { apply Forall_forall. intros raw Hin. unfold not_blank_texts in Hin.
    apply filter_In in Hin. apply Hin. }
  induction Hall as [|raw l Hraw _ IH]; cbn [map]; constructor.
  - apply predict_not_blank, Hraw.
  - exact IH.
Qed.

Lemma batch_agrees_with_single_witness :
  exists resp r item,
    SimpleFastAPI.predict_batch "2025-07-06T10:30:00" [" Great film "; ""]
      = inr resp
    /\ SimpleFastAPI.results resp = [item]
    /\ SimpleFastAPI.predict "2025-07-06T10:31:00" " Great film " = inr r
    /\ same_analysis r item.
Proof.
  eexists. eexists. eexists. split; [reflexivity|]. split; [reflexivity|].
  pose proof (batch_agrees_with_single "2025-07-06T10:30:00"
                "2025-07-06T10:31:00" [" Great film "; ""] _ eq_refl) as H.
  inversion H as [|raw item l l' (r & Hr & Hsame) _]; subst.
  split; [reflexivity|]. unfold same_analysis. repeat split; reflexivity.
Defined.

(** ** The batch handler of the rule-based Flask server *)

(** X10. The rule-based Flask batch handler answers an empty list with
    the error 'texts array cannot be empty', and a list that holds an
    item which is neither a string nor false with 'Internal server
    error', whatever the other items are.  Every other list is answered
    with success: the entries are those of the strings that are not
    blank, in order and as they were sent, the total is their number and
    the three counts add up to it; a list of blank items only is
    answered with success and no entry. *)
Theorem flask_batch_outcomes (now : string) (items : list json_value) :
  (items = [] ->
   SimpleFlask.predict_batch now items
   = inl (HTTPException 400 "texts array cannot be empty"))
  /\ (items <> [] -> has_true_non_string items = true ->
      SimpleFlask.predict_batch now items
      = inl (HTTPException 500 "Internal server error"))
  /\ (items <> [] -> has_true_non_string items = false ->
      exists resp,
        SimpleFlask.predict_batch now items = inr resp
        /\ SimpleFlask.results resp = map flask_item_of (scored_texts items)
        /\ SimpleFlask.total_texts (SimpleFlask.batch_summary resp)
           = Py.len (scored_texts items)
        /\ SimpleFlask.positive_count (SimpleFlask.batch_summary resp)
           + SimpleFlask.negative_count (SimpleFlask.batch_summary resp)
           + SimpleFlask.neutral_count (SimpleFlask.batch_summary resp)
           = SimpleFlask.total_texts (SimpleFlask.batch_summary resp)
        /\ SimpleFlask.batch_timestamp resp = now).
Proof.
  set (st0 := {| SimpleFlask.ls_results := []; SimpleFlask.ls_positive := 0;
                 SimpleFlask.ls_negative := 0; SimpleFlask.ls_neutral := 0 |}).
  assert (Hlen : forall l : list json_value,
             l <> [] -> (Py.len l =? 0) = false).
  { intros [|x l] H; [contradiction|]. unfold Py.len. cbn [length].
    apply Z.eqb_neq. lia. }
  destruct (flask_loop items st0) as [Hnone Hsome].
  split; [|split].
  - intros ->. reflexivity.
  - intros Hne Ht. unfold SimpleFlask.predict_batch.
    rewrite (Hlen items Hne). fold st0. rewrite (Hnone Ht). reflexivity.
  - intros Hne Hf. unfold SimpleFlask.predict_batch.
    rewrite (Hlen items Hne). fold st0.
    destruct (Hsome Hf) as (st' & Hl & Hr & Hbal). rewrite Hl.
    eexists. split; [reflexivity|].
    cbn [SimpleFlask.results SimpleFlask.batch_summary
         SimpleFlask.total_texts SimpleFlask.positive_count
         SimpleFlask.negative_count SimpleFlask.neutral_count
         SimpleFlask.batch_timestamp].
    assert (Hb0 : balanced st0) by reflexivity.
    specialize (Hbal Hb0). unfold balanced in Hbal.
    subst st0. cbn [SimpleFlask.ls_results app] in Hr. rewrite Hr in *.
    split; [reflexivity|].
    split; [unfold Py.len; rewrite length_map; reflexivity|].
    split; [exact Hbal | reflexivity].
Qed.

Lemma flask_batch_outcomes_witness :
  SimpleFlask.predict_batch "2025-07-06T10:30:00"
    [JStr "Great film"; JOther true]
  = inl (HTTPException 500 "Internal server error")
  /\ exists resp,
       SimpleFlask.predict_batch "2025-07-06T10:30:00" [JStr "  "; JOther false]
       = inr resp
       /\ SimpleFlask.results resp = [].
Proof.
  destruct (flask_batch_outcomes "2025-07-06T10:30:00"
              [JStr "Great film"; JOther true]) as (_ & H500 & _).
  destruct (flask_batch_outcomes "2025-07-06T10:30:00"
              [JStr "  "; JOther false]) as (_ & _ & Hok).
  split.
  - apply H500; [discriminate | reflexivity].
  - destruct Hok as (resp & Hr & Hres & _); [discriminate | reflexivity |].
    exists resp. split; [exact Hr | exact Hres].
Defined.

(** ** The model scorer and the world *)

Lemma advance_zero (w : world) : advance w 0 [] = w.
Proof.
  destruct w as [c t l]. unfold advance. cbn.
  now rewrite Nat.add_0_r, app_nil_r.
Qed.

Lemma advance_advance (w : world) (n1 n2 : nat) (l1 l2 : list call) :
  advance (advance w n1 l1) n2 l2 = advance w (n1 + n2) (l1 ++ l2).
Proof.
  unfold advance. cbn. now rewrite Nat.add_assoc, app_assoc.
Qed.

Lemma fastapi_predict_sentiment_run (g : globals) (text : string) (w : world) :
  FastAPI.predict_sentiment g text w =
  match pipeline g text with
  | inr out =>
      (inr (fastapi_prediction text out (clock w (ticks w))),
       advance w 1 (pipeline_calls g text))
  | inl _ => (inl prediction_error, advance w 0 (pipeline_calls g text))
  end.
Proof.
  unfold FastAPI.predict_sentiment, pipeline, pipeline_calls, try_except, bind,
    subscript, attribute, invoke, first, row_max, now, ret, raise,
    label_of_class, fastapi_prediction, prediction_error, advance.
  destruct g as [gm gv gf gd]; destruct w as [c t l]; cbn.
  run_pipeline;
    rewrite ?Nat.add_0_r, ?Nat.add_1_r, ?app_nil_r, <- ?app_assoc;
    reflexivity.
Qed.

Lemma flask_predict_sentiment_run (g : globals) (text : string) (w : world) :
  Flask.predict_sentiment g text w =
  (match pipeline g text with
   | inr out => inr (flask_prediction out)
   | inl e => inl e
   end,
   advance w 0 (pipeline_calls g text)).
Proof.
  unfold Flask.predict_sentiment, pipeline, pipeline_calls, try_except, bind,
    subscript, attribute, invoke, first, row_max, now, ret, raise,
    label_of_class, flask_prediction, advance.
  destruct g as [gm gv gf gd]; destruct w as [c t l]; cbn.
  run_pipeline;
    rewrite ?Nat.add_0_r, ?app_nil_r, <- ?app_assoc;
    reflexivity.
Qed.

Lemma pipeline_calls_length (g : globals) (text : string) :
  (length (pipeline_calls g text) <= 4)%nat.
Proof.
  unfold pipeline_calls.
  repeat match goal with
         | |- context [match ?x with _ => _ end] => destruct x; cbn [length]
         end; lia.
Qed.

Lemma pipeline_calls_returns (g : globals) (text processed_text : string)
  (prediction : Z) (confidence : Q) :
  pipeline g text = inr (processed_text, prediction, confidence) ->
  exists text_tfidf,
    pipeline_calls g text
    = [CallPreprocess text; CallTransform [processed_text];
       CallPredict text_tfidf; CallPredictProba text_tfidf].
Proof.
  unfold pipeline, pipeline_calls. intros H.
  destruct (preprocessing_functions g) as [d|]; [|discriminate].
  destruct (dict_get d "preprocess_text") as [f|]; [|discriminate].
  destruct (f text) as [e|pt]; [discriminate|].
  destruct (vectorizer g) as [v|]; [|discriminate].
  destruct (transform v [pt]) as [e|x]; [discriminate|].
  destruct (model g) as [m|]; [|discriminate].
  destruct (predict m x) as [e|[|cls classes]]; try discriminate.
  destruct (predict_proba m x) as [e|[|row rows]]; try discriminate.
  destruct (Py.max_list row) as [c|]; [|discriminate].
  injection H as <- _ _. exists x. reflexivity.
Qed.

(** X11. A call of [predict_sentiment] leaves the clock as it is, keeps
    the record of earlier calls and makes at most four calls to the
    bundle.  When it returns it has made exactly four, in this order:
    the preprocessing on the text, the vectorizer on the one processed
    text, then [predict] and [predict_proba] on the same matrix; the
    FastAPI scorer has then read the clock once, for its timestamp, and
    the Flask scorer never reads it.  When the FastAPI scorer raises, the
    exception is the status 500 'Error making prediction' and the clock
    has not been read. *)
Theorem scorer_effects (g : globals) (text : string) (w : world) :
  (let '(res, w') := FastAPI.predict_sentiment g text w in
   clock w' = clock w
   /\ (exists made,
         calls w' = (calls w ++ made)%list /\ (length made <= 4)%nat)
   /\ match res with
      | inr r =>
          ticks w' = S (ticks w)
          /\ FastAPI.timestamp r = clock w (ticks w)
          /\ exists text_tfidf,
               calls w'
               = (calls w
                  ++ [CallPreprocess text;
                      CallTransform [FastAPI.processed_text r];
                      CallPredict text_tfidf; CallPredictProba text_tfidf])%list
      | inl e => ticks w' = ticks w /\ e = prediction_error
      end)
  /\
  (let '(res, w') := Flask.predict_sentiment g text w in
   clock w' = clock w
   /\ ticks w' = ticks w
   /\ (exists made,
         calls w' = (calls w ++ made)%list /\ (length made <= 4)%nat)
   /\ match res with
      | inr r =>
          exists text_tfidf,
            calls w'
            = (calls w
               ++ [CallPreprocess text; CallTransform [Flask.processed_text r];
                   CallPredict text_tfidf; CallPredictProba text_tfidf])%list
      | inl _ => True
      end).
Proof.
  split.
  - rewrite fastapi_predict_sentiment_run.
    destruct (pipeline g text) as [e|[[pt cls] c]] eqn:Ep.
    + cbn [advance clock ticks calls]. split; [reflexivity|].
      split; [eexists; split; [reflexivity | apply pipeline_calls_length]|].
      split; [lia | reflexivity].
    + cbn [advance clock ticks calls fastapi_prediction FastAPI.timestamp
           FastAPI.processed_text].
      split; [reflexivity|].
      split; [eexists; split; [reflexivity | apply pipeline_calls_length]|].
      split; [lia|]. split; [reflexivity|].
      destruct (pipeline_calls_returns _ _ _ _ _ Ep) as [x Hx].
      exists x. rewrite Hx. reflexivity.
  - rewrite flask_predict_sentiment_run.
    cbn [advance clock ticks calls].
    split; [reflexivity|]. split; [lia|].
    split; [eexists; split; [reflexivity | apply pipeline_calls_length]|].
    destruct (pipeline g text) as [e|[[pt cls] c]] eqn:Ep; [exact I|].
    cbn [flask_prediction Flask.processed_text].
    destruct (pipeline_calls_returns _ _ _ _ _ Ep) as [x Hx].
    exists x. rewrite Hx. reflexivity.
Qed.

(** ** The single-text handlers of the model servers *)

Lemma fastapi_predict_run (g : globals) (text : string) (w : world) :
  model g <> None ->
  FastAPI.predict g text w =
  match pipeline g text with
  | inr out =>
      (inr (fastapi_prediction text out (clock w (ticks w))),
       advance w 1 (pipeline_calls g text))
  | inl _ =>
      (inl (HTTPException 500 "Error making prediction"),
       advance w 0 (pipeline_calls g text))
  end.
Proof.
  intros Hm. unfold FastAPI.predict, try_except.
  destruct (model g) as [m|]; [|contradiction].
  rewrite fastapi_predict_sentiment_run.
  destruct (pipeline g text) as [e|out]; reflexivity.
Qed.

Lemma flask_predict_run (g : globals) (s : string) (w : world) :
  model g <> None -> s <> "" ->
  Flask.predict g (JStr s) w =
  match pipeline g s with
  | inr out =>
      (inr (flask_response s out (clock w (ticks w))),
       advance w 1 (pipeline_calls g s))
  | inl _ =>
      (inl (HTTPException 500 "Internal server error"),
       advance w 0 (pipeline_calls g s))
  end.
Proof.
  intros Hm Hs. unfold Flask.predict, Py.truthy.
  destruct (model g) as [m|]; [|contradiction].
  rewrite (eqb_empty_false s Hs). cbn [negb].
  unfold try_except, bind. rewrite flask_predict_sentiment_run.
  destruct (pipeline g s) as [e|[[pt cls] c]].
  - reflexivity.
  - unfold now, ret. cbn [advance clock ticks calls flask_prediction
      flask_response Flask.sentiment Flask.confidence Flask.processed_text].
    rewrite Nat.add_0_r. unfold advance. cbn [clock ticks calls].
    rewrite Nat.add_1_r. reflexivity.
Qed.

Lemma flask_predict_invalid (g : globals) (item : json_value) (w : world) :
  model g <> None ->
  (fst (Flask.predict g item w) = inl (HTTPException 400 "Invalid text")
   <-> invalid_item item)
  /\ (invalid_item item ->
      Flask.predict g item w = (inl (HTTPException 400 "Invalid text"), w)).
Proof.
  intros Hm.
  assert (Hinv : invalid_item item ->
                 Flask.predict g item w
                 = (inl (HTTPException 400 "Invalid text"), w)).
  { unfold Flask.predict. destruct (model g) as [m|]; [|contradiction].
    destruct item as [s|b]; [|reflexivity].
    cbn [invalid_item]. intros ->. reflexivity. }
  split; [|exact Hinv]. split.
  - destruct item as [s|b]; [|intros _; exact I].
    cbn [invalid_item]. destruct (String.eqb_spec s "") as [E|E];
      [intros _; exact E|].
    rewrite (flask_predict_run g s w Hm E).
    destruct (pipeline g s) as [e|out]; cbn [fst]; discriminate.
  - intros H. rewrite (Hinv H). reflexivity.
Qed.

Lemma label_of_class_two (prediction : Z) :
  label_of_class prediction = "positive"
  \/ label_of_class prediction = "negative".
Proof.
  unfold label_of_class. destruct (prediction =? 1); [now left | now right].
Qed.

(** X12. Once the model is loaded, the single-text handler of the model
    FastAPI server answers every text either with a prediction, labelled
    'positive' or 'negative', carrying the text and the reading of the
    clock, or with the status 500 'Error making prediction', the latter
    exactly when the scorer raises.  The Flask handler answers 400
    'Invalid text' exactly when the item is the empty string or not a
    string, without touching the bundle or the clock; it answers any
    other string with a prediction carrying the text and the reading of
    the clock, or with 500 'Internal server error' when the scorer
    raises. *)
Theorem model_handlers_outcomes (g : globals) (w : world) :
  model g <> None ->
  (forall text,
     match fst (FastAPI.predict g text w) with
     | inr r =>
         FastAPI.original_text r = text
         /\ FastAPI.timestamp r = clock w (ticks w)
         /\ (FastAPI.sentiment r = "positive"
             \/ FastAPI.sentiment r = "negative")
         /\ ~ raises (FastAPI.predict_sentiment g text)
     | inl e =>
         e = HTTPException 500 "Error making prediction"
         /\ raises (FastAPI.predict_sentiment g text)
     end)
  /\ (forall item,
        (fst (Flask.predict g item w)
         = inl (HTTPException 400 "Invalid text") <-> invalid_item item)
        /\ (invalid_item item ->
            Flask.predict g item w
            = (inl (HTTPException 400 "Invalid text"), w)))
  /\ (forall s,
        s <> "" ->
        match fst (Flask.predict g (JStr s) w) with
        | inr r =>
            Flask.r_original_text r = s
            /\ Flask.r_timestamp r = clock w (ticks w)
            /\ (Flask.r_sentiment r = "positive"
                \/ Flask.r_sentiment r = "negative")
            /\ ~ raises (Flask.predict_sentiment g s)
        | inl e =>
            e = HTTPException 500 "Internal server error"
            /\ raises (Flask.predict_sentiment g s)
        end).
Proof.
  intros Hm. split; [|split].
  - intros text. rewrite (fastapi_predict_run g text w Hm).
    pose proof (pipeline_fails_fastapi g text) as Hiff.
    destruct (pipeline g text) as [e|[[pt cls] c]]; cbn [fst].
    + split; [reflexivity | apply Hiff; now exists e].
    + cbn [fastapi_prediction FastAPI.original_text FastAPI.timestamp
           FastAPI.sentiment].
      split; [reflexivity|]. split; [reflexivity|].
      split; [apply label_of_class_two|].
      intros Hr. apply Hiff in Hr as [e He]. discriminate.
  - intros item. apply flask_predict_invalid, Hm.
  - intros s Hs. rewrite (flask_predict_run g s w Hm Hs).
    pose proof (pipeline_fails_flask g s) as Hiff.
    destruct (pipeline g s) as [e|[[pt cls] c]]; cbn [fst].
    + split; [reflexivity | apply Hiff; now exists e].
    + cbn [flask_response Flask.r_original_text Flask.r_timestamp
           Flask.r_sentiment].
      split; [reflexivity|]. split; [reflexivity|].
      split; [apply label_of_class_two|].
      intros Hr. apply Hiff in Hr as [e He]. discriminate.
Qed.

Lemma model_handlers_outcomes_witness :
  model sample_globals <> None
  /\ fst (FastAPI.predict sample_globals "crash" sample_world)
     = inl (HTTPException 500 "Error making prediction")
  /\ Flask.predict sample_globals (JStr "") sample_world
     = (inl (HTTPException 400 "Invalid text"), sample_world).
Proof.
  assert (Hm : model sample_globals <> None) by discriminate.
  destruct (model_handlers_outcomes sample_globals sample_world Hm)
    as (_ & Hflask & _).
  split; [exact Hm|]. split; [reflexivity|].
  apply (proj2 (Hflask (JStr ""))). reflexivity.
Defined.

(** X13. The two model servers answer alike: with the same bundle and a
    string that is not empty, the two single-text handlers either both
    answer with status 500 or both answer with a prediction of the same
    label, confidence, processed text, original text and timestamp; and
    they leave the same world: the same calls to the bundle and the same
    number of readings of the clock. *)
Theorem model_servers_agree (g : globals) (s : string) (w : world) :
  model g <> None -> s <> "" ->
  snd (FastAPI.predict g s w) = snd (Flask.predict g (JStr s) w)
  /\ match fst (FastAPI.predict g s w), fst (Flask.predict g (JStr s) w) with
     | inr r, inr r' =>
         FastAPI.sentiment r = Flask.r_sentiment r'
         /\ FastAPI.confidence r = Flask.r_confidence r'
         /\ FastAPI.processed_text r = Flask.r_processed_text r'
         /\ FastAPI.original_text r = Flask.r_original_text r'
         /\ FastAPI.timestamp r = Flask.r_timestamp r'
     | inl e, inl e' => status_code e = 500 /\ status_code e' = 500
     | _, _ => False
     end.
Proof.
  intros Hm Hs.
  rewrite (fastapi_predict_run g s w Hm), (flask_predict_run g s w Hm Hs).
  destruct (pipeline g s) as [e|[[pt cls] c]]; cbn [fst snd].
  - split; [reflexivity | split; reflexivity].
  - split; [reflexivity|]. repeat split; reflexivity.
Qed.

Lemma model_servers_agree_witness :
  model sample_globals <> None /\ "Great!" <> ""
  /\ snd (FastAPI.predict sample_globals "Great!" sample_world)
     = snd (Flask.predict sample_globals (JStr "Great!") sample_world).
Proof.
  assert (Hm : model sample_globals <> None) by discriminate.
  assert (Hs : "Great!" <> "") by discriminate.
  split; [exact Hm|]. split; [exact Hs|].
  exact (proj1 (model_servers_agree sample_globals "Great!" sample_world Hm Hs)).
Defined.

(** ** The batch handler of the model FastAPI server, continued *)

Lemma fastapi_batch_body_run (g : globals) (acc : list FastAPI.batch_entry)
  (i : Z) (text : string) (w : world) :
  FastAPI.batch_body g acc (i, text) w =
  (inr (acc ++ [fastapi_entry_of g i text (clock w (ticks w))])%list,
   advance w 1 (pipeline_calls g text)).
Proof.
  unfold FastAPI.batch_body, try_except, bind, fastapi_entry_of.
  rewrite fastapi_predict_sentiment_run.
  destruct (pipeline g text) as [e|out]; [|reflexivity].
  unfold now, ret, advance. cbn [clock ticks calls].
  rewrite Nat.add_0_r, Nat.add_1_r. reflexivity.
Qed.

Lemma fastapi_batch_loop (g : globals) (texts : list string) :
  forall (acc : list FastAPI.batch_entry) (i : Z) (w : world),
    for_each (FastAPI.batch_body g) acc (enumerate_from i texts) w =
    (inr (acc ++ fastapi_entries g (clock w) i (ticks w) texts)%list,
     advance w (length texts) (batch_calls g texts)).
Proof.
  induction texts as [|text rest IH]; intros acc i w.
  - cbn. now rewrite app_nil_r, advance_zero.
  - cbn [enumerate_from for_each]. unfold bind at 1.
    rewrite fastapi_batch_body_run, IH, advance_advance, <- app_assoc.
    cbn [advance clock ticks fastapi_entries app length batch_calls flat_map].
    rewrite Nat.add_1_r. reflexivity.
Qed.

Lemma fastapi_entries_nth (g : globals) (clk : nat -> string)
  (texts : list string) :
  forall (i : Z) (tick k : nat) (text : string),
    nth_error texts k = Some text ->
    nth_error (fastapi_entries g clk i tick texts) k
    = Some (fastapi_entry_of g (i + Z.of_nat k) text (clk (tick + k)%nat)).
Proof.
  induction texts as [|t ts IH]; intros i tick k text Hk.
  - destruct k; discriminate.
  - destruct k as [|k]; cbn in Hk; cbn [fastapi_entries nth_error].
    + injection Hk as ->. now rewrite Z.add_0_r, Nat.add_0_r.
    + rewrite (IH _ _ _ _ Hk).
      replace (i + 1 + Z.of_nat k) with (i + Z.of_nat (S k)) by lia.
      now replace (S tick + k)%nat with (tick + S k)%nat by lia.
Qed.

Lemma fastapi_entries_length (g : globals) (clk : nat -> string)
  (texts : list string) :
  forall (i : Z) (tick : nat),
    length (fastapi_entries g clk i tick texts) = length texts.
Proof.
  induction texts as [|t ts IH]; intros i tick; cbn; [reflexivity|].
  now rewrite IH.
Qed.

Lemma batch_calls_length (g : globals) (texts : list string) :
  (length (batch_calls g texts) <= 4 * length texts)%nat.
Proof.
  unfold batch_calls. induction texts as [|t ts IH]; cbn [flat_map length].
  - lia.
  - rewrite length_app. pose proof (pipeline_calls_length g t). lia.
Qed.

(** X14. Once the model is loaded, the batch handler of the model FastAPI
    server scores each text as the scorer does alone: the entry at index
    k is the prediction the scorer returns for the k-th text, or a
    failure entry holding the exception it raises, stamped in both cases
    with the k-th reading of the clock taken during the request.  The
    handler reads the clock once per text and once more for the answer,
    and calls the bundle at most four times per text. *)
Theorem batch_scores_like_single (g : globals) (texts : list string)
  (w : world) :
  model g <> None ->
  exists resp w',
    FastAPI.batch_predict g texts w = (inr resp, w')
    /\ clock w' = clock w
    /\ ticks w' = (ticks w + length texts + 1)%nat
    /\ FastAPI.batch_timestamp resp = clock w (ticks w + length texts)%nat
    /\ (exists made,
          calls w' = (calls w ++ made)%list
          /\ (length made <= 4 * length texts)%nat)
    /\ forall k text wk,
         nth_error texts k = Some text ->
         clock wk = clock w -> ticks wk = (ticks w + k)%nat ->
         nth_error (FastAPI.results resp) k
         = Some match fst (FastAPI.predict_sentiment g text wk) with
                | inr r => FastAPI.Scored (Z.of_nat k) r
                | inl e =>
                    FastAPI.Failed (Z.of_nat k) e text (clock wk (ticks wk))
                end.
Proof.
  intros Hm. unfold FastAPI.batch_predict, try_except, bind, enumerate.
  destruct (model g) as [m|]; [|contradiction].
  rewrite fastapi_batch_loop. cbn [app].
  unfold now, ret. cbn [advance clock ticks calls].
  eexists. eexists. split; [reflexivity|].
  cbn [FastAPI.results FastAPI.batch_timestamp clock ticks calls].
  split; [reflexivity|]. split; [lia|]. split; [reflexivity|].
  split; [eexists; split; [reflexivity | apply batch_calls_length]|].
  intros k text wk Hk Hclock Hticks.
  rewrite (fastapi_entries_nth g (clock w) texts 0 (ticks w) k text Hk).
  rewrite fastapi_predict_sentiment_run. unfold fastapi_entry_of.
  rewrite Hclock, Hticks, Z.add_0_l.
  destruct (pipeline g text) as [e|out]; reflexivity.
Qed.

Lemma batch_scores_like_single_witness :
  model sample_globals <> None
  /\ exists resp w',
       FastAPI.batch_predict sample_globals ["Great film"; "crash"]
         sample_world = (inr resp, w')
       /\ ticks w' = 3%nat.
Proof.
  assert (Hm : model sample_globals <> None) by discriminate.
  split; [exact Hm|].
  destruct (batch_scores_like_single sample_globals ["Great film"; "crash"]
              sample_world Hm) as (resp & w' & Hr & _ & Ht & _).
  exists resp, w'. split; [exact Hr | exact Ht].
Defined.

(** ** Loading, continued *)

(** X15. [load_model_components] answers [True] exactly when the four
    files load and the metadata holds a model name and a numeric accuracy
    and f1 score.  Each of the four variables takes the value of its file
    exactly when that file and the files before it load, and keeps its
    previous value otherwise, so that a failed load can leave new and old
    components side by side.  Loading again from the same files changes
    nothing. *)
Theorem load_model_components_outcome (d : disk) (g : globals) :
  let loaded := fst (load_model_components d g) in
  let g' := snd (load_model_components d g) in
  let b1 := returned (sentiment_model_pkl d) in
  let b2 := b1 && returned (tfidf_vectorizer_pkl d) in
  let b3 := b2 && returned (preprocessing_functions_pkl d) in
  (loaded = true <-> loads_well d)
  /\ model g' = assigned true (sentiment_model_pkl d) (model g)
  /\ vectorizer g' = assigned b1 (tfidf_vectorizer_pkl d) (vectorizer g)
  /\ preprocessing_functions g'
     = assigned b2 (preprocessing_functions_pkl d) (preprocessing_functions g)
  /\ metadata g' = assigned b3 (model_metadata_pkl d) (metadata g)
  /\ load_model_components d g' = load_model_components d g.
Proof.
  cbv zeta. unfold load_model_components, loads_well, assigned, returned.
  destruct g as [gm gv gf gd].
  destruct (sentiment_model_pkl d) as [e1|m]; cbn.
  { repeat split; try reflexivity; try discriminate.
    intros (m & v & f & md & H & _). discriminate.
    all: destruct (tfidf_vectorizer_pkl d);
      destruct (preprocessing_functions_pkl d);
      destruct (model_metadata_pkl d); reflexivity. }
  destruct (tfidf_vectorizer_pkl d) as [e2|v]; cbn.
  { repeat split; try reflexivity; try discriminate.
    intros (m' & v' & f & md & _ & H & _). discriminate.
    all: destruct (preprocessing_functions_pkl d);
      destruct (model_metadata_pkl d); reflexivity. }
  destruct (preprocessing_functions_pkl d) as [e3|f]; cbn.
  { repeat split; try reflexivity; try discriminate.
    intros (m' & v' & f' & md & _ & _ & H & _). discriminate.
    all: destruct (model_metadata_pkl d); reflexivity. }
  destruct (model_metadata_pkl d) as [e4|md]; cbn.
  { repeat split; try reflexivity; try discriminate.
    intros (m' & v' & f' & md & _ & _ & _ & H & _). discriminate. }
  repeat split; try reflexivity.
  - intros H. exists m, v, f, md. repeat split; try reflexivity. exact H.
  - intros (m' & v' & f' & md' & _ & _ & _ & H & Hlog).
    injection H as <-. exact Hlog.
Qed.

(** ** The health check and the model information *)

Lemma log_metadata_keys (md : dict meta_value) :
  log_metadata md = true ->
  exists name accuracy f1,
    dict_get md "model_name" = Some name
    /\ dict_get md "accuracy" = Some (MNum accuracy)
    /\ dict_get md "f1_score" = Some (MNum f1)
    /\ md <> [].
Proof.
  unfold log_metadata. intros H.
  destruct (dict_get md "model_name") as [name|] eqn:E1; [|discriminate].
  destruct (dict_get md "accuracy") as [[s|a]|]; try discriminate.
  destruct (dict_get md "f1_score") as [[s|f]|]; try discriminate.
  exists name, a, f. repeat split. intros ->. discriminate.
Qed.

Lemma health_check_entries (g : globals) (md : dict meta_value)
  (name accuracy f1 : meta_value) (w : world) :
  metadata g = Some md ->
  dict_get md "model_name" = Some name ->
  dict_get md "accuracy" = Some accuracy ->
  dict_get md "f1_score" = Some f1 ->
  FastAPI.health_check g w
  = (inr (health_answer name accuracy f1 (clock w (ticks w))), tick w).
Proof.
  intros Hmd H1 H2 H3.
  assert (Ht : truthy_dict (metadata g) = true).
  { rewrite Hmd. destruct md; [discriminate | reflexivity]. }
  unfold FastAPI.health_check, metadata_or_unknown, bind, subscript, ret, now.
  rewrite Ht, Hmd, H1, H2, H3. reflexivity.
Qed.

(** X16. The health check of the two model servers is the same function
    of the metadata.  With no metadata, or empty metadata, it answers
    'healthy' with 'Unknown' for the model name, the accuracy and the f1
    score.  With metadata that lacks the model name it raises a
    [KeyError] before reading the clock.  On a server that has started it
    always answers, with the three entries of the metadata file, reads
    the clock once and calls nothing; the model information handler of
    the Flask server then answers with the whole metadata, and with
    'Model not loaded' when there is no metadata. *)
Theorem health_check_outcomes (g : globals) (w : world) :
  Flask.home g w = FastAPI.health_check g w
  /\ (truthy_dict (metadata g) = false ->
      FastAPI.health_check g w
      = (inr (health_answer (MStr "Unknown") (MStr "Unknown") (MStr "Unknown")
                (clock w (ticks w))), tick w))
  /\ (forall md,
        metadata g = Some md -> md <> [] ->
        dict_get md "model_name" = None ->
        FastAPI.health_check g w = (inl (PyExc "KeyError" "model_name"), w))
  /\ (forall d,
        FastAPI.startup_event d = Serving g ->
        exists md name accuracy f1,
          model_metadata_pkl d = inr md
          /\ dict_get md "model_name" = Some name
          /\ dict_get md "accuracy" = Some (MNum accuracy)
          /\ dict_get md "f1_score" = Some (MNum f1)
          /\ FastAPI.health_check g w
             = (inr (health_answer name (MNum accuracy) (MNum f1)
                       (clock w (ticks w))), tick w)
          /\ Flask.model_info g w = (inr (md, clock w (ticks w)), tick w))
  /\ (metadata g = None ->
      Flask.model_info g w
      = (inl (HTTPException 500 "Model not loaded"), w)).
Proof.
  split; [reflexivity|]. split; [|split; [|split]].
  - intros Ht.
    unfold FastAPI.health_check, metadata_or_unknown, bind, ret, now.
    rewrite Ht. reflexivity.
  - intros md Hmd Hne Hkey.
    assert (Ht : truthy_dict (metadata g) = true).
    { rewrite Hmd. destruct md; [contradiction | reflexivity]. }
    unfold FastAPI.health_check, metadata_or_unknown, bind, subscript, raise.
    rewrite Ht, Hmd, Hkey. reflexivity.
  - intros d Hstart. unfold FastAPI.startup_event in Hstart.
    destruct (load_model_components d no_globals) as [[|] g0] eqn:E;
      [|discriminate].
    injection Hstart as ->.
    pose proof (load_model_components_true d no_globals g E)
      as (_ & _ & _ & (md & Hfile & Hmd)).
    assert (Hlog : log_metadata md = true).
    { unfold load_model_components in E.
      destruct (sentiment_model_pkl d); [discriminate|].
      destruct (tfidf_vectorizer_pkl d); [discriminate|].
      destruct (preprocessing_functions_pkl d); [discriminate|].
      rewrite Hfile in E. now injection E as -> _. }
    destruct (log_metadata_keys md Hlog) as (name & a & f & H1 & H2 & H3 & _).
    exists md, name, a, f. repeat split; try assumption.
    + apply (health_check_entries g md); assumption.
    + unfold Flask.model_info, bind, now, ret. rewrite Hmd. reflexivity.
  - intros Hmd. unfold Flask.model_info, raise. rewrite Hmd. reflexivity.
Qed.

Lemma health_check_outcomes_witness :
  FastAPI.startup_event sample_disk = Serving sample_globals
  /\ fst (FastAPI.health_check sample_globals sample_world)
     = inr (health_answer (MStr "Logistic Regression") (MNum 0.89)
              (MNum 0.88) "2025-07-06T10:30:00")
  /\ fst (FastAPI.health_check no_globals sample_world)
     = inr (health_answer (MStr "Unknown") (MStr "Unknown") (MStr "Unknown")
              "2025-07-06T10:30:00").
Proof.
  destruct (health_check_outcomes no_globals sample_world)
    as (_ & Hunknown & _).
  split; [reflexivity|]. split; [reflexivity|].
  rewrite (Hunknown eq_refl). reflexivity.
Defined.

(** ** The word lists and the normalization *)

Lemma word_lists_read_back :
  forallb reads_back SimpleFastAPI.positive_words = true
  /\ forallb reads_back SimpleFastAPI.negative_words = true.
Proof. split; vm_compute; reflexivity. Qed.

Lemma reads_back_words (w : string) :
  reads_back w = true -> SimpleFastAPI.words_of w = [w].
Proof.
  unfold reads_back.
  destruct (SimpleFastAPI.words_of w) as [|t [|t' l]]; try discriminate.
  intros H. apply String.eqb_eq in H. now subst.
Qed.

Lemma listed_word_reads_back (w : string) :
  In w SimpleFastAPI.positive_words \/ In w SimpleFastAPI.negative_words ->
  SimpleFastAPI.words_of w = [w].
Proof.
  destruct word_lists_read_back as [Hp Hn].
  rewrite forallb_forall in Hp, Hn.
  intros [H|H]; apply reads_back_words; auto.
Qed.

Lemma occurrences_single (lexicon : list string) (w : string) :
  occurrences_in lexicon [w] = if Py.in_list w lexicon then 1 else 0.
Proof.
  cbn [occurrences_in]. destruct (in_dec string_dec w lexicon) as [H|H].
  - apply in_list_spec in H. rewrite H. reflexivity.
  - destruct (Py.in_list w lexicon) eqn:E; [|reflexivity].
    apply in_list_spec in E. contradiction.
Qed.

Lemma positive_not_negative (w : string) :
  In w SimpleFastAPI.positive_words ->
  Py.in_list w SimpleFastAPI.positive_words = true
  /\ Py.in_list w SimpleFastAPI.negative_words = false.
Proof.
  intros H. split; [now apply in_list_spec|].
  destruct disjoint_word_lists as [Hd _]. unfold disjoint_lists in Hd.
  rewrite forallb_forall in Hd. apply negb_true_iff. now apply Hd.
Qed.

Lemma negative_not_positive (w : string) :
  In w SimpleFastAPI.negative_words ->
  Py.in_list w SimpleFastAPI.negative_words = true
  /\ Py.in_list w SimpleFastAPI.positive_words = false.
Proof.
  intros H. split; [now apply in_list_spec|].
  destruct (Py.in_list w SimpleFastAPI.positive_words) eqn:E; [|reflexivity].
  apply in_list_spec in E. destruct (positive_not_negative w E) as [_ Hn].
  apply in_list_spec in H. congruence.
Qed.

(** X17. Every word of the two lists can be matched: standing alone as a
    text it is read back as one token, itself, and the FastAPI scoring
    function answers 'positive' for a word of the positive list and
    'negative' for a word of the negative list, with one hit and
    confidence 0.7. *)
Theorem listed_words_are_matched (w : string) :
  (In w SimpleFastAPI.positive_words ->
   SimpleFastAPI.words_of w = [w]
   /\ SimpleFastAPI.sentiment (SimpleFastAPI.simple_sentiment_analysis w)
      = "positive"
   /\ SimpleFastAPI.positive_words_found
        (SimpleFastAPI.simple_sentiment_analysis w) = 1
   /\ (SimpleFastAPI.confidence (SimpleFastAPI.simple_sentiment_analysis w)
       == 0.7)%Q)
  /\ (In w SimpleFastAPI.negative_words ->
      SimpleFastAPI.words_of w = [w]
      /\ SimpleFastAPI.sentiment (SimpleFastAPI.simple_sentiment_analysis w)
         = "negative"
      /\ SimpleFastAPI.negative_words_found
           (SimpleFastAPI.simple_sentiment_analysis w) = 1
      /\ (SimpleFastAPI.confidence (SimpleFastAPI.simple_sentiment_analysis w)
          == 0.7)%Q).
Proof.
  split; intros H.
  - assert (Hw : SimpleFastAPI.words_of w = [w])
      by (apply listed_word_reads_back; now left).
    destruct (positive_not_negative w H) as [Hp Hn].
    rewrite fastapi_analysis_eq. cbv zeta.
    cbn [SimpleFastAPI.sentiment SimpleFastAPI.confidence
         SimpleFastAPI.positive_words_found].
    rewrite Hw, !occurrences_single, Hp, Hn.
    repeat split; reflexivity.
  - assert (Hw : SimpleFastAPI.words_of w = [w])
      by (apply listed_word_reads_back; now right).
    destruct (negative_not_positive w H) as [Hn Hp].
    rewrite fastapi_analysis_eq. cbv zeta.
    cbn [SimpleFastAPI.sentiment SimpleFastAPI.confidence
         SimpleFastAPI.negative_words_found].
    rewrite Hw, !occurrences_single, Hp, Hn.
    repeat split; reflexivity.
Qed.

Lemma listed_words_are_matched_witness :
  In "entertaining" SimpleFastAPI.positive_words
  /\ SimpleFastAPI.sentiment
       (SimpleFastAPI.simple_sentiment_analysis "entertaining") = "positive".
Proof.
  assert (H : In "entertaining" SimpleFastAPI.positive_words)
    by (apply in_list_spec; reflexivity).
  split; [exact H|].
  apply (proj1 (listed_words_are_matched "entertaining") H).
Defined.

(** ** One more word *)

Lemma decided_confidence_monotone (d d' : Z) :
  d <= d' -> (decided_confidence d <= decided_confidence d')%Q.
Proof.
  intros H. unfold decided_confidence, Py.min.
  assert (Hq : (inject_Z d <= inject_Z d')%Q) by (rewrite <- Zle_Qle; exact H).
  destruct (Qle_bool (0.6 + inject_Z d * 0.1) 0.95) eqn:E;
    destruct (Qle_bool (0.6 + inject_Z d' * 0.1) 0.95) eqn:E'.
  - lra.
  - apply Qle_bool_iff in E. exact E.
  - assert (H1 : ~ (0.6 + inject_Z d * 0.1 <= 0.95)%Q)
      by (rewrite <- Qle_bool_iff, E; discriminate).
    apply Qle_bool_iff in E'. exfalso. apply H1. lra.
  - apply Qle_refl.
Qed.

(** X18. Appending a word of the positive list to a text, after a
    whitespace character, adds one to the positive count and leaves the
    negative count as it is; a text that was 'positive' stays 'positive'
    with a confidence at least as high, a text that was 'neutral' becomes
    'positive', and the answer never becomes 'negative' unless it was. *)
Theorem one_more_positive_word (text w : string) (sp : ascii) :
  Py.isspace sp = true ->
  In w SimpleFastAPI.positive_words ->
  let r := SimpleFastAPI.simple_sentiment_analysis text in
  let r' := SimpleFastAPI.simple_sentiment_analysis (text ++ String sp w) in
  SimpleFastAPI.positive_words_found r'
    = SimpleFastAPI.positive_words_found r + 1
  /\ SimpleFastAPI.negative_words_found r'
     = SimpleFastAPI.negative_words_found r
  /\ (SimpleFastAPI.sentiment r = "positive" ->
      SimpleFastAPI.sentiment r' = "positive"
      /\ (SimpleFastAPI.confidence r <= SimpleFastAPI.confidence r')%Q)
  /\ (SimpleFastAPI.sentiment r = "neutral" ->
      SimpleFastAPI.sentiment r' = "positive")
  /\ (SimpleFastAPI.sentiment r' = "negative" ->
      SimpleFastAPI.sentiment r = "negative").
Proof.
  intros Hsp Hin. cbv zeta.
  assert (Hw : SimpleFastAPI.words_of (text ++ String sp w)
               = (SimpleFastAPI.words_of text ++ [w])%list).
  { rewrite !fastapi_words_normalize, (normalize_app_space text w sp Hsp).
    rewrite <- (fastapi_words_normalize w).
    rewrite (listed_word_reads_back w (or_introl Hin)). reflexivity. }
  destruct (positive_not_negative w Hin) as [Hp Hn].
  rewrite !fastapi_analysis_eq. cbv zeta.
  cbn [SimpleFastAPI.sentiment SimpleFastAPI.confidence
       SimpleFastAPI.positive_words_found SimpleFastAPI.negative_words_found].
  rewrite Hw, !occurrences_in_tokens_app, !occurrences_single, Hp, Hn.
  set (p := occurrences_in SimpleFastAPI.positive_words _).
  set (n := occurrences_in SimpleFastAPI.negative_words _).
  rewrite !Z.add_0_r. split; [reflexivity|]. split; [reflexivity|].
  unfold label_of, confidence_of.
  destruct (Z.gtb_spec p n) as [H1|H1]; destruct (Z.gtb_spec n p) as [H2|H2];
    destruct (Z.gtb_spec (p + 1) n) as [H3|H3];
    destruct (Z.gtb_spec n (p + 1)) as [H4|H4];
    try lia; (split; [|split]); intros E;
    try discriminate E; try reflexivity.
  split; [reflexivity | apply decided_confidence_monotone; lia].
Qed.

Lemma one_more_positive_word_witness :
  Py.isspace " " = true
  /\ In "love" SimpleFastAPI.positive_words
  /\ SimpleFastAPI.positive_words_found
       (SimpleFastAPI.simple_sentiment_analysis
          ("A bad film" ++ String " " "love")) = 0 + 1.
Proof.
  assert (H : In "love" SimpleFastAPI.positive_words)
    by (apply in_list_spec; reflexivity).
  split; [reflexivity|]. split; [exact H|].
  destruct (one_more_positive_word "A bad film" "love" " " eq_refl H)
    as (Hp & _).
  rewrite Hp. reflexivity.
Defined.

(** ** The batch handler of the model Flask server, continued *)

Lemma flask_batch_body_run (g : globals) (acc : list Flask.batch_entry)
  (i : Z) (item : json_value) (w : world) :
  Flask.batch_body g acc (i, item) w =
  (inr (acc ++ [flask_entry_of g i item])%list,
   advance w 0 (flask_batch_calls g [item])).
Proof.
  unfold Flask.batch_body, flask_entry_of, flask_batch_calls, Py.truthy.
  cbn [flat_map]. rewrite app_nil_r.
  destruct item as [s|b].
  - rewrite negb_involutive. destruct (String.eqb s "").
    + unfold ret. now rewrite advance_zero.
    + unfold try_except, bind. rewrite flask_predict_sentiment_run.
      destruct (pipeline g s) as [e|out]; reflexivity.
  - unfold ret. now rewrite advance_zero.
Qed.

Lemma flask_batch_calls_cons (g : globals) (item : json_value)
  (items : list json_value) :
  flask_batch_calls g (item :: items)
  = (flask_batch_calls g [item] ++ flask_batch_calls g items)%list.
Proof.
  unfold flask_batch_calls. cbn [flat_map]. now rewrite app_nil_r.
Qed.

Lemma flask_batch_loop (g : globals) (items : list json_value) :
  forall (acc : list Flask.batch_entry) (i : Z) (w : world),
    for_each (Flask.batch_body g) acc (enumerate_from i items) w =
    (inr (acc ++ flask_entries g i items)%list,
     advance w 0 (flask_batch_calls g items)).
Proof.
  induction items as [|item rest IH]; intros acc i w.
  - cbn. now rewrite app_nil_r, advance_zero.
  - cbn [enumerate_from for_each]. unfold bind at 1.
    rewrite flask_batch_body_run, IH, advance_advance, <- app_assoc.
    rewrite (flask_batch_calls_cons g item rest). reflexivity.
Qed.

Lemma flask_entries_nth (g : globals) (items : list json_value) :
  forall (i : Z) (k : nat) (item : json_value),
    nth_error items k = Some item ->
    nth_error (flask_entries g i items) k
    = Some (flask_entry_of g (i + Z.of_nat k) item).
Proof.
  induction items as [|x xs IH]; intros i k item Hk.
  - destruct k; discriminate.
  - destruct k as [|k]; cbn in Hk; cbn [flask_entries nth_error].
    + injection Hk as ->. now rewrite Z.add_0_r.
    + rewrite (IH _ _ _ Hk).
      now replace (i + 1 + Z.of_nat k) with (i + Z.of_nat (S k)) by lia.
Qed.

Lemma flask_batch_calls_invalid (g : globals) (items : list json_value) :
  Forall invalid_item items -> flask_batch_calls g items = [].
Proof.
  unfold flask_batch_calls.
  induction 1 as [|item items Hitem _ IH]; [reflexivity|].
  cbn [flat_map]. rewrite IH, app_nil_r.
  destruct item as [s|b]; [|reflexivity].
  cbn [invalid_item] in Hitem. subst s. reflexivity.
Qed.

Lemma flask_batch_calls_length (g : globals) (items : list json_value) :
  (length (flask_batch_calls g items)
   <= 4 * length (filter (fun item => negb (invalid_itemb item)) items))%nat.
Proof.
  unfold flask_batch_calls.
  induction items as [|item items IH]; [cbn; lia|].
  cbn [flat_map filter]. rewrite length_app.
  destruct item as [s|b]; cbn [invalid_itemb negb length].
  - destruct (String.eqb s ""); cbn [negb length]; [lia|].
    pose proof (pipeline_calls_length g s). lia.
  - lia.
Qed.

(** X19. Once the model is loaded, the batch handler of the model Flask
    server answers a list that is not empty as follows.  An item that is
    the empty string or not a string gives an 'Invalid text' entry and
    costs no call to the bundle; any other string gives the prediction
    the scorer returns for it alone, or a failure entry holding the
    exception the scorer raises, and costs the calls the scorer makes on
    it alone, at most four.  The calls of the request are those of its
    items, one item after the other.  The clock is read once, for the
    timestamp of the answer. *)
Theorem flask_batch_scores_like_single (g : globals)
  (items : list json_value) (w : world) :
  model g <> None -> items <> [] ->
  exists resp w',
    Flask.batch_predict g items w = (inr resp, w')
    /\ clock w' = clock w
    /\ ticks w' = S (ticks w)
    /\ Flask.batch_timestamp resp = clock w (ticks w)
    /\ (Forall invalid_item items -> calls w' = calls w)
    /\ calls w'
       = (calls w
          ++ flat_map
               (fun item =>
                  match item with
                  | JOther _ => []
                  | JStr s =>
                      if String.eqb s "" then [] else pipeline_calls g s
                  end)
               items)%list
    /\ (forall s wk,
          calls (snd (Flask.predict_sentiment g s wk))
          = (calls wk ++ pipeline_calls g s)%list)
    /\ (length (calls w')
        <= length (calls w)
           + 4 * length (filter (fun item => negb (invalid_itemb item)) items))%nat
    /\ forall k item wk,
         nth_error items k = Some item ->
         nth_error (Flask.results resp) k
         = Some match item with
                | JOther _ => Flask.Failed (Z.of_nat k) Flask.InvalidText item
                | JStr s =>
                    if String.eqb s ""
                    then Flask.Failed (Z.of_nat k) Flask.InvalidText item
                    else match fst (Flask.predict_sentiment g s wk) with
                         | inr r => Flask.Scored (Z.of_nat k) r s
                         | inl e =>
                             Flask.Failed (Z.of_nat k) (Flask.Raised e) item
                         end
                end.
Proof.
  intros Hm Hne. unfold Flask.batch_predict.
  destruct (model g) as [m|]; [|contradiction].
  destruct items as [|item0 rest]; [contradiction|].
  unfold try_except, bind, enumerate. rewrite flask_batch_loop. cbn [app].
  unfold now, ret. cbn [advance clock ticks calls].
  eexists. eexists. split; [reflexivity|].
  cbn [Flask.results Flask.batch_timestamp clock ticks calls].
  rewrite Nat.add_0_r.
  split; [reflexivity|]. split; [reflexivity|]. split; [reflexivity|].
  split; [|split; [|split; [|split]]].
  - intros Hinv. rewrite (flask_batch_calls_invalid g _ Hinv).
    apply app_nil_r.
  - reflexivity.
  - intros s wk. rewrite flask_predict_sentiment_run. reflexivity.
  - rewrite length_app.
    pose proof (flask_batch_calls_length g (item0 :: rest)). lia.
  - intros k item wk Hk.
    rewrite (flask_entries_nth g (item0 :: rest) 0 k item Hk), Z.add_0_l.
    unfold flask_entry_of. destruct item as [s|b]; [|reflexivity].
    destruct (String.eqb s ""); [reflexivity|].
    rewrite flask_predict_sentiment_run. cbn [fst].
    destruct (pipeline g s) as [e|out]; reflexivity.
Qed.

Lemma flask_batch_scores_like_single_witness :
  model sample_globals <> None
  /\ [JStr "Great!"; JStr ""; JOther true; JStr "crash"] <> []
  /\ exists resp w' r,
       Flask.batch_predict sample_globals
         [JStr "Great!"; JStr ""; JOther true; JStr "crash"] sample_world
       = (inr resp, w')
       /\ fst (Flask.predict_sentiment sample_globals "Great!" sample_world)
          = inr r
       /\ Flask.results resp
          = [Flask.Scored 0 r "Great!";
             Flask.Failed 1 Flask.InvalidText (JStr "");
             Flask.Failed 2 Flask.InvalidText (JOther true);
             Flask.Failed 3
               (Flask.Raised (PyExc "ValueError" "cannot vectorize"))
               (JStr "crash")]
       /\ calls w'
          = [CallPreprocess "Great!"; CallTransform ["great!"];
             CallPredict [[6%Q]]; CallPredictProba [[6%Q]];
             CallPreprocess "crash"; CallTransform ["crash"]]
       /\ ticks w' = 1%nat.
Proof.
  assert (Hm : model sample_globals <> None) by discriminate.
  assert (Hne : [JStr "Great!"; JStr ""; JOther true; JStr "crash"] <> [])
    by discriminate.
  split; [exact Hm|]. split; [exact Hne|].
  destruct (flask_batch_scores_like_single sample_globals
              [JStr "Great!"; JStr ""; JOther true; JStr "crash"]
              sample_world Hm Hne)
    as (resp & w' & Hr & _ & Hticks & _ & _ & Hcalls & _ & _ & Hnth).
  pose proof (Hnth 0%nat _ sample_world eq_refl) as H0.
  pose proof (Hnth 1%nat _ sample_world eq_refl) as H1.
  pose proof (Hnth 2%nat _ sample_world eq_refl) as H2.
  pose proof (Hnth 3%nat _ sample_world eq_refl) as H3.
  exists resp, w'. eexists.
  split; [exact Hr|]. split; [reflexivity|].
  split; [|split; [rewrite Hcalls; reflexivity | rewrite Hticks; reflexivity]].
  assert (Hlen : length (Flask.results resp) = 4%nat).
  { cbn in Hr. injection Hr as <- _. reflexivity. }
  destruct (Flask.results resp) as [|e0 [|e1 [|e2 [|e3 [|e4 l]]]]];
    try discriminate Hlen.
  cbn in H0, H1, H2, H3.
  injection H0 as ->. injection H1 as ->. injection H2 as ->.
  injection H3 as ->. reflexivity.
Defined.
